(** * LiberTEM UDF engine: a shallow embedding of [libertem/udf/base.py]

    The development follows the source file top to bottom: the Python
    run-time notions the code relies on (exceptions, ordered dicts,
    statements that mutate objects and may raise), the external
    collaborators (NumPy, the buffer library, datasets and partitions),
    then [UDFData], [UDFMeta], the [UDF] base class, [UDFTask] and
    [UDFRunner], each with its methods in a module of its own.  After the
    code come the vocabulary in which the properties are stated, a small
    concrete instance of the collaborators with the UDFs of
    [tests/utils.py], the properties with their proofs, and the
    properties at concrete inputs. *)

From stdpp Require Import gmap strings list.
From Stdlib Require Import Lia.

Open Scope string_scope.
Open Scope list_scope.
Open Scope nat_scope.

(** ** Python run-time notions *)

(** The exception classes raised anywhere in [base.py].  Messages are not
    modelled, only the class, which is what an [except] clause tests. *)
Inductive exception :=
  | NotImplementedError
  | TypeError
  | ValueError
  | KeyError
  | AttributeError
  | AssertionError
  | IndexError
  | ImportError
  | RuntimeError.

#[global] Instance exception_eq_dec : EqDecision exception.
Proof. solve_decision. Defined.

(** The outcome of evaluating a Python expression or statement. *)
Inductive result (A : Type) :=
  | Ok (a : A)
  | Raise (e : exception).
Arguments Ok {A} a.
Arguments Raise {A} e.

Definition is_ok {A} (r : result A) : bool :=
  match r with Ok _ => true | Raise _ => false end.

Definition rbind {A B} (r : result A) (k : A -> result B) : result B :=
  match r with
  | Ok a => k a
  | Raise e => Raise e
  end.

(** Statements that mutate a store [S] and may raise: the store is
    threaded through, and it survives an exception (what was written
    before the [raise] stays written). *)
Definition M (S A : Type) : Type := S -> S * result A.

Definition ret {S A} (a : A) : M S A := fun s => (s, Ok a).
Definition throw {S A} (e : exception) : M S A := fun s => (s, Raise e).
Definition bind {S A B} (m : M S A) (k : A -> M S B) : M S B :=
  fun s => match m s with
           | (s', Ok a) => k a s'
           | (s', Raise e) => (s', Raise e)
           end.
Definition lift {S A} (r : result A) : M S A := fun s => (s, r).

(** A method of an object held in a field of another object: the field
    is read, the method runs on it, and what the method did to the field
    is seen through the owner, also when the method raises. *)
Definition zoom {H S T A} (get : T -> S) (set : S -> T -> T) (m : M (H * S) A)
  : M (H * T) A :=
  fun ht => match m (ht.1, get ht.2) with
            | ((h', s'), r) => ((h', set s' ht.2), r)
            end.

(** A statement that only touches the first component of the store. *)
Definition on_fst {H T A} (m : M H A) : M (H * T) A :=
  fun ht => match m ht.1 with (h', r) => ((h', ht.2), r) end.

(** A statement that only touches the second component of the store. *)
Definition on_snd {H T A} (m : M T A) : M (H * T) A :=
  fun ht => match m ht.2 with (t', r) => ((ht.1, t'), r) end.

(** [try: body finally: handler]: the handler runs on both exits; an
    exception of the handler replaces the outcome of the body. *)
Definition try_finally {S A} (body : M S A) (handler : M S unit) : M S A :=
  fun s => match body s with
           | (s', r) =>
               match handler s' with
               | (s'', Ok _) => (s'', r)
               | (s'', Raise e) => (s'', Raise e)
               end
           end.

Declare Scope py_scope.
Delimit Scope py_scope with py.
Notation "x <- m ;; k" := (bind m (fun x => k))
  (at level 100, m at next level, right associativity) : py_scope.
Notation "m ;;; k" := (bind m (fun _ => k))
  (at level 100, right associativity) : py_scope.

(** *** Insertion-ordered dictionaries with string keys

    A Python [dict] iterates in insertion order, and [for k in d] of the
    default merge depends on it, so a dict is an association list with
    pairwise distinct keys. *)
Definition dict (V : Type) : Type := list (string * V).

Fixpoint dict_get {V} (k : string) (d : dict V) : option V :=
  match d with
  | [] => None
  | (k', v) :: d' => if String.eqb k k' then Some v else dict_get k d'
  end.

(** [k in d] *)
Definition dict_contains {V} (k : string) (d : dict V) : bool :=
  match dict_get k d with Some _ => true | None => false end.

(** [d[k]], raising [KeyError] for a missing key *)
Definition dict_getitem {V} (k : string) (d : dict V) : result V :=
  match dict_get k d with
  | Some v => Ok v
  | None => Raise KeyError
  end.

(** [d[k] = v]: an existing key keeps its position, a new one goes last *)
Fixpoint dict_set {V} (k : string) (v : V) (d : dict V) : dict V :=
  match d with
  | [] => [(k, v)]
  | (k', v') :: d' =>
      if String.eqb k k' then (k, v) :: d' else (k', v') :: dict_set k v d'
  end.

Definition dict_keys {V} (d : dict V) : list string := map fst d.
Definition dict_values {V} (d : dict V) : list V := map snd d.

(** ** External collaborators *)

(** NumPy as the engine uses it: the dtype lattice with
    [numpy.result_type] and [numpy.can_cast(_, _, casting='safe')], and
    array objects.  Arrays are mutable objects that may alias each other
    (a view shares memory with its base), so they live in a store [heap]
    and the engine holds references [aref]; [setitem_all d s] is the
    statement [d[:] = s], which either writes or fails to broadcast and
    leaves the store alone ([None], a [ValueError]). *)
Class Numpy := {
  dtype : Type;
  result_type : dtype -> dtype -> dtype;
  can_cast_safe : dtype -> dtype -> bool;
  heap : Type;
  aref : Type;
  dtype_of : heap -> aref -> dtype;
  setitem_all : aref -> aref -> heap -> option heap;
}.

(** A small concrete NumPy: eight dtypes, closed under NumPy's promotion
    table, arrays as flat lists of integers in a list-backed store, and
    [d[:] = s] for arrays of equal length. *)
Module SmallNumpy.

Inductive dt :=
  bool_ | int16 | int32 | float32 | float64 | complex64 | complex128 | object_.

#[global] Instance dt_eq_dec : EqDecision dt.
Proof. solve_decision. Defined.

Definition promote (a b : dt) : dt :=
  match a, b with
  | object_, _ | _, object_ => object_
  | bool_, x | x, bool_ => x
  | complex128, _ | _, complex128 => complex128
  | complex64, (float64 | int32) | (float64 | int32), complex64 => complex128
  | complex64, _ | _, complex64 => complex64
  | float64, _ | _, float64 => float64
  | float32, int32 | int32, float32 => float64
  | float32, _ | _, float32 => float32
  | int32, _ | _, int32 => int32
  | int16, int16 => int16
  end.

Definition safe (from to : dt) : bool :=
  match from, to with
  | _, object_ => true
  | bool_, _ => true
  | int16, (int16 | int32 | float32 | float64 | complex64 | complex128) => true
  | int32, (int32 | float64 | complex128) => true
  | float32, (float32 | float64 | complex64 | complex128) => true
  | float64, (float64 | complex128) => true
  | complex64, (complex64 | complex128) => true
  | complex128, complex128 => true
  | _, _ => false
  end.

Definition store : Type := list (dt * list Z).

Definition dtype_at (h : store) (a : nat) : dt :=
  match h !! a with Some (t, _) => t | None => bool_ end.

Definition assign (d s : nat) (h : store) : option store :=
  match h !! d, h !! s with
  | Some (td, xd), Some (_, xs) =>
      if Nat.eqb (length xd) (length xs)
      then Some (<[d := (td, xs)]> h)
      else None
  | _, _ => None
  end.

End SmallNumpy.

Definition small_numpy : Numpy := {|
  dtype := SmallNumpy.dt;
  result_type := SmallNumpy.promote;
  can_cast_safe := SmallNumpy.safe;
  heap := SmallNumpy.store;
  aref := nat;
  dtype_of := SmallNumpy.dtype_at;
  setitem_all := SmallNumpy.assign;
|}.

(** Modelled from the spec: the partitions and datasets of
    [libertem.io.dataset.base], which are not part of this file.  A
    partition is "a contiguous block of nav positions": [part_start] and
    [part_stop] are the bounds of [partition.slice.get(nav_only=True)] in
    the flattened navigation axis, and [part_meta_shape] is
    [partition.meta.shape], the shape of the dataset.  A shape is split
    into its navigation and signal axes. *)
Record Shape := {
  nav : list nat;
  sig : list nat;
}.

Record Partition `{Numpy} := {
  part_start : nat;
  part_stop : nat;
  part_dtype : dtype;
  part_meta_shape : Shape;
}.

Record DataSet `{Numpy} := {
  ds_shape : Shape;
  ds_dtype : dtype;
  get_partitions : list Partition;
}.

(** A tile is known to the engine by its slice only. *)
Record Tile := {
  tile_start : nat;
  tile_stop : nat;
}.

(** A region of interest, flattened ([roi.reshape(-1)]). *)
Definition Roi : Type := list bool.

(** Modelled from the spec: the [BufferWrapper] of
    [libertem.common.buffers], "value of kind, extra_shape, dtype, where,
    backing storage (present only once allocated)".  [kind] is the string
    the user passed to [UDF.buffer]. *)
Record BufferWrapper `{Numpy} := {
  kind : string;
  extra_shape : list nat;
  buf_dtype : dtype;
  where_ : option string;
  raw_data : option aref;
}.

Definition has_data `{Numpy} (b : BufferWrapper) : bool :=
  match raw_data b with Some _ => true | None => false end.

(** The methods of [BufferWrapper] and [AuxBufferWrapper] that [base.py]
    calls.  Creating a view makes a new array object, hence the store. *)
Class Buffers `{Numpy} := {
  get_view_for_dataset : BufferWrapper -> DataSet -> M heap aref;
  get_view_for_partition : BufferWrapper -> Partition -> M heap aref;
  get_view_for_tile : BufferWrapper -> Partition -> Tile -> M heap aref;
  get_contiguous_view_for_tile : BufferWrapper -> Partition -> Tile -> M heap aref;
  get_view_for_frame : BufferWrapper -> Partition -> Tile -> nat -> M heap aref;
  new_for_partition : BufferWrapper -> Partition -> option Roi -> BufferWrapper;
  set_shape_ds : BufferWrapper -> DataSet -> option Roi -> BufferWrapper;
  allocate : BufferWrapper -> M heap BufferWrapper;
}.

(** The Python values that a [UDFData] holds or hands out. *)
Inductive pyobj `{Numpy} :=
  | PyNone
  | PyInt (z : Z)
  | PyStr (s : string)
  | PyStrTuple (l : list string)
  | PyArray (a : aref)
  | PyBuffer (b : BufferWrapper).

(** [hasattr(o, 'raw_data')] and [hasattr(o, 'has_data')]: only buffer
    wrappers have these attributes. *)
Definition as_buffer `{Numpy} (o : pyobj) : option BufferWrapper :=
  match o with PyBuffer b => Some b | _ => None end.

(** [buf.raw_data] as a Python value *)
Definition raw_data_obj `{Numpy} (b : BufferWrapper) : pyobj :=
  match raw_data b with Some a => PyArray a | None => PyNone end.

(** ** [class UDFData] *)

Record UDFData `{Numpy} := {
  _data : dict pyobj;
  _views : dict aref;
}.

Module UDFData_.
Section Methods.
Context `{Buffers}.

Definition __init__ (data : dict pyobj) : UDFData :=
  {| _data := data; _views := [] |}.

Definition _get_view_or_data (self : UDFData) (k : string) : result pyobj :=
  if dict_contains k (_views self) then
    rbind (dict_getitem k (_views self)) (fun a => Ok (PyArray a))
  else
    rbind (dict_getitem k (_data self)) (fun res =>
      match as_buffer res with
      | Some b => Ok (raw_data_obj b)
      | None => Ok res
      end).

Definition __getattr__ (self : UDFData) (k : string) : result pyobj :=
  if String.prefix "_" k then Raise AttributeError
  else
    match _get_view_or_data self k with
    | Raise KeyError => Raise AttributeError
    | r => r
    end.

Definition get (self : UDFData) (k : string) (default : pyobj) : result pyobj :=
  match __getattr__ self k with
  | Raise KeyError => Ok default
  | r => r
  end.

Definition __getitem__ (self : UDFData) (k : string) : result pyobj :=
  dict_getitem k (_data self).

Definition __contains__ (self : UDFData) (k : string) : bool :=
  dict_contains k (_data self).

Definition items (self : UDFData) : dict pyobj := _data self.

Definition keys (self : UDFData) : list string := dict_keys (_data self).

Definition as_dict (self : UDFData) : dict pyobj := items self.

(** The dict comprehension of [get_proxy]; [self._data[k].raw_data]
    raises [AttributeError] on a value that is no buffer. *)
Fixpoint proxy_items (views : dict aref) (its : dict pyobj) : result (dict pyobj) :=
  match its with
  | [] => Ok []
  | (k, v) :: rest =>
      rbind (match dict_get k views with
             | Some a => Ok (PyArray a)
             | None =>
                 match as_buffer v with
                 | Some b => Ok (raw_data_obj b)
                 | None => Raise AttributeError
                 end
             end) (fun x =>
      rbind (proxy_items views rest) (fun d => Ok ((k, x) :: d)))
  end.

Definition get_proxy (self : UDFData) : result (dict pyobj) :=
  proxy_items (_views self) (_data self).

(** The generator [_get_buffers], as the list it yields. *)
Fixpoint _get_buffers_of (its : dict pyobj) (filter_allocated : bool)
  : list (string * BufferWrapper) :=
  match its with
  | [] => []
  | (k, buf) :: rest =>
      match as_buffer buf with
      | None => _get_buffers_of rest filter_allocated
      | Some b =>
          if has_data b && filter_allocated
          then _get_buffers_of rest filter_allocated
          else (k, b) :: _get_buffers_of rest filter_allocated
      end
  end.

Definition _get_buffers (self : UDFData) (filter_allocated : bool) :=
  _get_buffers_of (_data self) filter_allocated.

Definition with_views (self : UDFData) (v : dict aref) : UDFData :=
  {| _data := _data self; _views := v |}.

(** The loop shared by the five [set_view_for_*] methods:
    [for k, buf in self._get_buffers(): self._views[k] = getter(buf)].
    The object is part of the store: a getter that raises half-way
    leaves the views set so far. *)
Fixpoint set_views_loop (getter : BufferWrapper -> M heap aref)
    (bufs : list (string * BufferWrapper)) : M (heap * UDFData) unit :=
  match bufs with
  | [] => ret tt
  | (k, buf) :: rest =>
      fun hs =>
        match getter buf hs.1 with
        | (h', Ok a) =>
            set_views_loop getter rest (h', with_views hs.2 (dict_set k a (_views hs.2)))
        | (h', Raise e) => ((h', hs.2), Raise e)
        end
  end.

Definition set_view_with (getter : BufferWrapper -> M heap aref)
  : M (heap * UDFData) unit :=
  fun hs => set_views_loop getter (_get_buffers hs.2 false) hs.

Definition set_view_for_dataset (dataset : DataSet) :=
  set_view_with (fun buf => get_view_for_dataset buf dataset).

Definition set_view_for_partition (partition : Partition) :=
  set_view_with (fun buf => get_view_for_partition buf partition).

Definition set_view_for_tile (partition : Partition) (tile : Tile) :=
  set_view_with (fun buf => get_view_for_tile buf partition tile).

Definition set_contiguous_view_for_tile (partition : Partition) (tile : Tile) :=
  set_view_with (fun buf => get_contiguous_view_for_tile buf partition tile).

Definition set_view_for_frame (partition : Partition) (tile : Tile) (frame_idx : nat) :=
  set_view_with (fun buf => get_view_for_frame buf partition tile frame_idx).

(** [allocate_for_full]: two passes over the buffers, the second over
    those that have no storage yet. *)
Fixpoint set_shape_ds_items (its : dict pyobj) (dataset : DataSet) (roi : option Roi)
  : dict pyobj :=
  match its with
  | [] => []
  | (k, v) :: rest =>
      (k, match as_buffer v with
          | Some buf => PyBuffer (set_shape_ds buf dataset roi)
          | None => v
          end) :: set_shape_ds_items rest dataset roi
  end.

Fixpoint allocate_items (its : dict pyobj) (h : heap) : heap * dict pyobj * result unit :=
  match its with
  | [] => (h, [], Ok tt)
  | (k, v) :: rest =>
      match as_buffer v with
      | Some buf =>
          if has_data buf
          then let '(h', rest', r) := allocate_items rest h in (h', (k, v) :: rest', r)
          else
            match allocate buf h with
            | (h1, Ok buf') =>
                let '(h', rest', r) := allocate_items rest h1 in
                (h', (k, PyBuffer buf') :: rest', r)
            | (h1, Raise e) => (h1, (k, v) :: rest, Raise e)
            end
      | None => let '(h', rest', r) := allocate_items rest h in (h', (k, v) :: rest', r)
      end
  end.

Definition allocate_for_full (dataset : DataSet) (roi : option Roi)
  : M (heap * UDFData) unit :=
  fun hs =>
    let shaped := set_shape_ds_items (_data hs.2) dataset roi in
    let '(h', d, r) := allocate_items shaped hs.1 in
    ((h', {| _data := d; _views := _views hs.2 |}), r).

(** [new_for_partition] (the underscore keeps the name apart from the
    buffer method it calls): every buffer is replaced, in place, by its
    re-sliced copy; keys and their order stay. *)
Fixpoint new_for_partition_items (its : dict pyobj) (partition : Partition)
    (roi : option Roi) : dict pyobj :=
  match its with
  | [] => []
  | (k, v) :: rest =>
      (k, match as_buffer v with
          | Some buf => PyBuffer (new_for_partition buf partition roi)
          | None => v
          end) :: new_for_partition_items rest partition roi
  end.

Definition new_for_partition_ (self : UDFData) (partition : Partition)
    (roi : option Roi) : UDFData :=
  {| _data := new_for_partition_items (_data self) partition roi;
     _views := _views self |}.

Definition clear_views (self : UDFData) : UDFData :=
  {| _data := _data self; _views := [] |}.

End Methods.
End UDFData_.

(** ** [class UDFMeta] *)

Record Slice := {
  origin : list nat;
  slice_shape : Shape;
}.

(** Tiling schemes and correction sets are opaque to this file. *)
Definition TilingScheme : Type := list nat.

Inductive CorrectionSet :=
  | NoCorrections
  | Corrections (id : nat).

Record UDFMeta `{Numpy} := {
  _partition_shape : option Shape;
  _dataset_shape : Shape;
  _dataset_dtype : dtype;
  _input_dtype : dtype;
  _tiling_scheme : option TilingScheme;
  _tiling_index : nat;
  _device_class : string;
  _roi : option Roi;
  _slice : option Slice;
  _corrections : CorrectionSet;
}.

Module UDFMeta_.
Section Methods.
Context `{Numpy}.

Definition __init__ (partition_shape : option Shape) (dataset_shape : Shape)
    (roi : option Roi) (dataset_dtype input_dtype : dtype)
    (tiling_scheme : option TilingScheme) (tiling_index : nat)
    (corrections : option CorrectionSet) (device_class : option string) : UDFMeta :=
  {| _partition_shape := partition_shape;
     _dataset_shape := dataset_shape;
     _dataset_dtype := dataset_dtype;
     _input_dtype := input_dtype;
     _tiling_scheme := tiling_scheme;
     _tiling_index := tiling_index;
     _device_class := match device_class with None => "cpu" | Some c => c end;
     _roi := roi;
     _slice := None;
     _corrections := match corrections with None => NoCorrections | Some c => c end |}.

Definition input_dtype (self : UDFMeta) : dtype := _input_dtype self.
Definition dataset_dtype (self : UDFMeta) : dtype := _dataset_dtype self.
Definition device_class (self : UDFMeta) : string := _device_class self.

End Methods.
End UDFMeta_.

(** What [self.xp] can be. *)
Inductive array_module := numpy_module | cupy_module.

(** ** [class UDFBase] and [class UDF]

    A UDF is a Python class written by the user.  [UDFClass] is what the
    subclass provides: the methods it overrides, as functions of the
    instance's parameters, the [merge] and [preprocess] it may define,
    and which of the [process_*] methods it has ([hasattr]).  [UDF] is an
    instance.  [self._kwargs] and [self.params._data] are the same dict
    object, so the instance keeps it once, inside [params]. *)
Record UDFClass `{Numpy} := {
  cls_name : string;
  cls_get_result_buffers : dict pyobj -> result (dict BufferWrapper);
  cls_get_preferred_input_dtype : dict pyobj -> dtype;
  cls_get_backends : dict pyobj -> list string;
  cls_merge : option (dict pyobj -> dict pyobj -> M heap unit);
  cls_preprocess : option (UDFData -> M heap unit);
  cls_process_tile : bool;
  cls_process_frame : bool;
  cls_process_partition : bool;
}.

Record UDF `{Numpy} := {
  __class__ : UDFClass;
  _backend : string;
  params : UDFData;
  task_data : option UDFData;
  results : option UDFData;
  _requires_custom_merge : option bool;
  meta : option UDFMeta;
}.

Module UDF_.
Section Methods.
Context `{Buffers}.

Definition _kwargs (self : UDF) : dict pyobj := _data (params self).

Definition __init__ (cls : UDFClass) (kwargs : dict pyobj) : UDF :=
  {| __class__ := cls;
     _backend := "numpy";
     params := UDFData_.__init__ kwargs;
     task_data := None;
     results := None;
     _requires_custom_merge := None;
     meta := None |}.

Definition with_params (self : UDF) (p : UDFData) : UDF :=
  {| __class__ := __class__ self; _backend := _backend self; params := p;
     task_data := task_data self; results := results self;
     _requires_custom_merge := _requires_custom_merge self; meta := meta self |}.

Definition with_results (self : UDF) (r : option UDFData) : UDF :=
  {| __class__ := __class__ self; _backend := _backend self; params := params self;
     task_data := task_data self; results := r;
     _requires_custom_merge := _requires_custom_merge self; meta := meta self |}.

Definition with_cache (self : UDF) (c : option bool) : UDF :=
  {| __class__ := __class__ self; _backend := _backend self; params := params self;
     task_data := task_data self; results := results self;
     _requires_custom_merge := c; meta := meta self |}.

Definition set_meta (self : UDF) (m : UDFMeta) : UDF :=
  {| __class__ := __class__ self; _backend := _backend self; params := params self;
     task_data := task_data self; results := results self;
     _requires_custom_merge := _requires_custom_merge self; meta := Some m |}.

Definition copy (self : UDF) : UDF := __init__ (__class__ self) (_kwargs self).

Definition copy_for_partition (self : UDF) (partition : Partition) (roi : option Roi) : UDF :=
  let new_instance := __init__ (__class__ self) (_kwargs self) in
  with_params new_instance
    (UDFData_.new_for_partition_ (params new_instance) partition roi).

Definition get_result_buffers (self : UDF) : result (dict BufferWrapper) :=
  cls_get_result_buffers (__class__ self) (_kwargs self).

Definition get_preferred_input_dtype (self : UDF) : dtype :=
  cls_get_preferred_input_dtype (__class__ self) (_kwargs self).

Definition get_backends (self : UDF) : list string :=
  cls_get_backends (__class__ self) (_kwargs self).

(** [UDFBase.get_method] *)
Definition get_method (self : UDF) : result string :=
  if cls_process_tile (__class__ self) then Ok "tile"
  else if cls_process_frame (__class__ self) then Ok "frame"
  else if cls_process_partition (__class__ self) then Ok "partition"
  else Raise TypeError.

(** The name spaces [self.params] and [self.results] as fields of the
    store; before [init_result_buffers], [self.results] is [None], which
    has none of the [UDFData] methods. *)
Definition in_params {A} (m : M (heap * UDFData) A) : M (heap * UDF) A :=
  zoom params (fun p self => with_params self p) m.

Definition in_results {A} (m : M (heap * UDFData) A) : M (heap * UDF) A :=
  fun hs =>
    match results hs.2 with
    | None => (hs, Raise AttributeError)
    | Some r =>
        match m (hs.1, r) with
        | ((h', r'), x) => ((h', with_results hs.2 (Some r')), x)
        end
    end.

Definition data_clear_views : M (heap * UDFData) unit :=
  fun hs => ((hs.1, UDFData_.clear_views hs.2), Ok tt).

(** [for ns in [self.params, self.results]: ns.clear_views()] *)
Definition clear_views : M (heap * UDF) unit :=
  (in_params data_clear_views ;;; in_results data_clear_views)%py.

(** [for ns in [self.params]: ns.set_view_for_dataset(dataset)] *)
Definition set_views_for_dataset (dataset : DataSet) : M (heap * UDF) unit :=
  in_params (UDFData_.set_view_for_dataset dataset).

(** [for ns in [self.params, self.results]: ns.set_view_for_partition(partition)] *)
Definition set_views_for_partition (partition : Partition) : M (heap * UDF) unit :=
  (in_params (UDFData_.set_view_for_partition partition) ;;;
   in_results (UDFData_.set_view_for_partition partition))%py.

(** [for ns in [self.params, self.results]: ns.allocate_for_full(dataset, roi)] *)
Definition allocate_for_full (dataset : DataSet) (roi : option Roi) : M (heap * UDF) unit :=
  (in_params (UDFData_.allocate_for_full dataset roi) ;;;
   in_results (UDFData_.allocate_for_full dataset roi))%py.

Definition init_result_buffers : M (heap * UDF) unit :=
  fun hs =>
    match get_result_buffers hs.2 with
    | Raise e => (hs, Raise e)
    | Ok bufs =>
        ((hs.1, with_results hs.2
                  (Some (UDFData_.__init__ (map (fun kb => (kb.1, PyBuffer kb.2)) bufs)))),
         Ok tt)
    end.

(** The property [requires_custom_merge]: computed on first use and
    kept in [self._requires_custom_merge]. *)
Definition requires_custom_merge : M UDF bool :=
  fun self =>
    match _requires_custom_merge self with
    | None =>
        match get_result_buffers self with
        | Raise e => (self, Raise e)
        | Ok buffers =>
            let b := existsb (fun buffer => negb (String.eqb (kind buffer) "nav"))
                             (dict_values buffers) in
            (with_cache self (Some b), Ok b)
        end
    | Some b => (self, Ok b)
    end.

(** [x.dtype]: only arrays have the attribute. *)
Definition dtype_attr (h : heap) (x : pyobj) : result dtype :=
  match x with
  | PyArray a => Ok (dtype_of h a)
  | _ => Raise AttributeError
  end.

(** The module-level function [check_cast]. *)
Definition check_cast (fromvar tovar : pyobj) : M heap unit :=
  fun h =>
    match dtype_attr h fromvar with
    | Raise e => (h, Raise e)
    | Ok from_dtype =>
        match dtype_attr h tovar with
        | Raise e => (h, Raise e)
        | Ok to_dtype =>
            if can_cast_safe from_dtype to_dtype then (h, Ok tt)
            else (h, Raise TypeError)
        end
    end.

(** [d[:] = s] on Python values: a target that is not an array does not
    support item assignment. *)
Definition setitem_slice (d s : pyobj) : M heap unit :=
  fun h =>
    match d, s with
    | PyArray d', PyArray s' =>
        match setitem_all d' s' h with
        | Some h' => (h', Ok tt)
        | None => (h, Raise ValueError)
        end
    | _, _ => (h, Raise TypeError)
    end.

(** The loop [for k in dest: check_cast(dest[k], src[k]); dest[k][:] = src[k]]. *)
Fixpoint merge_loop (ks : list string) (dest src : dict pyobj) : M heap unit :=
  match ks with
  | [] => ret tt
  | k :: ks' =>
      (d <- lift (dict_getitem k dest) ;;
       s <- lift (dict_getitem k src) ;;
       check_cast d s ;;;
       s' <- lift (dict_getitem k src) ;;
       d' <- lift (dict_getitem k dest) ;;
       setitem_slice d' s' ;;;
       merge_loop ks' dest src)%py
  end.

(** [UDF.merge], the default merge. *)
Definition default_merge (dest src : dict pyobj) : M (heap * UDF) unit :=
  (b <- on_snd requires_custom_merge ;;
   if b : bool then throw NotImplementedError
   else on_fst (merge_loop (dict_keys dest) dest src))%py.

(** [udf.merge(dest, src)] with method resolution: the subclass's
    [merge] if it has one. *)
Definition merge (dest src : dict pyobj) : M (heap * UDF) unit :=
  fun hs =>
    match cls_merge (__class__ hs.2) with
    | Some user_merge => on_fst (user_merge dest src) hs
    | None => default_merge dest src hs
    end.

(** *** More of [UDFBase] *)

Definition with_backend (self : UDF) (b : string) : UDF :=
  {| __class__ := __class__ self; _backend := b; params := params self;
     task_data := task_data self; results := results self;
     _requires_custom_merge := _requires_custom_merge self; meta := meta self |}.

Definition with_task_data (self : UDF) (t : option UDFData) : UDF :=
  {| __class__ := __class__ self; _backend := _backend self; params := params self;
     task_data := t; results := results self;
     _requires_custom_merge := _requires_custom_merge self; meta := meta self |}.

Definition with_meta (self : UDF) (m : option UDFMeta) : UDF :=
  {| __class__ := __class__ self; _backend := _backend self; params := params self;
     task_data := task_data self; results := results self;
     _requires_custom_merge := _requires_custom_merge self; meta := m |}.

(** [set_backend]: [assert backend in self.get_backends()] *)
Definition set_backend (backend : string) : M UDF unit :=
  fun self =>
    if bool_decide (backend ∈ get_backends self)
    then (with_backend self backend, Ok tt)
    else (self, Raise AssertionError).

(** The property [xp]; [import cupy] fails where CuPy is not installed. *)
Definition xp (cupy_installed : bool) (self : UDF) : result array_module :=
  if String.eqb (_backend self) "numpy" || String.eqb (_backend self) "cuda"
  then Ok numpy_module
  else if String.eqb (_backend self) "cupy"
  then (if cupy_installed then Ok cupy_module else Raise ImportError)
  else Raise ValueError.

(** [UDFMeta]'s setter of [slice] *)
Definition meta_with_slice (m : UDFMeta) (s : option Slice) : UDFMeta :=
  {| _partition_shape := _partition_shape m; _dataset_shape := _dataset_shape m;
     _dataset_dtype := _dataset_dtype m; _input_dtype := _input_dtype m;
     _tiling_scheme := _tiling_scheme m; _tiling_index := _tiling_index m;
     _device_class := _device_class m; _roi := _roi m; _slice := s;
     _corrections := _corrections m |}.

(** [for ns in [self.params, self.results]: ns.set_view_for_tile(partition, tile)] *)
Definition set_views_for_tile (partition : Partition) (tile : Tile) : M (heap * UDF) unit :=
  (in_params (UDFData_.set_view_for_tile partition tile) ;;;
   in_results (UDFData_.set_view_for_tile partition tile))%py.

Definition set_contiguous_views_for_tile (partition : Partition) (tile : Tile)
  : M (heap * UDF) unit :=
  (in_params (UDFData_.set_contiguous_view_for_tile partition tile) ;;;
   in_results (UDFData_.set_contiguous_view_for_tile partition tile))%py.

Definition set_views_for_frame (partition : Partition) (tile : Tile) (frame_idx : nat)
  : M (heap * UDF) unit :=
  (in_params (UDFData_.set_view_for_frame partition tile frame_idx) ;;;
   in_results (UDFData_.set_view_for_frame partition tile frame_idx))%py.

End Methods.
End UDF_.

(** ** [class UDFTask] *)

Record UDFTask `{Numpy} := {
  partition : Partition;
  idx : nat;
  task_roi : option Roi;
  task_udfs : list UDF;
  task_backends : option (list string);
  task_corrections : option CorrectionSet;
}.

Module UDFTask_.
Section Methods.
Context `{Buffers}.

(** [backends.intersection_update(backend_set)] for every set of the list *)
Fixpoint intersect_all (backends : gset string) (sets : list (gset string)) : gset string :=
  match sets with
  | [] => backends
  | backend_set :: rest => intersect_all (backends ∩ backend_set) rest
  end.

Definition get_resources (self : UDFTask) : result (gmap string nat) :=
  let backends_for_udfs : list (gset string) :=
    map (fun udf => list_to_set (UDF_.get_backends udf)) (task_udfs self) in
  match backends_for_udfs with
  | [] => Raise IndexError
  | first :: _ =>
      let backends := intersect_all first backends_for_udfs in
      let backends :=
        match task_backends self with
        | Some limit => list_to_set limit ∩ backends
        | None => backends
        end in
      if Nat.eqb (size backends) 0 then Raise ValueError
      else if bool_decide ("numpy" ∈ backends)
              && (bool_decide ("cupy" ∈ backends) || bool_decide ("cuda" ∈ backends))
      then Ok {[ "compute" := 1 ]}
      else if bool_decide ("numpy" ∈ backends)
      then Ok (<[ "CPU" := 1 ]> {[ "compute" := 1 ]})
      else if bool_decide ("cupy" ∈ backends) || bool_decide ("cuda" ∈ backends)
      then Ok (<[ "CUDA" := 1 ]> {[ "compute" := 1 ]})
      else Raise ValueError
  end.

End Methods.
End UDFTask_.

(** ** [class UDFRunner] *)

Record UDFRunner `{Numpy} := {
  _udfs : list UDF;
  _debug : bool;
}.

(** The process-wide state of a worker: the current CUDA device, the
    thread limit of the numeric libraries, and everything else ([W]: the
    UDF objects, their buffers, the partition reader). *)
Record Worker (W : Type) := {
  device_id : nat;
  num_threads : nat;
  objects : W;
}.
Arguments device_id {W} _.
Arguments num_threads {W} _.
Arguments objects {W} _.

(** One value yielded by [run_for_dataset_async]: the tuple of result
    dicts.  The dicts hold the live buffers, so what the consumer reads
    through them is the array store at the time of the [yield]. *)
Record Snapshot `{Numpy} := {
  groups : list (dict pyobj);
  arrays : heap;
}.

(** What [run_for_dataset_async] does that a consumer or the executor can
    see: a task's partial results were merged into the global buffers, a
    snapshot was yielded. *)
Inductive event `{Numpy} :=
  | Merged (task : UDFTask)
  | Yielded (s : Snapshot).

(** Modelled from the spec: a tile as [partition.get_tiles] hands it out,
    "each tile has [tile_slice] and iterates as frames on the leading
    axis".  [tile_of] is what the buffer methods need of it. *)
Record DataTile `{Numpy} := {
  tile_of : Tile;
  tile_slice : Slice;
  tile_frames : list aref;
}.

(** Modelled from the spec: the constructor [Shape(dims, sig_dims)], "a
    declared split point separating the leading navigation axes from the
    trailing signal axes". *)
Definition make_Shape (dims : list nat) (sig_dims : nat) : Shape :=
  {| nav := take (length dims - sig_dims) dims;
     sig := drop (length dims - sig_dims) dims |}.

(** The calls that a run on a worker makes into the user's code, with the
    UDF object as it is when the call is made. *)
Inductive user_call `{Numpy} :=
  | Preprocess
  | ProcessTile (tile : DataTile)
  | ProcessFrame (frame : aref)
  | ProcessPartition (tile : DataTile)
  | Postprocess
  | Cleanup.

Record call `{Numpy} := {
  callee : UDF;
  what : user_call;
}.

(** What a run shows on its progress bar: [tqdm.tqdm(total=n)],
    [t.update(n)] and [t.close()]. *)
Inductive bar_event :=
  | BarOpened (total : nat)
  | BarUpdated (n : nat)
  | BarClosed.

(** Statements that, besides changing the store and possibly raising,
    leave a log behind. *)
Definition Logged (E S A : Type) : Type := S -> S * list E * result A.

Definition lret {E S A} (a : A) : Logged E S A := fun s => (s, [], Ok a).

Definition lbind {E S A B} (m : Logged E S A) (k : A -> Logged E S B) : Logged E S B :=
  fun s => match m s with
           | (s1, log1, Ok a) =>
               match k a s1 with (s2, log2, r) => (s2, log1 ++ log2, r) end
           | (s1, log1, Raise e) => (s1, log1, Raise e)
           end.

Definition quiet {E S A} (m : M S A) : Logged E S A :=
  fun s => match m s with (s', r) => (s', [], r) end.

Declare Scope log_scope.
Delimit Scope log_scope with log.
Notation "x <- m ;; k" := (lbind m (fun x => k))
  (at level 100, m at next level, right associativity) : log_scope.
Notation "m ;;; k" := (lbind m (fun _ => k))
  (at level 100, right associativity) : log_scope.

Module UDFRunner_.
Section Methods.
Context `{Buffers}.

(** [_get_dtype]: the loop over [self._udfs] with its accumulator *)
Fixpoint _get_dtype_loop (udfs : list UDF) (tmp_dtype : dtype) : dtype :=
  match udfs with
  | [] => tmp_dtype
  | udf :: rest =>
      _get_dtype_loop rest (result_type (UDF_.get_preferred_input_dtype udf) tmp_dtype)
  end.

Definition _get_dtype (self : UDFRunner) (dtype0 : dtype) : dtype :=
  _get_dtype_loop (_udfs self) dtype0.

Definition _roi_for_partition (roi : Roi) (partition : Partition) : Roi :=
  take (part_stop partition - part_start partition) (drop (part_start partition) roi).

(** [np.count_nonzero] of a boolean array *)
Definition count_nonzero (roi : Roi) : nat :=
  length (filter (fun b => b = true) roi).

(** Modelled from the spec: [partition.slice.adjust_for_roi(roi).shape],
    "nav extent replaced by the count of true entries in that slice". *)
Definition adjust_for_roi_shape (partition : Partition) (roi : option Roi) : Shape :=
  {| nav := [match roi with
             | Some r => count_nonzero (_roi_for_partition r partition)
             | None => part_stop partition - part_start partition
             end];
     sig := sig (part_meta_shape partition) |}.

(** The first statements of [_init_udfs]: the input dtype and the
    metadata without a tiling scheme. *)
Definition _init_udfs_meta (self : UDFRunner) (partition : Partition) (roi : option Roi)
    (corrections : option CorrectionSet) (device_class : string) : UDFMeta :=
  let dtype0 := _get_dtype self (part_dtype partition) in
  UDFMeta_.__init__ (Some (adjust_for_roi_shape partition roi))
    (part_meta_shape partition) roi (part_dtype partition) dtype0
    None 0 corrections (Some device_class).

(** [_udf_lists], the loop of the CUDA branch *)
Fixpoint _udf_lists_cuda (udfs numpy_udfs cupy_udfs : list UDF)
  : result (list UDF * list UDF) :=
  match udfs with
  | [] => Ok (numpy_udfs, cupy_udfs)
  | udf :: rest =>
      let backends := UDF_.get_backends udf in
      if bool_decide ("cuda" ∈ backends)
      then _udf_lists_cuda rest (numpy_udfs ++ [udf]) cupy_udfs
      else if bool_decide ("cupy" ∈ backends)
      then _udf_lists_cuda rest numpy_udfs (cupy_udfs ++ [udf])
      else Raise ValueError
  end.

Definition _udf_lists (self : UDFRunner) (device_class : string)
  : result (list UDF * list UDF) :=
  if String.eqb device_class "cuda" then _udf_lists_cuda (_udfs self) [] []
  else if String.eqb device_class "cpu" then
    if forallb (fun udf => bool_decide ("numpy" ∈ UDF_.get_backends udf)) (_udfs self)
    then Ok (_udfs self, [])
    else Raise AssertionError
  else Raise ValueError.

(** *** [run_for_partition] *)
Section RunForPartition.
(** The worker's environment and the steps of the run that are carried
    out by other objects: the settings of the worker process that
    [libertem.common.backend] reads ([get_device_class()],
    [get_use_cuda()]), the number of devices of the CUDA run time behind
    [cupy.cuda.Device], whether [cupy] can be imported, and the phases
    [_init_udfs], [_run_udfs], [_wrapup_udfs] and
    [partition.set_corrections], which drive user code and the partition
    reader and may do anything to the worker. *)
Variable W : Type.
Variable n_devices : nat.
Variable cupy_installed : bool.
Variable get_device_class : string.
Variable get_use_cuda : option nat.
Variable _init_udfs :
  list UDF -> list UDF -> Partition -> option Roi -> option CorrectionSet -> string ->
  M (Worker W) (UDFMeta * TilingScheme * dtype).
Variable set_corrections : Partition -> option CorrectionSet -> M (Worker W) unit.
Variable _run_udfs :
  list UDF -> list UDF -> Partition -> TilingScheme -> option Roi -> dtype ->
  M (Worker W) unit.
Variable _wrapup_udfs : list UDF -> list UDF -> Partition -> M (Worker W) unit.
Variable results_of : list UDF -> Worker W -> list (option UDFData).

Definition set_device (d : nat) (w : Worker W) : Worker W :=
  {| device_id := d; num_threads := num_threads w; objects := objects w |}.

Definition set_threads (n : nat) (w : Worker W) : Worker W :=
  {| device_id := device_id w; num_threads := n; objects := objects w |}.

(** Modelled from the spec: [cupy.cuda.Device(device).use()].  The
    device id is process-wide; selecting a device that does not exist
    fails and selects nothing; [Device(None)] is the current device. *)
Definition Device_use (device : option nat) : M (Worker W) unit :=
  fun w =>
    match device with
    | None => (w, Ok tt)
    | Some d => if Nat.ltb d n_devices then (set_device d w, Ok tt)
                else (w, Raise RuntimeError)
    end.

(** [import cupy] *)
Definition import_cupy : M (Worker W) unit :=
  fun w => if cupy_installed then (w, Ok tt) else (w, Raise ImportError).

(** Modelled from the spec: [with set_num_threads(n)], "a scoped
    acquisition with guaranteed release". *)
Definition with_num_threads {A} (n : nat) (body : M (Worker W) A) : M (Worker W) A :=
  fun w =>
    let old := num_threads w in
    match body (set_threads n w) with
    | (w', r) => (set_threads old w', r)
    end.

(** The four calls that end the [try] block. *)
Definition run_phases (numpy_udfs cupy_udfs : list UDF) (device_class : string)
    (partition : Partition) (roi : option Roi) (corrections : option CorrectionSet)
  : M (Worker W) unit :=
  (mtd <- _init_udfs numpy_udfs cupy_udfs partition roi corrections device_class ;;
   set_corrections partition corrections ;;;
   _run_udfs numpy_udfs cupy_udfs partition mtd.1.2 roi mtd.2 ;;;
   _wrapup_udfs numpy_udfs cupy_udfs partition)%py.

(** The [try] block.  The local variable [previous_id] is assigned in
    it and read by the [finally] block, so it is the first component
    of the store. *)
Definition run_try (self : UDFRunner) (partition : Partition) (roi : option Roi)
    (corrections : option CorrectionSet) : M (option nat * Worker W) unit :=
  ((fun lw => ((None, lw.2), Ok tt)) ;;;
   device_class <- ret get_device_class ;;
   lists <- lift (_udf_lists self device_class) ;;
   (match lists.2 with
    | [] => ret tt
    | _ :: _ =>
        on_snd import_cupy ;;;
        device <- ret get_use_cuda ;;
        (fun lw => ((Some (device_id lw.2), lw.2), Ok tt)) ;;;
        on_snd (Device_use device)
    end) ;;;
   on_snd (run_phases lists.1 lists.2 device_class partition roi corrections))%py.

(** The [finally] block *)
Definition run_finally : M (option nat * Worker W) unit :=
  fun lw =>
    match lw.1 with
    | Some previous_id => on_snd (Device_use (Some previous_id)) lw
    | None => (lw, Ok tt)
    end.

Definition run_for_partition (self : UDFRunner) (partition : Partition)
    (roi : option Roi) (corrections : option CorrectionSet)
  : M (Worker W) (list (option UDFData)) :=
  with_num_threads 1
    (fun w =>
       match try_finally (run_try self partition roi corrections) run_finally (None, w) with
       | (lw, Ok _) => (lw.2, Ok (results_of (_udfs self) lw.2))
       | (lw, Raise e) => (lw.2, Raise e)
       end).

End RunForPartition.

(** *** Dispatch *)

Definition _check_preconditions (dataset : DataSet) (roi : option Roi) : result unit :=
  match roi with
  | Some r =>
      if Nat.eqb (length r) (foldr Nat.mul 1 (nav (ds_shape dataset)))
      then Ok tt else Raise ValueError
  | None => Ok tt
  end.

(** The generator [_make_udf_tasks], as the list of tasks it yields;
    [idx0] is the counter of [enumerate]. *)
Fixpoint _make_udf_tasks_from (idx0 : nat) (partitions : list Partition)
    (udfs : list UDF) (roi : option Roi) (corrections : option CorrectionSet)
    (backends : option (list string)) : list UDFTask :=
  match partitions with
  | [] => []
  | partition0 :: rest =>
      let tail := _make_udf_tasks_from (S idx0) rest udfs roi corrections backends in
      let skip :=
        match roi with
        | Some r => Nat.eqb (count_nonzero (_roi_for_partition r partition0)) 0
        | None => false
        end in
      if skip then tail
      else
        {| partition := partition0; idx := idx0;
           task_udfs := map (fun udf => UDF_.copy_for_partition udf partition0 roi) udfs;
           task_roi := roi; task_corrections := corrections;
           task_backends := backends |} :: tail
  end.

Definition _make_udf_tasks (self : UDFRunner) (dataset : DataSet) (roi : option Roi)
    (corrections : option CorrectionSet) (backends : option (list string)) : list UDFTask :=
  _make_udf_tasks_from 0 (get_partitions dataset) (_udfs self) roi corrections backends.

(** [for udf in self._udfs: body].  The runner and its UDF objects are
    part of the store, and a body that raises leaves the later UDFs
    untouched. *)
Fixpoint for_each_udf (body : M (heap * UDF) unit) (udfs : list UDF) (h : heap)
  : heap * list UDF * result unit :=
  match udfs with
  | [] => (h, [], Ok tt)
  | udf :: rest =>
      match body (h, udf) with
      | ((h1, udf'), Ok _) =>
          let '(h2, rest', r) := for_each_udf body rest h1 in (h2, udf' :: rest', r)
      | ((h1, udf'), Raise e) => (h1, udf' :: rest, Raise e)
      end
  end.

Definition with_udfs (self : UDFRunner) (udfs : list UDF) : UDFRunner :=
  {| _udfs := udfs; _debug := _debug self |}.

Definition for_udfs (body : M (heap * UDF) unit) : M (heap * UDFRunner) unit :=
  fun hs =>
    let '(h', udfs', r) := for_each_udf body (_udfs hs.2) hs.1 in
    ((h', with_udfs hs.2 udfs'), r).

(** [if hasattr(udf, 'preprocess'): udf.set_views_for_dataset(dataset); udf.preprocess()] *)
Definition preprocess_for_dataset (dataset : DataSet) : M (heap * UDF) unit :=
  fun hs =>
    match cls_preprocess (__class__ hs.2) with
    | None => (hs, Ok tt)
    | Some user_preprocess =>
        (UDF_.set_views_for_dataset dataset ;;;
         UDF_.in_results (fun hr => on_fst (user_preprocess hr.2) hr))%py hs
    end.

(** The metadata that [_prepare_run_for_dataset] builds: no partition,
    no tiling scheme, the default device class. *)
Definition _prepare_meta (self : UDFRunner) (dataset : DataSet) (roi : option Roi)
    (corrections : option CorrectionSet) : UDFMeta :=
  UDFMeta_.__init__ None (ds_shape dataset) roi (ds_dtype dataset)
    (_get_dtype self (ds_dtype dataset)) None 0 corrections None.

(** [_prepare_run_for_dataset] *)
Definition _prepare_run_for_dataset (dataset : DataSet) (roi : option Roi)
    (corrections : option CorrectionSet) (backends : option (list string))
  : M (heap * UDFRunner) (list UDFTask) :=
  (lift (_check_preconditions dataset roi) ;;;
   meta0 <- (fun hs => (hs, Ok (_prepare_meta hs.2 dataset roi corrections))) ;;
   for_udfs ((fun hs => ((hs.1, UDF_.set_meta hs.2 meta0), Ok tt)) ;;;
             UDF_.init_result_buffers ;;;
             UDF_.allocate_for_full dataset roi ;;;
             preprocess_for_dataset dataset) ;;;
   (fun hs => (hs, Ok (_make_udf_tasks hs.2 dataset roi corrections backends))))%py.

(** *** [run_for_dataset_async]

    An async generator, run until it is exhausted or raises: besides
    the store and the outcome it produces the list of its events.  The
    executor is a collaborator: [executor tasks cancel_id] is the stream
    that [executor.run_tasks(tasks, cancel_id)] delivers, and receiving a
    delivery puts the arrays of the partial results into the store or
    raises the executor's error. *)
Definition Gen (S A : Type) : Type := S -> S * list event * result A.

Definition gbind {S A B} (g : Gen S A) (k : A -> Gen S B) : Gen S B :=
  fun s => match g s with
           | (s1, ev1, Ok a) =>
               match k a s1 with (s2, ev2, r) => (s2, ev1 ++ ev2, r) end
           | (s1, ev1, Raise e) => (s1, ev1, Raise e)
           end.

Definition glift {S A} (m : M S A) : Gen S A :=
  fun s => match m s with (s', r) => (s', [], r) end.

Definition emit {S} (e : event) : Gen S unit := fun s => (s, [e], Ok tt).

Definition Executor : Type :=
  list UDFTask -> string -> list (M heap (list UDFData * UDFTask)).

(** [tuple(udf.results.as_dict() for udf in self._udfs)] *)
Fixpoint results_as_dicts (udfs : list UDF) : result (list (dict pyobj)) :=
  match udfs with
  | [] => Ok []
  | udf :: rest =>
      match results udf with
      | None => Raise AttributeError
      | Some r => rbind (results_as_dicts rest) (fun ds => Ok (UDFData_.as_dict r :: ds))
      end
  end.

Definition yield_results : Gen (heap * UDFRunner) unit :=
  fun hs =>
    match results_as_dicts (_udfs hs.2) with
    | Ok g => (hs, [Yielded {| groups := g; arrays := hs.1 |}], Ok tt)
    | Raise e => (hs, [], Raise e)
    end.

(** The body of the inner loop, for one UDF and its partial result. *)
Definition merge_partial (results0 : UDFData) (task : UDFTask) : M (heap * UDF) unit :=
  (UDF_.set_views_for_partition (partition task) ;;;
   dest <- (fun hs => (hs, match results hs.2 with
                           | None => Raise AttributeError
                           | Some r => UDFData_.get_proxy r
                           end)) ;;
   src <- lift (UDFData_.get_proxy results0) ;;
   UDF_.merge dest src ;;;
   UDF_.clear_views)%py.

(** [for results, udf in zip(part_results, self._udfs): ...] *)
Fixpoint merge_zip (part_results : list UDFData) (udfs : list UDF) (task : UDFTask)
    (h : heap) : heap * list UDF * result unit :=
  match part_results, udfs with
  | results0 :: prs, udf :: rest =>
      match merge_partial results0 task (h, udf) with
      | ((h1, udf'), Ok _) =>
          let '(h2, rest', r) := merge_zip prs rest task h1 in (h2, udf' :: rest', r)
      | ((h1, udf'), Raise e) => (h1, udf' :: rest, Raise e)
      end
  | _, _ => (h, udfs, Ok tt)
  end.

Definition merge_task (part_results : list UDFData) (task : UDFTask)
  : M (heap * UDFRunner) unit :=
  fun hs =>
    let '(h', udfs', r) := merge_zip part_results (_udfs hs.2) task hs.1 in
    ((h', with_udfs hs.2 udfs'), r).

(** [async for part_results, task in stream: ... yield ... else: ... yield ...].
    The loop body has no [break], so the [else] suite runs whenever the
    stream is exhausted. *)
Fixpoint async_for (stream : list (M heap (list UDFData * UDFTask)))
  : Gen (heap * UDFRunner) unit :=
  match stream with
  | [] =>
      gbind (glift (for_udfs UDF_.clear_views)) (fun _ => yield_results)
  | receive :: rest =>
      gbind (glift (on_fst receive)) (fun delivery =>
      gbind (glift (merge_task delivery.1 delivery.2)) (fun _ =>
      gbind (emit (Merged delivery.2)) (fun _ =>
      gbind yield_results (fun _ =>
      async_for rest))))
  end.

Definition run_for_dataset_async (dataset : DataSet) (executor : Executor)
    (cancel_id : string) (roi : option Roi) (corrections : option CorrectionSet)
    (backends : option (list string)) : Gen (heap * UDFRunner) unit :=
  gbind (glift (_prepare_run_for_dataset dataset roi corrections backends)) (fun tasks =>
  async_for (executor tasks cancel_id)).

(** *** [run_for_dataset]

    The synchronous run.  What it does to the progress bar ([tqdm]) is
    its log.  [uuid4] is the string that [str(uuid.uuid4())] gives, and
    [pickles_tasks] is the round trip of the tasks through [cloudpickle]
    in [_debug_task_pickling]. *)
Section RunForDataset.
Variable uuid4 : string.
Variable pickles_tasks : list UDFTask -> result unit.

Definition _debug_task_pickling (self : UDFRunner) (tasks : list UDFTask) : result unit :=
  if _debug self then pickles_tasks tasks else Ok tt.

Definition bar (e : bar_event) : Logged bar_event (heap * UDFRunner) unit :=
  fun hs => (hs, [e], Ok tt).

(** The body of the inner loop: as in the asynchronous run, but the
    views are not cleared. *)
Definition merge_partial_sync (results0 : UDFData) (task : UDFTask) : M (heap * UDF) unit :=
  (UDF_.set_views_for_partition (partition task) ;;;
   dest <- (fun hs => (hs, match results hs.2 with
                           | None => Raise AttributeError
                           | Some r => UDFData_.get_proxy r
                           end)) ;;
   src <- lift (UDFData_.get_proxy results0) ;;
   UDF_.merge dest src)%py.

Fixpoint merge_zip_sync (part_results : list UDFData) (udfs : list UDF) (task : UDFTask)
    (h : heap) : heap * list UDF * result unit :=
  match part_results, udfs with
  | results0 :: prs, udf :: rest =>
      match merge_partial_sync results0 task (h, udf) with
      | ((h1, udf'), Ok _) =>
          let '(h2, rest', r) := merge_zip_sync prs rest task h1 in (h2, udf' :: rest', r)
      | ((h1, udf'), Raise e) => (h1, udf' :: rest, Raise e)
      end
  | _, _ => (h, udfs, Ok tt)
  end.

Definition merge_task_sync (part_results : list UDFData) (task : UDFTask)
  : M (heap * UDFRunner) unit :=
  fun hs =>
    let '(h', udfs', r) := merge_zip_sync part_results (_udfs hs.2) task hs.1 in
    ((h', with_udfs hs.2 udfs'), r).

(** [for part_results, task in executor.run_tasks(tasks, cancel_id): ...] *)
Fixpoint for_deliveries (progress : bool) (stream : list (M heap (list UDFData * UDFTask)))
  : Logged bar_event (heap * UDFRunner) unit :=
  match stream with
  | [] => lret tt
  | receive :: rest =>
      (delivery <- quiet (on_fst receive) ;;
       (if progress then bar (BarUpdated 1) else lret tt) ;;;
       quiet (merge_task_sync delivery.1 delivery.2) ;;;
       for_deliveries progress rest)%log
  end.

Definition run_for_dataset (dataset : DataSet) (executor : Executor) (roi : option Roi)
    (progress : bool) (corrections : option CorrectionSet) (backends : option (list string))
  : Logged bar_event (heap * UDFRunner) (list (dict pyobj)) :=
  (tasks <- quiet (_prepare_run_for_dataset dataset roi corrections backends) ;;
   quiet (fun hs => (hs, _debug_task_pickling hs.2 tasks)) ;;;
   (if progress then bar (BarOpened (length tasks)) else lret tt) ;;;
   for_deliveries progress (executor tasks uuid4) ;;;
   (if progress then bar BarClosed else lret tt) ;;;
   quiet (for_udfs UDF_.clear_views) ;;;
   quiet (fun hs => (hs, results_as_dicts (_udfs hs.2))))%log.

End RunForDataset.

(** *** The phases of a run on a worker

    [_init_udfs], [_run_udfs] and [_wrapup_udfs] work on the two lists of
    UDF objects that [_udf_lists] returned.  The objects are mutated, so
    the lists are part of the store ([RunState]); a UDF is addressed by
    its list ([false]: host mode, [true]: device mode) and its position.
    All UDFs of a run hold the same [UDFMeta] object, so that an
    assignment to its [slice] through one UDF is seen through all. *)
Section Phases.
(** What the phases call in other modules and in the user's classes:
    the partition reader, the array libraries, the remaining buffer
    methods, the negotiator, and the methods of the UDFs, which work on
    the arrays behind the views of the UDF they are called on.
    [postprocess] is the method of a class that has one ([hasattr]). *)
Variable cupy_installed : bool.
Variable partition_slice : Partition -> Slice.
Variable get_tiles : Partition -> TilingScheme -> option Roi -> dtype -> list DataTile.
Variable asanyarray : array_module -> DataTile -> M heap DataTile.
Variable set_shape_partition : BufferWrapper -> Partition -> option Roi -> BufferWrapper.
Variable allocate_lib : BufferWrapper -> array_module -> M heap BufferWrapper.
Variable buf_flush : BufferWrapper -> M heap unit.
Variable buf_export : BufferWrapper -> M heap BufferWrapper.
Variable get_scheme : list UDF -> Partition -> dtype -> option Roi -> result TilingScheme.
Variable get_task_data : UDF -> result (dict pyobj).
Variable process_tile : UDF -> DataTile -> M heap unit.
Variable process_frame : UDF -> aref -> M heap unit.
Variable process_partition : UDF -> DataTile -> M heap unit.
Variable postprocess : UDFClass -> option (UDF -> M heap unit).
Variable cleanup : UDF -> M heap unit.
Variable pickles_partition : Partition -> result unit.
Variable pickles_results : list (option UDFData) -> result unit.

Definition RunState : Type := heap * (list UDF * list UDF).

Definition udfs_of (side : bool) (st : RunState) : list UDF :=
  if side then st.2.2 else st.2.1.

Definition with_udfs_of (side : bool) (l : list UDF) (st : RunState) : RunState :=
  if side then (st.1, (st.2.1, l)) else (st.1, (l, st.2.2)).

(** A method of the UDF at position [i] of a list. *)
Definition at_udf {A} (side : bool) (i : nat) (m : M (heap * UDF) A) : M RunState A :=
  fun st =>
    match udfs_of side st !! i with
    | None => (st, Raise IndexError)
    | Some udf =>
        match m (st.1, udf) with
        | ((h', udf'), r) =>
            (with_udfs_of side (<[i := udf']> (udfs_of side st)) (h', st.2), r)
        end
    end.

(** A call of a method that the user wrote; the call is logged whether
    it returns or raises. *)
Definition call_user (side : bool) (i : nat) (c : user_call) (effect : UDF -> M heap unit)
  : Logged call RunState unit :=
  fun st =>
    match udfs_of side st !! i with
    | None => (st, [], Raise IndexError)
    | Some udf =>
        match effect udf st.1 with
        | (h', r) => ((h', st.2), [{| callee := udf; what := c |}], r)
        end
    end.

(** [udf.set_slice(slice_)], which is [self.meta.slice = slice_] on the
    meta object that all UDFs of the run hold. *)
Definition slice_seen (s : Slice) (udf : UDF) : UDF :=
  UDF_.with_meta udf
    (match meta udf with
     | Some m => Some (UDF_.meta_with_slice m (Some s))
     | None => None
     end).

Definition set_slice (side : bool) (i : nat) (s : Slice) : M RunState unit :=
  fun st =>
    match udfs_of side st !! i with
    | None => (st, Raise IndexError)
    | Some udf =>
        match meta udf with
        | None => (st, Raise AttributeError)
        | Some _ => ((st.1, (map (slice_seen s) st.2.1, map (slice_seen s) st.2.2)), Ok tt)
        end
    end.

(** [for i, udf in enumerate(udfs): body] over the positions of a list *)
Fixpoint for_positions (body : nat -> Logged call RunState unit) (positions : list nat)
  : Logged call RunState unit :=
  match positions with
  | [] => lret tt
  | i :: rest => (body i ;;; for_positions body rest)%log
  end.

Definition for_udfs_of (side : bool) (body : nat -> Logged call RunState unit)
  : Logged call RunState unit :=
  fun st => for_positions body (seq 0 (length (udfs_of side st))) st.

(** [UDFData.allocate_for_part] *)
Fixpoint set_shape_partition_items (its : dict pyobj) (partition : Partition)
    (roi : option Roi) : dict pyobj :=
  match its with
  | [] => []
  | (k, v) :: rest =>
      (k, match as_buffer v with
          | Some buf => PyBuffer (set_shape_partition buf partition roi)
          | None => v
          end) :: set_shape_partition_items rest partition roi
  end.

Fixpoint allocate_lib_items (its : dict pyobj) (lib : array_module) (h : heap)
  : heap * dict pyobj * result unit :=
  match its with
  | [] => (h, [], Ok tt)
  | (k, v) :: rest =>
      match as_buffer v with
      | Some buf =>
          if has_data buf
          then let '(h', rest', r) := allocate_lib_items rest lib h in (h', (k, v) :: rest', r)
          else
            match allocate_lib buf lib h with
            | (h1, Ok buf') =>
                let '(h', rest', r) := allocate_lib_items rest lib h1 in
                (h', (k, PyBuffer buf') :: rest', r)
            | (h1, Raise e) => (h1, (k, v) :: rest, Raise e)
            end
      | None => let '(h', rest', r) := allocate_lib_items rest lib h in (h', (k, v) :: rest', r)
      end
  end.

Definition data_allocate_for_part (partition : Partition) (roi : option Roi)
    (lib : array_module) : M (heap * UDFData) unit :=
  fun hs =>
    let shaped := set_shape_partition_items (_data hs.2) partition roi in
    let '(h', d, r) := allocate_lib_items shaped lib hs.1 in
    ((h', {| _data := d; _views := _views hs.2 |}), r).

(** [UDFBase.allocate_for_part]: only the results, with [lib=self.xp] *)
Definition allocate_for_part (partition : Partition) (roi : option Roi)
  : M (heap * UDF) unit :=
  fun hs =>
    match results hs.2 with
    | None => (hs, Raise AttributeError)
    | Some _ =>
        match UDF_.xp cupy_installed hs.2 with
        | Raise e => (hs, Raise e)
        | Ok lib => UDF_.in_results (data_allocate_for_part partition roi lib) hs
        end
    end.

(** [UDFBase.init_task_data] *)
Definition init_task_data : M (heap * UDF) unit :=
  fun hs =>
    match get_task_data hs.2 with
    | Raise e => (hs, Raise e)
    | Ok d => ((hs.1, UDF_.with_task_data hs.2 (Some (UDFData_.__init__ d))), Ok tt)
    end.

(** [UDFData.flush] and [UDFBase.flush] *)
Fixpoint flush_buffers (bufs : list (string * BufferWrapper)) : M heap unit :=
  match bufs with
  | [] => ret tt
  | (_, buf) :: rest => (buf_flush buf ;;; flush_buffers rest)%py
  end.

Definition data_flush : M (heap * UDFData) unit :=
  fun hs => on_fst (flush_buffers (UDFData_._get_buffers hs.2 false)) hs.

Definition flush : M (heap * UDF) unit :=
  (UDF_.in_params data_flush ;;; UDF_.in_results data_flush)%py.

(** [UDFData.export] and [UDFBase.export_results] *)
Fixpoint export_items (its : dict pyobj) (h : heap) : heap * dict pyobj * result unit :=
  match its with
  | [] => (h, [], Ok tt)
  | (k, v) :: rest =>
      match as_buffer v with
      | Some buf =>
          match buf_export buf h with
          | (h1, Ok buf') =>
              let '(h', rest', r) := export_items rest h1 in
              (h', (k, PyBuffer buf') :: rest', r)
          | (h1, Raise e) => (h1, (k, v) :: rest, Raise e)
          end
      | None => let '(h', rest', r) := export_items rest h in (h', (k, v) :: rest', r)
      end
  end.

Definition data_export : M (heap * UDFData) unit :=
  fun hs =>
    let '(h', d, r) := export_items (_data hs.2) hs.1 in
    ((h', {| _data := d; _views := _views hs.2 |}), r).

Definition export_results : M (heap * UDF) unit := UDF_.in_results data_export.

(** The backends that [_init_udfs] gives to the UDFs of the two lists. *)
Definition assign_backends (device_class : string) : M RunState unit :=
  fun st =>
    let host := if String.eqb device_class "cuda" then "cuda" else "numpy" in
    let '(h0, host_udfs, r0) :=
      for_each_udf (on_snd (UDF_.set_backend host)) st.2.1 st.1 in
    match r0 with
    | Raise e => ((h0, (host_udfs, st.2.2)), Raise e)
    | Ok _ =>
        if String.eqb device_class "cpu" && negb (bool_decide (st.2.2 = []))
        then ((h0, (host_udfs, st.2.2)), Raise AssertionError)
        else
          let '(h1, device_udfs, r1) :=
            for_each_udf (on_snd (UDF_.set_backend "cupy")) st.2.2 h0 in
          ((h1, (host_udfs, device_udfs)), r1)
    end.

(** The body of the loop of [_init_udfs] over [numpy_udfs + cupy_udfs] *)
Definition init_udf (meta0 : UDFMeta) (partition : Partition) (roi : option Roi)
    (side : bool) (i : nat) : Logged call RunState unit :=
  (quiet (at_udf side i (fun hs => ((hs.1, UDF_.set_meta hs.2 meta0), Ok tt))) ;;;
   quiet (at_udf side i UDF_.init_result_buffers) ;;;
   quiet (at_udf side i (allocate_for_part partition roi)) ;;;
   quiet (at_udf side i init_task_data) ;;;
   fun st =>
     match udfs_of side st !! i with
     | None => (st, [], Raise IndexError)
     | Some udf =>
         match cls_preprocess (__class__ udf) with
         | None => (st, [], Ok tt)
         | Some user_preprocess =>
             (quiet (at_udf side i UDF_.clear_views) ;;;
              call_user side i Preprocess
                (fun u => match results u with
                          | Some r => user_preprocess r
                          | None => throw AttributeError
                          end))%log st
         end
     end)%log.

Definition _init_udfs (self : UDFRunner) (partition : Partition) (roi : option Roi)
    (corrections : option CorrectionSet) (device_class : string)
  : Logged call RunState (UDFMeta * TilingScheme * dtype) :=
  let dtype0 := _get_dtype self (part_dtype partition) in
  let meta0 :=
    UDFMeta_.__init__ (Some (adjust_for_roi_shape partition roi))
      (part_meta_shape partition) roi (part_dtype partition) dtype0
      None 0 corrections (Some device_class) in
  (quiet (assign_backends device_class) ;;;
   for_udfs_of false (init_udf meta0 partition roi false) ;;;
   for_udfs_of true (init_udf meta0 partition roi true) ;;;
   tiling_scheme <- quiet (fun st =>
       (st, get_scheme (st.2.1 ++ st.2.2) partition dtype0 roi)) ;;
   let meta1 :=
     UDFMeta_.__init__ (Some (adjust_for_roi_shape partition roi))
       (part_meta_shape partition) roi (part_dtype partition) dtype0
       (Some tiling_scheme) 0 corrections (Some device_class) in
   quiet (fun st =>
     ((st.1, (map (fun u => UDF_.set_meta u meta1) st.2.1,
              map (fun u => UDF_.set_meta u meta1) st.2.2)), Ok tt)) ;;;
   lret (meta1, tiling_scheme, dtype0))%log.

(** The slice of frame [frame_idx] of a tile, as [run_tile] builds it. *)
Definition frame_slice (tile_slice0 : Slice) (frame_idx : nat) : result Slice :=
  match origin tile_slice0 with
  | [] => Raise IndexError
  | first :: others =>
      Ok {| origin := (first + frame_idx) :: others;
            slice_shape :=
              make_Shape
                (1 :: tail (nav (slice_shape tile_slice0) ++ sig (slice_shape tile_slice0)))
                (length (sig (slice_shape tile_slice0))) |}
  end.

(** [for frame_idx, frame in enumerate(device_tile): ...] *)
Fixpoint run_frames (partition : Partition) (tile : DataTile) (side : bool) (i : nat)
    (frame_idx : nat) (frames : list aref) : Logged call RunState unit :=
  match frames with
  | [] => lret tt
  | frame :: rest =>
      (s <- quiet (lift (frame_slice (tile_slice tile) frame_idx)) ;;
       quiet (set_slice side i s) ;;;
       quiet (at_udf side i (UDF_.set_views_for_frame partition (tile_of tile) frame_idx)) ;;;
       call_user side i (ProcessFrame frame) (fun u => process_frame u frame) ;;;
       run_frames partition tile side i (S frame_idx) rest)%log
  end.

(** The body of the loop of the inner function [run_tile] *)
Definition run_tile_udf (partition : Partition) (tile device_tile : DataTile)
    (side : bool) (i : nat) : Logged call RunState unit :=
  (method <- quiet (at_udf side i (fun hs => (hs, UDF_.get_method hs.2))) ;;
   if String.eqb method "tile" then
     quiet (at_udf side i (UDF_.set_contiguous_views_for_tile partition (tile_of tile))) ;;;
     quiet (set_slice side i (tile_slice tile)) ;;;
     call_user side i (ProcessTile device_tile) (fun u => process_tile u device_tile)
   else if String.eqb method "frame" then
     run_frames partition tile side i 0 (tile_frames device_tile)
   else if String.eqb method "partition" then
     quiet (at_udf side i (UDF_.set_views_for_tile partition (tile_of tile))) ;;;
     quiet (set_slice side i (partition_slice partition)) ;;;
     call_user side i (ProcessPartition device_tile) (fun u => process_partition u device_tile)
   else lret tt)%log.

Definition run_tile (partition : Partition) (side : bool) (tile device_tile : DataTile)
  : Logged call RunState unit :=
  for_udfs_of side (run_tile_udf partition tile device_tile side).

(** [for tile in tiles: ...] of [_run_udfs]; [lib] is [cupy_udfs[0].xp]
    when there are device-mode UDFs. *)
Fixpoint run_tiles (partition : Partition) (lib : option array_module)
    (tiles : list DataTile) : Logged call RunState unit :=
  match tiles with
  | [] => lret tt
  | tile :: rest =>
      (run_tile partition false tile tile ;;;
       (fun st =>
          match st.2.2, lib with
          | _ :: _, Some xp0 =>
              (device_tile <- quiet (on_fst (asanyarray xp0 tile)) ;;
               run_tile partition true tile device_tile)%log st
          | _, _ => (st, [], Ok tt)
          end) ;;;
       run_tiles partition lib rest)%log
  end.

Definition _run_udfs (partition : Partition) (tiling_scheme : TilingScheme)
    (roi : option Roi) (dtype0 : dtype) : Logged call RunState unit :=
  fun st =>
    let tiles := get_tiles partition tiling_scheme roi dtype0 in
    match st.2.2 with
    | [] => run_tiles partition None tiles st
    | first :: _ =>
        match UDF_.xp cupy_installed first with
        | Raise e => (st, [], Raise e)
        | Ok xp0 => run_tiles partition (Some xp0) tiles st
        end
    end.

(** The body of the loop of [_wrapup_udfs] *)
Definition wrapup_udf (side : bool) (i : nat) : Logged call RunState unit :=
  (quiet (at_udf side i flush) ;;;
   (fun st =>
      match udfs_of side st !! i with
      | None => (st, [], Raise IndexError)
      | Some udf =>
          match postprocess (__class__ udf) with
          | None => (st, [], Ok tt)
          | Some user_postprocess =>
              (quiet (at_udf side i UDF_.clear_views) ;;;
               call_user side i Postprocess user_postprocess)%log st
          end
      end) ;;;
   call_user side i Cleanup cleanup ;;;
   quiet (at_udf side i UDF_.clear_views) ;;;
   quiet (at_udf side i export_results))%log.

Definition _wrapup_udfs (self : UDFRunner) (partition : Partition)
  : Logged call RunState unit :=
  (for_udfs_of false (wrapup_udf false) ;;;
   for_udfs_of true (wrapup_udf true) ;;;
   if _debug self then
     quiet (lift (pickles_partition partition)) ;;;
     quiet (fun st => (st, pickles_results (map results (st.2.1 ++ st.2.2))))
   else lret tt)%log.

End Phases.

End Methods.
End UDFRunner_.

(** ** The vocabulary of the properties

    The predicates and functions in which the properties below are
    stated.  None of them is part of the engine. *)

Section Vocabulary.
Context `{Buffers}.

#[local] Abbreviation has_backend b u := (b ∈ UDF_.get_backends u) (only parsing).

(** Every view of a [UDFData] belongs to a key of its data dict. *)
Definition views_in_data (d : UDFData) : Prop :=
  forall k, dict_contains k (_views d) = true -> dict_contains k (_data d) = true.

(** The number of [process_*] methods a UDF has. *)
Definition declared_methods (u : UDF) : nat :=
  (if cls_process_tile (__class__ u) then 1 else 0)
  + (if cls_process_frame (__class__ u) then 1 else 0)
  + (if cls_process_partition (__class__ u) then 1 else 0).

(** What a UDF announces for a CUDA worker, and the two lists that
    [_udf_lists] is to return there. *)
Definition cuda_capable (u : UDF) : Prop := has_backend "cuda" u \/ has_backend "cupy" u.

Definition host_mode (udfs : list UDF) : list UDF :=
  filter (fun u => has_backend "cuda" u) udfs.

Definition device_mode (udfs : list UDF) : list UDF :=
  filter (fun u => ~ has_backend "cuda" u /\ has_backend "cupy" u) udfs.


(** A partition takes part in the run: there is no ROI, or the ROI has a
    true entry inside the partition. *)
Definition in_roi (roi : option Roi) (p : Partition) : bool :=
  match roi with
  | Some r => negb (Nat.eqb (UDFRunner_.count_nonzero (UDFRunner_._roi_for_partition r p)) 0)
  | None => true
  end.

(** What [new_for_partition] does to one parameter. *)
Definition resliced (p : Partition) (roi : option Roi) (v : pyobj) : pyobj :=
  match as_buffer v with
  | Some buf => PyBuffer (new_for_partition buf p roi)
  | None => v
  end.

(** A backend is supported by a task: every UDF of the task has it, and
    so has the limit given to the dispatcher, when there is one. *)
Definition supported (task : UDFTask) (b : string) : Prop :=
  Forall (fun u => b ∈ UDF_.get_backends u) (task_udfs task)
  /\ match task_backends task with
     | Some limit => b ∈ limit
     | None => True
     end.

(** The set that [get_resources] computes before it looks at its members. *)
Definition common_backends (task : UDFTask) : gset string :=
  let sets := map (fun udf => list_to_set (UDF_.get_backends udf) : gset string)
                  (task_udfs task) in
  let common := UDFTask_.intersect_all (default ∅ (head sets)) sets in
  match task_backends task with
  | Some limit => list_to_set limit ∩ common
  | None => common
  end.

(** [any(buffer.kind != 'nav' for buffer in buffers.values())] *)
Definition any_not_nav (buffers : dict BufferWrapper) : bool :=
  existsb (fun buffer => negb (String.eqb (kind buffer) "nav")) (dict_values buffers).

(** The cached answer of [requires_custom_merge], when there is one, is
    the answer that the declared buffers give. *)
Definition cache_consistent (self : UDF) : Prop :=
  forall b buffers,
    _requires_custom_merge self = Some b ->
    UDF_.get_result_buffers self = Ok buffers ->
    b = any_not_nav buffers.

(** What the loop of the default merge has done when it got through the
    items [its] of [dest]: for each of them, in order, the source has an
    array under the same key, the safe-cast check on the pair has passed,
    and the source array was copied into the destination array. *)
Inductive copied (src : dict pyobj) : dict pyobj -> heap -> heap -> Prop :=
  | copied_nil (h : heap) : copied src [] h h
  | copied_cons (k : string) (d s : aref) (rest : dict pyobj) (h h1 h2 : heap) :
      dict_get k src = Some (PyArray s) ->
      can_cast_safe (dtype_of h d) (dtype_of h s) = true ->
      setitem_all d s h = Some h1 ->
      copied src rest h1 h2 ->
      copied src ((k, PyArray d) :: rest) h h2.

(** One round of the loop. *)
Definition merge_step (k : string) (dest src : dict pyobj) : M heap unit :=
  (d <- lift (dict_getitem k dest) ;;
   s <- lift (dict_getitem k src) ;;
   UDF_.check_cast d s ;;;
   s' <- lift (dict_getitem k src) ;;
   d' <- lift (dict_getitem k dest) ;;
   UDF_.setitem_slice d' s')%py.

(** The snapshots and the merged tasks among the events of a run. *)
Fixpoint count_yielded (tr : list event) : nat :=
  match tr with
  | [] => 0
  | Yielded _ :: tr' => S (count_yielded tr')
  | Merged _ :: tr' => count_yielded tr'
  end.

Fixpoint count_merged (tr : list event) : nat :=
  match tr with
  | [] => 0
  | Merged _ :: tr' => S (count_merged tr')
  | Yielded _ :: tr' => count_merged tr'
  end.

(** The events of a run: every merged task is followed at once by a
    snapshot, and a run that comes to its end ([true]) closes with one
    more snapshot, while a run that raises ([false]) stops after any of
    the pairs. *)
Inductive run_shape : list event -> bool -> Prop :=
  | shape_raised : run_shape [] false
  | shape_final (s : Snapshot) : run_shape [Yielded s] true
  | shape_step (t : UDFTask) (s : Snapshot) (tr : list event) (b : bool) :
      run_shape tr b -> run_shape (Merged t :: Yielded s :: tr) b.

(** Every UDF of the runner has its result buffers. *)
Definition all_have_results (udfs : list UDF) : Prop :=
  Forall (fun u => is_Some (results u)) udfs.

(** The snapshot [s] shows the global result groups as they are in the
    state [st] of the run: one result dict for every UDF of the runner,
    in the order of the UDFs, each the dict of that UDF's result
    buffers, and the arrays of the store. *)
Definition current_results (st : heap * UDFRunner) (s : Snapshot) : Prop :=
  arrays s = st.1
  /\ Forall2 (fun u g => exists r, results u = Some r /\ g = _data r) (_udfs st.2) (groups s).

(** In the words of the specification, "for each (udf, partial): bind
    the UDF's views to the completed partition, call
    [udf.merge(dest=global_proxy, src=partial_proxy)], then clear
    views": the partial results of [task] were merged into the UDFs,
    pair by pair as far as both lists go, which took the store from [h]
    to [h'] and the UDFs from [udfs] to [udfs']. *)
Inductive merged (task : UDFTask)
  : list UDFData -> list UDF -> heap -> list UDF -> heap -> Prop :=
  | merged_no_partial (udfs : list UDF) (h : heap) : merged task [] udfs h udfs h
  | merged_no_udf (partials : list UDFData) (h : heap) : merged task partials [] h [] h
  | merged_pair (partial : UDFData) (partials : list UDFData) (u u1 u2 u3 : UDF)
      (us us' : list UDF) (r1 : UDFData) (dest src : dict pyobj) (h h1 h2 h3 h' : heap) :
      UDF_.set_views_for_partition (partition task) (h, u) = ((h1, u1), Ok tt) ->
      results u1 = Some r1 ->
      UDFData_.get_proxy r1 = Ok dest ->
      UDFData_.get_proxy partial = Ok src ->
      UDF_.merge dest src (h1, u1) = ((h2, u2), Ok tt) ->
      UDF_.clear_views (h2, u2) = ((h3, u3), Ok tt) ->
      merged task partials us h3 us' h' ->
      merged task (partial :: partials) (u :: us) h (u3 :: us') h'.

(** The events of a run over the deliveries of the executor, started in
    the state [st]: every delivery is received and merged, which is
    followed at once by a snapshot of the global result groups as the
    merge left them; a run that comes to the end of the stream ([true])
    closes with a snapshot of the result groups as they are then, and a
    run that raises ([false]) stops at a delivery. *)
Inductive run_trace
  : list (M heap (list UDFData * UDFTask)) -> heap * UDFRunner -> list event -> bool -> Prop :=
  | trace_raised (receive : M heap (list UDFData * UDFTask))
      (rest : list (M heap (list UDFData * UDFTask))) (st : heap * UDFRunner) :
      run_trace (receive :: rest) st [] false
  | trace_final (st : heap * UDFRunner) (s : Snapshot) :
      current_results st s -> run_trace [] st [Yielded s] true
  | trace_step (receive : M heap (list UDFData * UDFTask))
      (rest : list (M heap (list UDFData * UDFTask))) (h h1 h2 : heap) (self : UDFRunner)
      (partials : list UDFData) (task : UDFTask) (udfs2 : list UDF) (s : Snapshot)
      (tr : list event) (b : bool) :
      receive h = (h1, Ok (partials, task)) ->
      merged task partials (_udfs self) h1 udfs2 h2 ->
      current_results (h2, UDFRunner_.with_udfs self udfs2) s ->
      run_trace rest (h2, UDFRunner_.with_udfs self udfs2) tr b ->
      run_trace (receive :: rest) (h, self) (Merged task :: Yielded s :: tr) b.

(** Why one round of the default merge's loop fails, if it does: the key
    is missing from the source ([None] for [sv]), one of the two values
    has no dtype, the cast check fails, or the arrays do not fit. *)
Definition round_failure (h : heap) (v : pyobj) (sv : option pyobj) : option exception :=
  match sv with
  | None => Some KeyError
  | Some s =>
      match v, s with
      | PyArray d', PyArray s' =>
          if can_cast_safe (dtype_of h d') (dtype_of h s')
          then match setitem_all d' s' h with
               | Some _ => None
               | None => Some ValueError
               end
          else Some TypeError
      | _, _ => Some AttributeError
      end
  end.

(** Partitions that follow one another on the navigation axis from
    position [a] to position [b]. *)
Fixpoint chained (a : nat) (ps : list Partition) (b : nat) : Prop :=
  match ps with
  | [] => a = b
  | p :: ps' => part_start p = a /\ a <= part_stop p /\ chained (part_stop p) ps' b
  end.

(** The slice that a UDF reads as [self.meta.slice]. *)
Definition meta_slice (u : UDF) : option Slice :=
  match meta u with
  | Some m => _slice m
  | None => None
  end.

(** A UDF holds no view, neither on its parameters nor on its results. *)
Definition no_views (u : UDF) : Prop :=
  _views (params u) = [] /\ exists r, results u = Some r /\ _views r = [].

(** Which UDF an object is: its class and its parameters.  The same UDF
    at another time of the run is an object with the same two. *)
Definition who (u : UDF) : UDFClass * dict pyobj := (__class__ u, UDF_._kwargs u).

Definition same_udf (u u' : UDF) : Prop := who u' = who u.

(** A statement that works on the UDF at position [i] of a list and on
    nothing else but the arrays: when it returns, [Q] relates the UDF
    before and after, the log and the value. *)
Definition local {A} (side : bool) (i : nat) (m : Logged call UDFRunner_.RunState A)
    (Q : UDF -> UDF -> list call -> A -> Prop) : Prop :=
  forall st u st' log a,
    UDFRunner_.udfs_of side st !! i = Some u ->
    m st = (st', log, Ok a) ->
    exists u',
      Q u u' log a
      /\ st'.2 = (UDFRunner_.with_udfs_of side (<[i := u']> (UDFRunner_.udfs_of side st)) st).2.

(** What a loop over a list of UDFs has done when every round is
    [local]: the UDFs after the loop and the log, round by round. *)
Inductive rounds (Q : UDF -> UDF -> list call -> Prop)
  : list UDF -> list UDF -> list call -> Prop :=
  | rounds_nil : rounds Q [] [] []
  | rounds_cons (u u' : UDF) (lg : list call) (us us' : list UDF) (log : list call) :
      Q u u' lg -> rounds Q us us' log -> rounds Q (u :: us) (u' :: us') (lg ++ log).

(** A statement keeps the invariant [I] of the store, whether it returns
    or raises, and logs only calls with [P]. *)
Definition keeps {A} (I : UDFRunner_.RunState -> Prop) (P : call -> Prop)
    (m : Logged call UDFRunner_.RunState A) : Prop :=
  forall st, I st -> I (m st).1.1 /\ Forall P (m st).1.2.

(** An invariant that does not look at the arrays and that survives when
    one UDF is replaced by a UDF that is [T]-related to it. *)
Definition stable (I : UDFRunner_.RunState -> Prop) (T : UDF -> UDF -> Prop) : Prop :=
  (forall st h', I st -> I (h', st.2))
  /\ (forall st side i u u',
        UDFRunner_.udfs_of side st !! i = Some u -> T u u' -> I st ->
        I (UDFRunner_.with_udfs_of side (<[i := u']> (UDFRunner_.udfs_of side st)) st)).


(** What a call into the user's code shows: which UDF is called, the
    method with its argument, and the slice that the UDF reads as
    [self.meta.slice] during the call. *)
Definition observation : Type := (UDFClass * dict pyobj) * user_call * option Slice.

Definition seen (c : call) : observation :=
  (who (callee c), what c, meta_slice (callee c)).

(** A shape cut down to extent 1 along its first axis. *)
Definition one_deep (sh : Shape) : Shape :=
  match nav sh, sig sh with
  | _ :: others, sg => {| nav := 1 :: others; sig := sg |}
  | [], [] => {| nav := [1]; sig := [] |}
  | [], _ :: others => {| nav := []; sig := 1 :: others |}
  end.

(** The slice of frame [k] of a tile with the slice [s]: the origin is
    moved by [k] along the first axis, and the shape is one frame deep.
    A slice without axes has no frames. *)
Definition slice_of_frame (s : Slice) (k : nat) : option Slice :=
  match origin s with
  | [] => None
  | first :: others =>
      Some {| origin := (first + k) :: others; slice_shape := one_deep (slice_shape s) |}
  end.

(** The calls that one tile brings to one UDF, with what each call
    shows.  A UDF with the method ['tile'] is called once, with the tile
    as it is handed to the UDFs of its list ([device_tile]), and finds
    the slice of the tile; a UDF with the method ['frame'] is called for
    every frame of [device_tile] in turn, and for frame [k] it finds the
    slice of frame [k] of the tile; a UDF with the method ['partition']
    is called once with [device_tile] and finds the slice of the whole
    partition. *)
Definition calls_for (partition_slice : Partition -> Slice) (p : Partition)
    (tile device_tile : DataTile) (u : UDF) : list observation :=
  match UDF_.get_method u with
  | Ok method =>
      if String.eqb method "tile" then
        [(who u, ProcessTile device_tile, Some (tile_slice tile))]
      else if String.eqb method "frame" then
        imap (fun k frame =>
                (who u, ProcessFrame frame, slice_of_frame (tile_slice tile) k))
             (tile_frames device_tile)
      else if String.eqb method "partition" then
        [(who u, ProcessPartition device_tile, Some (partition_slice p))]
      else []
  | Raise _ => []
  end.

(** [cupy_udfs[0].xp], the array library of the device-mode UDFs. *)
Definition device_lib (cupy_installed : bool) (device : list UDF) : option array_module :=
  match device with
  | [] => None
  | first :: _ =>
      match UDF_.xp cupy_installed first with
      | Ok xp0 => Some xp0
      | Raise _ => None
      end
  end.

(** [device_tile] is the tile as [lib.asanyarray(tile)] gave it at some
    time of the run. *)
Definition moved_to_device (asanyarray : array_module -> DataTile -> M heap DataTile)
    (lib : option array_module) (tile device_tile : DataTile) : Prop :=
  exists xp0 h h', lib = Some xp0 /\ asanyarray xp0 tile h = (h', Ok device_tile).

(** What the calls of [_run_udfs] show, over the tiles of the partition:
    for every tile in turn, the calls that the tile brings to the
    host-mode UDFs, UDF by UDF, and then the calls that it brings to the
    device-mode UDFs, with the tile moved to the device.  A run that
    returned ([true]) has gone through all tiles; a run that raised
    ([false]) has stopped before a tile, among the calls for its
    host-mode UDFs, or among the calls for its device-mode UDFs. *)
Inductive tiles_log (partition_slice : Partition -> Slice)
    (asanyarray : array_module -> DataTile -> M heap DataTile) (lib : option array_module)
    (p : Partition) (host device : list UDF)
  : bool -> list DataTile -> list observation -> Prop :=
  | log_end : tiles_log partition_slice asanyarray lib p host device true [] []
  | log_tile (b : bool) (tile device_tile : DataTile) (rest : list DataTile)
      (log : list observation) :
      (device <> [] -> moved_to_device asanyarray lib tile device_tile) ->
      tiles_log partition_slice asanyarray lib p host device b rest log ->
      tiles_log partition_slice asanyarray lib p host device b (tile :: rest)
        (flat_map (calls_for partition_slice p tile tile) host
         ++ flat_map (calls_for partition_slice p tile device_tile) device ++ log)
  | log_stopped (tiles : list DataTile) :
      tiles_log partition_slice asanyarray lib p host device false tiles []
  | log_stopped_host (tile : DataTile) (rest : list DataTile) (log : list observation) :
      log `prefix_of` flat_map (calls_for partition_slice p tile tile) host ->
      tiles_log partition_slice asanyarray lib p host device false (tile :: rest) log
  | log_stopped_device (tile device_tile : DataTile) (rest : list DataTile)
      (log : list observation) :
      moved_to_device asanyarray lib tile device_tile ->
      log `prefix_of` flat_map (calls_for partition_slice p tile device_tile) device ->
      tiles_log partition_slice asanyarray lib p host device false (tile :: rest)
        (flat_map (calls_for partition_slice p tile tile) host ++ log).

(** The two lists hold the UDFs [host] and [device], position by
    position. *)
Definition same_whos (host device : list UDF) (st : UDFRunner_.RunState) : Prop :=
  map who st.2.1 = map who host /\ map who st.2.2 = map who device.

(** The UDF at position [j] of a list has none of the [process_*]
    methods. *)
Definition no_method_at (side : bool) (j : nat) (st : UDFRunner_.RunState) : Prop :=
  exists u, UDFRunner_.udfs_of side st !! j = Some u /\ UDF_.get_method u = Raise TypeError.

(** What the methods that set views leave alone: which UDF it is, its
    metadata and its backend. *)
Definition same_setup (u u' : UDF) : Prop :=
  who u' = who u /\ meta u' = meta u /\ _backend u' = _backend u.

(** The result dict [g] of a UDF has the names that the UDF [u] declares
    in [get_result_buffers], in the order of the declaration. *)
Definition has_declared_names (u : UDF) (g : dict pyobj) : Prop :=
  exists buffers, UDF_.get_result_buffers u = Ok buffers /\ dict_keys g = dict_keys buffers.

(** The snapshots among the events of a run. *)
Fixpoint snapshots (tr : list event) : list Snapshot :=
  match tr with
  | [] => []
  | Yielded s :: tr' => s :: snapshots tr'
  | Merged _ :: tr' => snapshots tr'
  end.

(** A UDF as it comes to a run: its parameters and the buffers it
    declares have distinct names, and it holds no view on a parameter. *)
Definition fresh_udf (u : UDF) : Prop :=
  _views (params u) = []
  /\ NoDup (dict_keys (UDF_._kwargs u))
  /\ forall buffers, UDF_.get_result_buffers u = Ok buffers -> NoDup (dict_keys buffers).

(** The views that a getter gives for a list of buffers, in their order. *)
Fixpoint views_of (getter : BufferWrapper -> M heap aref)
    (bufs : list (string * BufferWrapper)) (h : heap) : heap * result (dict aref) :=
  match bufs with
  | [] => (h, Ok [])
  | (k, buf) :: rest =>
      match getter buf h with
      | (h1, Ok a) =>
          match views_of getter rest h1 with
          | (h2, Ok vs) => (h2, Ok ((k, a) :: vs))
          | (h2, Raise e) => (h2, Raise e)
          end
      | (h1, Raise e) => (h1, Raise e)
      end
  end.

(** A container has distinct names, and its views are all there or not
    there at all: it has no view, or one for every buffer, in the order
    of the buffers. *)
Definition aligned (d : UDFData) : Prop :=
  NoDup (dict_keys (_data d))
  /\ (_views d = [] \/ dict_keys (_views d) = map fst (UDFData_._get_buffers d false)).

(** A UDF in the loop of a run on the head node. *)
Definition ready (u : UDF) : Prop :=
  aligned (params u) /\ exists r, results u = Some r /\ aligned r.

(** A UDF with its views taken away. *)
Definition without_views (u : UDF) : UDF :=
  UDF_.with_results (UDF_.with_params u (UDFData_.clear_views (params u)))
    (option_map UDFData_.clear_views (results u)).

(** The UDF of the synchronous run and the UDF of the asynchronous run
    at the same time: both in the loop, and the same up to views. *)
Definition in_step (u_sync u_async : UDF) : Prop :=
  ready u_sync /\ ready u_async /\ without_views u_sync = without_views u_async.

End Vocabulary.

(** ** Concrete instances

    A buffer library over the small NumPy, in which every view is the
    whole storage, and the UDFs of [tests/utils.py]. *)
Module Examples.

#[local] Existing Instance small_numpy.

Definition whole_storage (b : BufferWrapper) : M heap aref :=
  fun h => match raw_data b with
           | Some a => (h, Ok a)
           | None => (h, Raise TypeError)
           end.

Definition with_storage (b : BufferWrapper) (a : aref) : BufferWrapper :=
  {| kind := kind b; extra_shape := extra_shape b; buf_dtype := buf_dtype b;
     where_ := where_ b; raw_data := Some a |}.

Definition zeros (b : BufferWrapper) : M heap BufferWrapper :=
  fun h => (h ++ [(buf_dtype b, [0%Z])], Ok (with_storage b (length h))).

Definition small_buffers : Buffers := {|
  get_view_for_dataset := fun b _ => whole_storage b;
  get_view_for_partition := fun b _ => whole_storage b;
  get_view_for_tile := fun b _ _ => whole_storage b;
  get_contiguous_view_for_tile := fun b _ _ => whole_storage b;
  get_view_for_frame := fun b _ _ _ => whole_storage b;
  new_for_partition := fun b _ _ => b;
  set_shape_ds := fun b _ _ => b;
  allocate := zeros;
|}.

#[local] Existing Instance small_buffers.

(** A getter whose view is an array object of its own, as a slice of a
    NumPy array is. *)
Definition fresh_view (b : BufferWrapper) : M heap aref :=
  fun h => match raw_data b with
           | Some _ => (h ++ [(buf_dtype b, [0%Z])], Ok (length h))
           | None => (h, Raise TypeError)
           end.

(** [self.buffer(kind, extra_shape=(), dtype="float32", where=None)] *)
Definition buffer (kind0 : string) (dtype0 : dtype) (where0 : option string)
  : BufferWrapper :=
  {| kind := kind0; extra_shape := []; buf_dtype := dtype0; where_ := where0;
     raw_data := None |}.

(** [class PixelsumUDF(UDF)] of [tests/utils.py]: one [nav] buffer,
    [process_frame], everything else inherited. *)
Definition PixelsumUDF : UDFClass := {|
  cls_name := "PixelsumUDF";
  cls_get_result_buffers := fun _ =>
    Ok [("pixelsum", buffer "nav" SmallNumpy.float32 None)];
  cls_get_preferred_input_dtype := fun _ => SmallNumpy.float32;
  cls_get_backends := fun _ => ["numpy"];
  cls_merge := None;
  cls_preprocess := None;
  cls_process_tile := false;
  cls_process_frame := true;
  cls_process_partition := false;
|}.

(** A UDF with the buffers of [DebugDeviceUDF] but without its [merge]:
    [sig] and [single] buffers next to a [nav] buffer, backends taken
    from the parameter [backends] (default [('cupy', 'numpy')]). *)
Definition backends_param (kwargs : dict pyobj) : list string :=
  match dict_get "backends" kwargs with
  | Some (PyStrTuple l) => l
  | _ => ["cupy"; "numpy"]
  end.

Definition DeviceUDF : UDFClass := {|
  cls_name := "DeviceUDF";
  cls_get_result_buffers := fun _ =>
    Ok [("device_id", buffer "single" SmallNumpy.object_ None);
        ("on_device", buffer "sig" SmallNumpy.float32 (Some "device"));
        ("device_class", buffer "nav" SmallNumpy.object_ None);
        ("backend", buffer "single" SmallNumpy.object_ None)];
  cls_get_preferred_input_dtype := fun _ => SmallNumpy.float32;
  cls_get_backends := backends_param;
  cls_merge := None;
  cls_preprocess := None;
  cls_process_tile := false;
  cls_process_frame := false;
  cls_process_partition := true;
|}.

(** A UDF class that has both [process_tile] and [process_frame]. *)
Definition TileAndFrameUDF : UDFClass := {|
  cls_name := "TileAndFrameUDF";
  cls_get_result_buffers := fun _ =>
    Ok [("pixelsum", buffer "nav" SmallNumpy.float32 None)];
  cls_get_preferred_input_dtype := fun _ => SmallNumpy.float32;
  cls_get_backends := fun _ => ["numpy"];
  cls_merge := None;
  cls_preprocess := None;
  cls_process_tile := true;
  cls_process_frame := true;
  cls_process_partition := false;
|}.

(** A UDF that prefers the native dtype of the dataset
    ([UDF.USE_NATIVE_DTYPE], which is [numpy.bool]). *)
Definition NativeDtypeUDF : UDFClass := {|
  cls_name := "NativeDtypeUDF";
  cls_get_result_buffers := fun _ =>
    Ok [("pixelsum", buffer "nav" SmallNumpy.float32 None)];
  cls_get_preferred_input_dtype := fun _ => SmallNumpy.bool_;
  cls_get_backends := fun _ => ["numpy"];
  cls_merge := None;
  cls_preprocess := None;
  cls_process_tile := false;
  cls_process_frame := true;
  cls_process_partition := false;
|}.

Definition new_udf (cls : UDFClass) (kwargs : dict pyobj) : UDF :=
  UDF_.__init__ cls kwargs.

Definition shape_4_4_16_16 : Shape := {| nav := [4; 4]; sig := [16; 16] |}.

(** Three partitions of a dataset with 16 navigation positions. *)
Definition part (start stop : nat) : Partition :=
  {| part_start := start; part_stop := stop; part_dtype := SmallNumpy.float32;
     part_meta_shape := shape_4_4_16_16 |}.

Definition dataset3 : DataSet :=
  {| ds_shape := shape_4_4_16_16; ds_dtype := SmallNumpy.float32;
     get_partitions := [part 0 6; part 6 12; part 12 16] |}.

(** An executor that delivers, for every task, one partial result with
    one array that holds the task's index plus one. *)
Definition partial_pixelsum (a : aref) : UDFData :=
  UDFData_.__init__ [("pixelsum", PyBuffer (with_storage (buffer "nav" SmallNumpy.float32 None) a))].

Definition deliver (task : UDFTask) : M heap (list UDFData * UDFTask) :=
  fun h => (h ++ [(SmallNumpy.float32, [Z.of_nat (S (idx task))])],
            Ok ([partial_pixelsum (length h)], task)).

Definition inline_executor : UDFRunner_.Executor :=
  fun tasks _ => map deliver tasks.

Definition pixelsum_runner : UDFRunner :=
  {| _udfs := [new_udf PixelsumUDF []]; _debug := false |}.

(** A CUDA worker with two devices, and a run whose processing phase
    fails after the device was switched. *)
Definition cuda_worker : Worker unit :=
  {| device_id := 0; num_threads := 4; objects := tt |}.

Definition device_runner : UDFRunner :=
  {| _udfs := [new_udf DeviceUDF []]; _debug := false |}.

Definition some_meta : UDFMeta :=
  UDFMeta_.__init__ None shape_4_4_16_16 None SmallNumpy.float32 SmallNumpy.float32
    None 0 None (Some "cuda").

Definition init_fine :
  list UDF -> list UDF -> Partition -> option Roi -> option CorrectionSet -> string ->
  M (Worker unit) (UDFMeta * TilingScheme * dtype) :=
  fun _ _ _ _ _ _ w => (w, Ok (some_meta, [], SmallNumpy.float32)).

Definition corrections_fine : Partition -> option CorrectionSet -> M (Worker unit) unit :=
  fun _ _ w => (w, Ok tt).

Definition run_failing :
  list UDF -> list UDF -> Partition -> TilingScheme -> option Roi -> dtype ->
  M (Worker unit) unit :=
  fun _ _ _ _ _ _ w => (w, Raise RuntimeError).

Definition wrapup_fine : list UDF -> list UDF -> Partition -> M (Worker unit) unit :=
  fun _ _ _ w => (w, Ok tt).

Definition no_results : list UDF -> Worker unit -> list (option UDFData) :=
  fun udfs _ => map results udfs.

(** A host-mode run on the CUDA worker: a UDF for ['cuda'] only, whose
    processing selects device 1 for its own work, and returns or
    raises. *)
Definition cuda_host_runner : UDFRunner :=
  {| _udfs := [new_udf DeviceUDF [("backends", PyStrTuple ["cuda"])]]; _debug := false |}.

Definition run_selecting (d : nat) (outcome : result unit) :
  list UDF -> list UDF -> Partition -> TilingScheme -> option Roi -> dtype ->
  M (Worker unit) unit :=
  fun _ _ _ _ _ _ w => (UDFRunner_.set_device unit d w, outcome).

Definition host_mode_run (outcome : result unit) :=
  UDFRunner_.run_for_partition unit 2 true "cuda" (Some 1)
    init_fine corrections_fine (run_selecting 1 outcome) wrapup_fine no_results
    cuda_host_runner (part 0 6) None None cuda_worker.

(** The task of the specification's fifth scenario: UDFs with the
    backends [{cpu, cupy}] and [{cpu}], and a limit of the dispatcher. *)
Definition scenario_task (limit : option (list string)) : UDFTask :=
  {| partition := part 0 6; idx := 0; task_roi := None;
     task_udfs := [new_udf DeviceUDF []; new_udf PixelsumUDF []];
     task_backends := limit; task_corrections := None |}.

(** *** A worker for the phases of a run

    CuPy is installed; a partition is read as one tile of two frames;
    [asanyarray] gives the tile back; buffers keep their shape and are
    allocated by [zeros]; the negotiator answers with one scheme; and the
    methods of the user do nothing. *)
Definition two_frames : DataTile :=
  {| tile_of := {| tile_start := 0; tile_stop := 2 |};
     tile_slice := {| origin := [0; 0; 0];
                      slice_shape := {| nav := [2]; sig := [16; 16] |} |};
     tile_frames := [7; 8] |}.

Definition read_one_tile : Partition -> TilingScheme -> option Roi -> dtype -> list DataTile :=
  fun _ _ _ _ => [two_frames].

Definition whole_partition (p : Partition) : Slice :=
  {| origin := [part_start p; 0; 0];
     slice_shape := {| nav := [part_stop p - part_start p];
                       sig := sig (part_meta_shape p) |} |}.

Definition as_it_is : array_module -> DataTile -> M heap DataTile :=
  fun _ tile h => (h, Ok tile).

Definition keep_shape : BufferWrapper -> Partition -> option Roi -> BufferWrapper :=
  fun b _ _ => b.

Definition zeros_in : BufferWrapper -> array_module -> M heap BufferWrapper :=
  fun b _ => zeros b.

Definition one_scheme : list UDF -> Partition -> dtype -> option Roi -> result TilingScheme :=
  fun _ _ _ _ => Ok [2; 16; 16].

Definition no_task_data : UDF -> result (dict pyobj) := fun _ => Ok [].

Definition idle {A} : UDF -> A -> M heap unit := fun _ _ h => (h, Ok tt).

Definition idle_cleanup : UDF -> M heap unit := fun _ h => (h, Ok tt).

Definition flush_nothing : BufferWrapper -> M heap unit := fun _ h => (h, Ok tt).

Definition export_as_it_is : BufferWrapper -> M heap BufferWrapper := fun b h => (h, Ok b).

Definition pickles {A} : A -> result unit := fun _ => Ok tt.

(** A UDF class with [preprocess] and [postprocess] around
    [process_tile], and one without any [process_*] method. *)
Definition PrePostUDF : UDFClass := {|
  cls_name := "PrePostUDF";
  cls_get_result_buffers := fun _ =>
    Ok [("pixelsum", buffer "nav" SmallNumpy.float32 None)];
  cls_get_preferred_input_dtype := fun _ => SmallNumpy.float32;
  cls_get_backends := fun _ => ["numpy"];
  cls_merge := None;
  cls_preprocess := Some (fun _ h => (h, Ok tt));
  cls_process_tile := true;
  cls_process_frame := false;
  cls_process_partition := false;
|}.

Definition postprocess_of : UDFClass -> option (UDF -> M heap unit) :=
  fun cls => if String.eqb (cls_name cls) "PrePostUDF"
             then Some (fun _ h => (h, Ok tt)) else None.

Definition NoMethodUDF : UDFClass := {|
  cls_name := "NoMethodUDF";
  cls_get_result_buffers := fun _ =>
    Ok [("pixelsum", buffer "nav" SmallNumpy.float32 None)];
  cls_get_preferred_input_dtype := fun _ => SmallNumpy.float32;
  cls_get_backends := fun _ => ["numpy"];
  cls_merge := None;
  cls_preprocess := None;
  cls_process_tile := false;
  cls_process_frame := false;
  cls_process_partition := false;
|}.

(** A runner with a frame UDF and a tile UDF, and the store of its run
    on a CPU worker: before [_init_udfs], after it, and after
    [_run_udfs]. *)
Definition two_udfs_runner : UDFRunner :=
  {| _udfs := [new_udf PixelsumUDF []; new_udf PrePostUDF []]; _debug := true |}.

Definition before_init : UDFRunner_.RunState := ([], (_udfs two_udfs_runner, [])).

Definition init_on_cpu :=
  UDFRunner_._init_udfs true keep_shape zeros_in one_scheme no_task_data
    two_udfs_runner (part 0 6) None None "cpu" before_init.

Definition after_init : UDFRunner_.RunState := init_on_cpu.1.1.

Definition run_on_cpu :=
  UDFRunner_._run_udfs true whole_partition read_one_tile as_it_is idle idle idle
    (part 0 6) [2; 16; 16] None SmallNumpy.float32 after_init.

Definition after_run : UDFRunner_.RunState := run_on_cpu.1.1.

Definition wrapup_on_cpu :=
  UDFRunner_._wrapup_udfs flush_nothing export_as_it_is postprocess_of idle_cleanup
    pickles pickles two_udfs_runner (part 0 6) after_run.

(** The metadata of that run, with the scheme of the negotiator. *)
Definition run_meta : UDFMeta :=
  UDFMeta_.__init__ (Some {| nav := [6]; sig := [16; 16] |}) shape_4_4_16_16 None
    SmallNumpy.float32 SmallNumpy.float32 (Some [2; 16; 16]) 0 None (Some "cpu").

(** A runner for a CUDA worker: a UDF for ['cuda'] and ['cupy'], and one
    for ['cupy'] and ['numpy']. *)
Definition cuda_runner : UDFRunner :=
  {| _udfs := [new_udf DeviceUDF [("backends", PyStrTuple ["cuda"; "cupy"])];
               new_udf DeviceUDF []];
     _debug := false |}.

(** A run with a UDF that has none of the [process_*] methods behind a
    frame UDF: the store after [_init_udfs]. *)
Definition no_method_runner : UDFRunner :=
  {| _udfs := [new_udf PixelsumUDF []; new_udf NoMethodUDF []]; _debug := false |}.

Definition no_method_after_init : UDFRunner_.RunState :=
  (UDFRunner_._init_udfs true keep_shape zeros_in one_scheme no_task_data
     no_method_runner (part 0 6) None None "cpu" ([], (_udfs no_method_runner, []))).1.1.

Definition no_method_udf : UDF :=
  default (new_udf NoMethodUDF []) (no_method_after_init.2.1 !! 1).

(** The synchronous run of [PixelsumUDF] on the three partitions, with a
    progress bar. *)
Definition sync_run :=
  UDFRunner_.run_for_dataset "c0ffee" pickles dataset3 inline_executor None true None None
    ([], pixelsum_runner).

Definition sync_result : list (dict pyobj) :=
  match sync_run.2 with
  | Ok g => g
  | Raise _ => []
  end.

End Examples.

(** * Properties *)

(** ** Dictionaries *)

Section DictFacts.
Context {V : Type}.

Lemma dict_get_set (k k' : string) (v : V) (d : dict V) :
  dict_get k' (dict_set k v d) = if String.eqb k' k then Some v else dict_get k' d.
Proof.
  induction d as [|[k0 v0] d IH]; simpl.
  - destruct (String.eqb k' k); reflexivity.
  - destruct (String.eqb k k0) eqn:E; simpl.
    + apply String.eqb_eq in E. subst k0.
      destruct (String.eqb k' k); reflexivity.
    + rewrite IH. destruct (String.eqb k' k0) eqn:E0; [|reflexivity].
      apply String.eqb_eq in E0. subst k0.
      destruct (String.eqb k' k) eqn:E1; [|reflexivity].
      apply String.eqb_eq in E1. subst k'. rewrite String.eqb_refl in E. discriminate.
Qed.

Lemma dict_contains_set (k k' : string) (v : V) (d : dict V) :
  dict_contains k' (dict_set k v d) = String.eqb k' k || dict_contains k' d.
Proof.
  unfold dict_contains. rewrite dict_get_set.
  destruct (String.eqb k' k); reflexivity.
Qed.

Lemma dict_get_Some_keys (k : string) (v : V) (d : dict V) :
  dict_get k d = Some v -> k ∈ dict_keys d.
Proof.
  induction d as [|[k0 v0] d IH]; simpl; [discriminate|].
  destruct (String.eqb k k0) eqn:E.
  - apply String.eqb_eq in E. subst. intros _. apply list_elem_of_here.
  - intros Hg. apply list_elem_of_further. auto.
Qed.

Lemma dict_get_None_keys (k : string) (d : dict V) :
  dict_get k d = None <-> k ∉ dict_keys d.
Proof.
  induction d as [|[k0 v0] d IH]; simpl.
  - split; [intros _; apply not_elem_of_nil | reflexivity].
  - destruct (String.eqb k k0) eqn:E.
    + apply String.eqb_eq in E. subst. split; [discriminate|].
      intros Hn. exfalso. apply Hn. apply list_elem_of_here.
    + apply String.eqb_neq in E. rewrite IH. rewrite not_elem_of_cons. tauto.
Qed.

(** In a dict, the value found under the key of an item is that item's. *)
Lemma dict_get_head (k : string) (v : V) (d : dict V) :
  dict_get k ((k, v) :: d) = Some v.
Proof. simpl. rewrite String.eqb_refl. reflexivity. Qed.

Lemma dict_get_tail (k k0 : string) (v0 : V) (d : dict V) :
  k ≠ k0 -> dict_get k ((k0, v0) :: d) = dict_get k d.
Proof. intros Hne. simpl. apply String.eqb_neq in Hne. rewrite Hne. reflexivity. Qed.

End DictFacts.

(** ** [UDFData]: every view belongs to a buffer of the data dict *)

Section UDFDataFacts.
Context `{Buffers}.

Lemma init_views_in_data (data : dict pyobj) :
  views_in_data (UDFData_.__init__ data).
Proof. intros k. simpl. unfold dict_contains. simpl. discriminate. Qed.

Lemma clear_views_in_data (d : UDFData) :
  views_in_data (UDFData_.clear_views d).
Proof. intros k. simpl. unfold dict_contains. simpl. discriminate. Qed.

Lemma get_buffers_keys (its : dict pyobj) (fa : bool) (k : string) (b : BufferWrapper) :
  (k, b) ∈ UDFData_._get_buffers_of its fa -> dict_contains k its = true.
Proof.
  induction its as [|[k0 v0] its IH]; simpl.
  - intros Hin. apply elem_of_nil in Hin. destruct Hin.
  - unfold dict_contains in *. simpl.
    destruct (String.eqb k k0) eqn:E; [reflexivity|].
    destruct (as_buffer v0) as [b0|]; [|exact IH].
    destruct (has_data b0 && fa); [exact IH|].
    intros Hin. apply elem_of_cons in Hin as [Heq|Hin]; [|auto].
    inversion Heq; subst. rewrite String.eqb_refl in E. discriminate.
Qed.

Lemma set_views_loop_in_data getter bufs (h : heap) (d : UDFData) :
  (forall k b, (k, b) ∈ bufs -> dict_contains k (_data d) = true) ->
  views_in_data d ->
  views_in_data (UDFData_.set_views_loop getter bufs (h, d)).1.2
  /\ _data (UDFData_.set_views_loop getter bufs (h, d)).1.2 = _data d.
Proof.
  revert h d. induction bufs as [|[k b] bufs IH]; intros h d Hb Hv; simpl.
  - split; [exact Hv | reflexivity].
  - destruct (getter b h) as [h' [a|e]]; simpl; [|split; [exact Hv | reflexivity]].
    destruct (IH h' (UDFData_.with_views d (dict_set k a (_views d)))) as [Hv' Hd'].
    + simpl. intros k1 b1 Hin. apply (Hb k1 b1). apply list_elem_of_further. exact Hin.
    + intros k1. simpl. rewrite dict_contains_set.
      destruct (String.eqb k1 k) eqn:E; simpl; [|apply Hv].
      apply String.eqb_eq in E. subst. intros _. apply (Hb k b). apply list_elem_of_here.
    + split; [exact Hv' | exact Hd'].
Qed.

(** The five [set_view_for_*] methods keep the invariant, on both exits. *)
Lemma set_view_with_in_data getter (h : heap) (d : UDFData) :
  views_in_data d -> views_in_data (UDFData_.set_view_with getter (h, d)).1.2.
Proof.
  intros Hv. unfold UDFData_.set_view_with. simpl.
  apply set_views_loop_in_data; [|exact Hv].
  intros k b. unfold UDFData_._get_buffers. apply get_buffers_keys.
Qed.

Lemma new_for_partition_items_contains (its : dict pyobj) p roi (k : string) :
  dict_contains k (UDFData_.new_for_partition_items its p roi) = dict_contains k its.
Proof.
  unfold dict_contains. induction its as [|[k0 v0] its IH]; simpl; [reflexivity|].
  destruct (String.eqb k k0); [reflexivity | exact IH].
Qed.

Lemma new_for_partition_in_data (d : UDFData) p roi :
  views_in_data d -> views_in_data (UDFData_.new_for_partition_ d p roi).
Proof.
  intros Hv k. simpl. rewrite new_for_partition_items_contains. apply Hv.
Qed.

Lemma set_shape_ds_items_contains (its : dict pyobj) ds roi (k : string) :
  dict_contains k (UDFData_.set_shape_ds_items its ds roi) = dict_contains k its.
Proof.
  unfold dict_contains. induction its as [|[k0 v0] its IH]; simpl; [reflexivity|].
  destruct (String.eqb k k0); [reflexivity | exact IH].
Qed.

Lemma allocate_items_contains (its : dict pyobj) (h : heap) (k : string) :
  dict_contains k (UDFData_.allocate_items its h).1.2 = dict_contains k its.
Proof.
  unfold dict_contains. revert h.
  induction its as [|[k0 v0] its IH]; intros h; simpl; [reflexivity|].
  destruct (as_buffer v0) as [buf|].
  - destruct (has_data buf).
    + specialize (IH h). destruct (UDFData_.allocate_items its h) as [[h' rest'] r].
      simpl in *. destruct (String.eqb k k0); [reflexivity | exact IH].
    + destruct (allocate buf h) as [h1 [buf'|e]].
      * specialize (IH h1). destruct (UDFData_.allocate_items its h1) as [[h' rest'] r].
        simpl in *. destruct (String.eqb k k0); [reflexivity | exact IH].
      * simpl. reflexivity.
  - specialize (IH h). destruct (UDFData_.allocate_items its h) as [[h' rest'] r].
    simpl in *. destruct (String.eqb k k0); [reflexivity | exact IH].
Qed.

Lemma allocate_for_full_in_data (d : UDFData) ds roi (h : heap) :
  views_in_data d -> views_in_data (UDFData_.allocate_for_full ds roi (h, d)).1.2.
Proof.
  intros Hv k. unfold UDFData_.allocate_for_full. simpl.
  pose proof (allocate_items_contains (UDFData_.set_shape_ds_items (_data d) ds roi) h k) as Hc.
  destruct (UDFData_.allocate_items _ h) as [[h' d'] r]. simpl in *.
  rewrite Hc, set_shape_ds_items_contains. apply Hv.
Qed.

(** C10: for a key that is absent from the data dict, [get] raises
    [AttributeError] whatever the default is: [__getattr__] has turned
    the [KeyError] into an [AttributeError], which [get]'s
    [except KeyError] does not catch. *)
Theorem get_absent_raises_AttributeError (d : UDFData) (k : string) (v : pyobj) :
  views_in_data d ->
  UDFData_.__contains__ d k = false ->
  UDFData_.get d k v = Raise AttributeError.
Proof.
  intros Hv Hk. unfold UDFData_.__contains__ in Hk.
  unfold UDFData_.get, UDFData_.__getattr__.
  destruct (String.prefix "_" k); [reflexivity|].
  unfold UDFData_._get_view_or_data.
  destruct (dict_contains k (_views d)) eqn:Ev.
  - apply Hv in Ev. congruence.
  - unfold dict_getitem. unfold dict_contains in Hk.
    destruct (dict_get k (_data d)); [discriminate|]. reflexivity.
Qed.

End UDFDataFacts.

(** ** [get_method]: which processing method the engine picks *)

Section GetMethodFacts.
Context `{Numpy}.

(** C8, as the code has it: [get_method] raises [TypeError] exactly for
    a UDF with none of the three methods; a UDF with one or more gets
    the first it has in the order tile, frame, partition, and no
    error. *)
Theorem get_method_first_declared (u : UDF) :
  (UDF_.get_method u = Raise TypeError <-> declared_methods u = 0)
  /\ (0 < declared_methods u ->
      UDF_.get_method u =
        Ok (if cls_process_tile (__class__ u) then "tile"
            else if cls_process_frame (__class__ u) then "frame"
            else "partition")).
Proof.
  unfold UDF_.get_method, declared_methods.
  destruct (cls_process_tile (__class__ u)), (cls_process_frame (__class__ u)),
    (cls_process_partition (__class__ u)); simpl;
    (split; [split; (discriminate || reflexivity || lia) | (reflexivity || lia)]).
Qed.

End GetMethodFacts.

(** ** [_udf_lists]: host-mode and device-mode UDFs *)

Section UdfListsFacts.
Context `{Buffers}.

(** What a UDF announces for a CUDA worker. *)
#[local] Abbreviation has_backend b u := (b ∈ UDF_.get_backends u) (only parsing).

Lemma udf_lists_cuda_ok (udfs numpy_udfs cupy_udfs : list UDF) :
  Forall cuda_capable udfs ->
  UDFRunner_._udf_lists_cuda udfs numpy_udfs cupy_udfs
  = Ok (numpy_udfs ++ host_mode udfs, cupy_udfs ++ device_mode udfs).
Proof.
  unfold host_mode, device_mode.
  revert numpy_udfs cupy_udfs.
  induction udfs as [|u udfs IH]; intros n c Hall; simpl.
  - rewrite !app_nil_r. reflexivity.
  - inversion Hall as [|? ? Hu Hrest]; subst.
    rewrite filter_cons. rewrite (filter_cons _ u).
    destruct (decide (has_backend "cuda" u)) as [Hc|Hc].
    + rewrite bool_decide_eq_true_2 by exact Hc.
      rewrite IH by exact Hrest.
      rewrite decide_False by tauto.
      rewrite <- app_assoc. reflexivity.
    + rewrite bool_decide_eq_false_2 by exact Hc.
      destruct Hu as [Hu|Hu]; [contradiction|].
      rewrite bool_decide_eq_true_2 by exact Hu.
      rewrite IH by exact Hrest.
      rewrite decide_True by tauto.
      rewrite <- app_assoc. reflexivity.
Qed.

Lemma udf_lists_cuda_rejects (udfs numpy_udfs cupy_udfs : list UDF) :
  ~ Forall cuda_capable udfs ->
  UDFRunner_._udf_lists_cuda udfs numpy_udfs cupy_udfs = Raise ValueError.
Proof.
  revert numpy_udfs cupy_udfs.
  induction udfs as [|u udfs IH]; intros n c Hnot; simpl.
  - exfalso. apply Hnot. constructor.
  - fold (has_backend "cuda" u). fold (has_backend "cupy" u).
    destruct (decide (has_backend "cuda" u)) as [Hc|Hc].
    + rewrite bool_decide_eq_true_2 by exact Hc.
      apply IH. intros Hall. apply Hnot. constructor; [left; exact Hc | exact Hall].
    + rewrite bool_decide_eq_false_2 by exact Hc.
      destruct (decide (has_backend "cupy" u)) as [Hp|Hp].
      * rewrite bool_decide_eq_true_2 by exact Hp.
        apply IH. intros Hall. apply Hnot. constructor; [right; exact Hp | exact Hall].
      * rewrite bool_decide_eq_false_2 by exact Hp. reflexivity.
Qed.

Lemma forallb_numpy (udfs : list UDF) :
  forallb (fun udf => bool_decide ("numpy" ∈ UDF_.get_backends udf)) udfs = true
  <-> Forall (fun u => has_backend "numpy" u) udfs.
Proof.
  induction udfs as [|u udfs IH]; simpl.
  - split; [constructor | reflexivity].
  - rewrite andb_true_iff, IH, bool_decide_eq_true, Forall_cons. reflexivity.
Qed.

(** C2: the split of the UDF set by device class.  On a ['cuda'] worker
    the UDFs with ['cuda'] are the host-mode list, the remaining ones
    with ['cupy'] the device-mode list, both in the order of the
    runner's list, and a UDF with neither makes the call raise; on a
    ['cpu'] worker every UDF must have ['numpy'] and the device-mode
    list is empty; any other device class raises. *)
Theorem udf_lists_split (self : UDFRunner) (device_class : string) :
  (device_class = "cuda" ->
     (Forall cuda_capable (_udfs self) ->
        UDFRunner_._udf_lists self device_class
        = Ok (host_mode (_udfs self), device_mode (_udfs self)))
     /\ (~ Forall cuda_capable (_udfs self) ->
        UDFRunner_._udf_lists self device_class = Raise ValueError))
  /\ (device_class = "cpu" ->
     (Forall (fun u => has_backend "numpy" u) (_udfs self) ->
        UDFRunner_._udf_lists self device_class = Ok (_udfs self, []))
     /\ (~ Forall (fun u => has_backend "numpy" u) (_udfs self) ->
        UDFRunner_._udf_lists self device_class = Raise AssertionError))
  /\ (device_class <> "cuda" -> device_class <> "cpu" ->
        UDFRunner_._udf_lists self device_class = Raise ValueError).
Proof.
  unfold UDFRunner_._udf_lists. repeat split.
  - intros Hall. subst. simpl. rewrite udf_lists_cuda_ok by exact Hall. reflexivity.
  - intros Hnot. subst. simpl. apply udf_lists_cuda_rejects. exact Hnot.
  - intros Hall. subst. cbn [String.eqb Ascii.eqb Bool.eqb].
    apply forallb_numpy in Hall. rewrite Hall. reflexivity.
  - intros Hnot. subst. cbn [String.eqb Ascii.eqb Bool.eqb].
    destruct (forallb _ _) eqn:E; [|reflexivity].
    apply forallb_numpy in E. contradiction.
  - intros Hcuda Hcpu.
    apply String.eqb_neq in Hcuda, Hcpu. rewrite Hcuda, Hcpu. reflexivity.
Qed.

(** C9: on a ['cuda'] worker a UDF that has both ['cuda'] and ['cupy']
    is in the host-mode list and not in the device-mode list, because
    ['cuda'] is tested first. *)
Theorem cuda_and_cupy_runs_host_mode (self : UDFRunner) (u : UDF)
    (numpy_udfs cupy_udfs : list UDF) :
  UDFRunner_._udf_lists self "cuda" = Ok (numpy_udfs, cupy_udfs) ->
  u ∈ _udfs self ->
  "cuda" ∈ UDF_.get_backends u ->
  "cupy" ∈ UDF_.get_backends u ->
  u ∈ numpy_udfs /\ u ∉ cupy_udfs.
Proof.
  intros Hlists Hin Hcuda Hcupy.
  unfold UDFRunner_._udf_lists in Hlists. simpl in Hlists.
  destruct (decide (Forall cuda_capable (_udfs self))) as [Hall|Hnot].
  - rewrite udf_lists_cuda_ok in Hlists by exact Hall. simpl in Hlists.
    inversion Hlists; subst. unfold host_mode, device_mode. split.
    + apply list_elem_of_filter. split; assumption.
    + intros Hc. apply list_elem_of_filter in Hc as [[Hno _] _]. apply Hno. exact Hcuda.
  - rewrite udf_lists_cuda_rejects in Hlists by exact Hnot. discriminate.
Qed.

End UdfListsFacts.

(** ** [_get_dtype]: the input dtype *)

Section DtypeFacts.
Context `{Buffers}.



End DtypeFacts.

(** ** [_make_udf_tasks]: one task per partition that the ROI touches *)

Section TaskFacts.
Context `{Buffers}.

Lemma new_for_partition_items_get (its : dict pyobj) p roi (k : string) :
  dict_get k (UDFData_.new_for_partition_items its p roi) = resliced p roi <$> dict_get k its.
Proof.
  induction its as [|[k0 v0] its IH]; simpl; [reflexivity|].
  destruct (String.eqb k k0); [reflexivity | exact IH].
Qed.

Lemma make_udf_tasks_from_spec (idx0 : nat) (ps : list Partition) udfs roi corrections backends :
  map (fun t => (idx t, partition t))
      (UDFRunner_._make_udf_tasks_from idx0 ps udfs roi corrections backends)
  = filter (fun ip => in_roi roi ip.2 = true) (zip (seq idx0 (length ps)) ps).
Proof.
  revert idx0. induction ps as [|p ps IH]; intros idx0; simpl; [reflexivity|].
  rewrite filter_cons. simpl.
  destruct (decide (in_roi roi p = true)) as [Hin|Hin]; unfold in_roi in Hin;
    destruct roi as [r|]; try congruence.
  - destruct (Nat.eqb _ 0); [discriminate|]. simpl. f_equal. apply IH.
  - simpl. f_equal. apply IH.
  - destruct (Nat.eqb _ 0); [apply IH|]. simpl in Hin. congruence.
Qed.

Lemma make_udf_tasks_from_fields (idx0 : nat) (ps : list Partition) udfs roi corrections backends :
  Forall (fun t =>
            task_udfs t = map (fun u => UDF_.copy_for_partition u (partition t) roi) udfs
            /\ task_roi t = roi
            /\ task_corrections t = corrections
            /\ task_backends t = backends)
         (UDFRunner_._make_udf_tasks_from idx0 ps udfs roi corrections backends).
Proof.
  revert idx0. induction ps as [|p ps IH]; intros idx0; simpl; [constructor|].
  destruct (match roi with Some _ => _ | None => _ end); [apply IH|].
  constructor; [simpl; auto | apply IH].
Qed.

Lemma filter_zip_all (n : nat) (ps : list Partition) :
  map snd (filter (fun ip : nat * Partition => in_roi None ip.2 = true)
                  (zip (seq n (length ps)) ps)) = ps.
Proof.
  revert n. induction ps as [|p ps IH]; intros n; [reflexivity|].
  cbn [length seq zip zip_with]. rewrite filter_cons.
  rewrite decide_True by reflexivity.
  cbn [map snd]. f_equal. apply IH.
Qed.

(** C7: the tasks are, in partition order and with the partition's index
    in the dataset, exactly the partitions in which the ROI has a true
    entry (all partitions when there is no ROI); every task carries the
    ROI, corrections and backends of the call and, for every UDF of the
    runner, its [copy_for_partition]: a new instance whose buffers among
    the parameters are re-sliced with [new_for_partition]. *)
Theorem make_udf_tasks_spec (self : UDFRunner) (dataset : DataSet) (roi : option Roi)
    (corrections : option CorrectionSet) (backends : option (list string)) :
  let tasks := UDFRunner_._make_udf_tasks self dataset roi corrections backends in
  let ps := get_partitions dataset in
  map (fun t => (idx t, partition t)) tasks
  = filter (fun ip => in_roi roi ip.2 = true) (zip (seq 0 (length ps)) ps)
  /\ Forall (fun t =>
               task_udfs t
               = map (fun u => UDF_.copy_for_partition u (partition t) roi) (_udfs self)
               /\ task_roi t = roi
               /\ task_corrections t = corrections
               /\ task_backends t = backends) tasks
  /\ (roi = None -> map partition tasks = ps)
  /\ (forall u p k,
        dict_get k (_data (params (UDF_.copy_for_partition u p roi)))
        = resliced p roi <$> dict_get k (UDF_._kwargs u)).
Proof.
  intros tasks ps. subst tasks ps. unfold UDFRunner_._make_udf_tasks.
  split; [apply make_udf_tasks_from_spec|].
  split; [apply make_udf_tasks_from_fields|].
  split.
  - intros ->.
    pose proof (make_udf_tasks_from_spec 0 (get_partitions dataset) (_udfs self)
                  None corrections backends) as Hspec.
    apply (f_equal (map snd)) in Hspec.
    rewrite map_map in Hspec. simpl in Hspec.
    rewrite filter_zip_all in Hspec. exact Hspec.
  - intros u p k. simpl. apply new_for_partition_items_get.
Qed.

End TaskFacts.

(** ** [UDFTask.get_resources] *)

Section ResourceFacts.
Context `{Buffers}.

Lemma elem_of_intersect_all (b : string) (sets : list (gset string)) (acc : gset string) :
  b ∈ UDFTask_.intersect_all acc sets <-> b ∈ acc /\ Forall (fun s => b ∈ s) sets.
Proof.
  revert acc. induction sets as [|s sets IH]; intros acc; simpl.
  - split; [intros Hb; split; [exact Hb | constructor] | intros [Hb _]; exact Hb].
  - rewrite IH, Forall_cons, elem_of_intersection. tauto.
Qed.

Lemma elem_of_common_backends (task : UDFTask) (b : string) :
  task_udfs task <> [] ->
  b ∈ common_backends task <-> supported task b.
Proof.
  intros Hne. unfold common_backends, supported.
  destruct (task_udfs task) as [|u us]; [contradiction|]. simpl.
  assert (Hall : b ∈ UDFTask_.intersect_all
                   (list_to_set (UDF_.get_backends u) ∩ list_to_set (UDF_.get_backends u))
                   (map (fun udf => list_to_set (UDF_.get_backends udf) : gset string) us)
                 <-> Forall (fun u0 => b ∈ UDF_.get_backends u0) (u :: us)).
  { rewrite elem_of_intersect_all, Forall_cons, elem_of_intersection, Forall_map.
    rewrite elem_of_list_to_set.
    split.
    - intros [[Hu _] Hus]. split; [exact Hu|].
      eapply Forall_impl; [exact Hus|]. intros x Hx. apply elem_of_list_to_set in Hx. exact Hx.
    - intros [Hu Hus]. split; [tauto|].
      eapply Forall_impl; [exact Hus|]. intros x Hx. apply elem_of_list_to_set. exact Hx. }
  destruct (task_backends task) as [limit|].
  - rewrite elem_of_intersection, elem_of_list_to_set, Hall. tauto.
  - rewrite Hall. tauto.
Qed.

Lemma get_resources_unfold (task : UDFTask) :
  task_udfs task <> [] ->
  UDFTask_.get_resources task =
    let backends := common_backends task in
    if Nat.eqb (size backends) 0 then Raise ValueError
    else if bool_decide ("numpy" ∈ backends)
            && (bool_decide ("cupy" ∈ backends) || bool_decide ("cuda" ∈ backends))
    then Ok {[ "compute" := 1 ]}
    else if bool_decide ("numpy" ∈ backends)
    then Ok (<[ "CPU" := 1 ]> {[ "compute" := 1 ]})
    else if bool_decide ("cupy" ∈ backends) || bool_decide ("cuda" ∈ backends)
    then Ok (<[ "CUDA" := 1 ]> {[ "compute" := 1 ]})
    else Raise ValueError.
Proof.
  intros Hne. unfold UDFTask_.get_resources, common_backends.
  destruct (task_udfs task) as [|u us]; [contradiction|]. reflexivity.
Qed.

(** A task without UDFs fails at [backends_for_udfs[0]]. *)
Lemma get_resources_no_udfs (task : UDFTask) :
  task_udfs task = [] -> UDFTask_.get_resources task = Raise IndexError.
Proof. intros Hnil. unfold UDFTask_.get_resources. rewrite Hnil. reflexivity. Qed.

(** C4: the resources of a task are decided by the backends that all its
    UDFs have, restricted to the dispatcher's backends when given: CPU
    without a CUDA backend asks for [CPU] and [compute], CPU together
    with ['cuda'] or ['cupy'] for [compute] alone, ['cuda'] or ['cupy']
    without CPU for [CUDA] and [compute], and no common backend at all is
    a [ValueError]. *)
Theorem get_resources_by_common_backends (task : UDFTask) :
  task_udfs task <> [] ->
  ((forall b, ~ supported task b) ->
     UDFTask_.get_resources task = Raise ValueError)
  /\ (supported task "numpy" -> ~ supported task "cuda" -> ~ supported task "cupy" ->
     UDFTask_.get_resources task = Ok (<[ "CPU" := 1 ]> {[ "compute" := 1 ]}))
  /\ (supported task "numpy" -> supported task "cuda" \/ supported task "cupy" ->
     UDFTask_.get_resources task = Ok {[ "compute" := 1 ]})
  /\ (~ supported task "numpy" -> supported task "cuda" \/ supported task "cupy" ->
     UDFTask_.get_resources task = Ok (<[ "CUDA" := 1 ]> {[ "compute" := 1 ]})).
Proof.
  intros Hne. rewrite get_resources_unfold by exact Hne. cbv zeta.
  pose proof (elem_of_common_backends task) as Hmem.
  assert (Hsize : forall b, supported task b -> Nat.eqb (size (common_backends task)) 0 = false).
  { intros b Hb. apply Nat.eqb_neq. intros Hz.
    apply size_empty_iff in Hz. apply (Hmem b Hne) in Hb.
    rewrite Hz in Hb. set_solver. }
  repeat split.
  - intros Hnone.
    assert (Hz : size (common_backends task) = 0).
    { apply size_empty_iff. apply set_equiv. intros b. split; [|set_solver].
      intros Hb. apply (Hmem b Hne) in Hb. destruct (Hnone b Hb). }
    rewrite Hz. reflexivity.
  - intros Hn Hcuda Hcupy. rewrite (Hsize _ Hn).
    rewrite (bool_decide_eq_true_2 _ (proj2 (Hmem "numpy" Hne) Hn)).
    rewrite (bool_decide_eq_false_2 ("cupy" ∈ common_backends task))
      by (intros Hx; apply Hcupy, (Hmem "cupy" Hne), Hx).
    rewrite (bool_decide_eq_false_2 ("cuda" ∈ common_backends task))
      by (intros Hx; apply Hcuda, (Hmem "cuda" Hne), Hx).
    reflexivity.
  - intros Hn Hdev. rewrite (Hsize _ Hn).
    rewrite (bool_decide_eq_true_2 _ (proj2 (Hmem "numpy" Hne) Hn)).
    destruct Hdev as [Hd|Hd].
    + rewrite (bool_decide_eq_true_2 _ (proj2 (Hmem "cuda" Hne) Hd)).
      rewrite orb_true_r. reflexivity.
    + rewrite (bool_decide_eq_true_2 _ (proj2 (Hmem "cupy" Hne) Hd)). reflexivity.
  - intros Hn Hdev.
    assert (Hsz : Nat.eqb (size (common_backends task)) 0 = false)
      by (destruct Hdev as [Hd|Hd]; exact (Hsize _ Hd)).
    rewrite Hsz.
    rewrite (bool_decide_eq_false_2 ("numpy" ∈ common_backends task))
      by (intros Hx; apply Hn, (Hmem "numpy" Hne), Hx).
    simpl.
    destruct Hdev as [Hd|Hd].
    + rewrite (bool_decide_eq_true_2 _ (proj2 (Hmem "cuda" Hne) Hd)).
      rewrite orb_true_r. reflexivity.
    + rewrite (bool_decide_eq_true_2 _ (proj2 (Hmem "cupy" Hne) Hd)). reflexivity.
Qed.

End ResourceFacts.

(** ** The default [merge] *)

Section MergeFacts.
Context `{Buffers}.

Lemma any_not_nav_true (buffers : dict BufferWrapper) :
  any_not_nav buffers = true <-> Exists (fun b => kind b <> "nav") (dict_values buffers).
Proof.
  unfold any_not_nav. rewrite existsb_exists, Exists_exists.
  split; intros [b [Hin Hb]]; exists b.
  - split; [apply list_elem_of_In; exact Hin|].
    apply negb_true_iff, String.eqb_neq in Hb. exact Hb.
  - split; [apply list_elem_of_In; exact Hin|].
    apply negb_true_iff, String.eqb_neq. exact Hb.
Qed.

Lemma any_not_nav_false (buffers : dict BufferWrapper) :
  any_not_nav buffers = false <-> Forall (fun b => kind b = "nav") (dict_values buffers).
Proof.
  unfold any_not_nav. induction (dict_values buffers) as [|b bs IH]; simpl.
  - split; [constructor | reflexivity].
  - rewrite orb_false_iff, IH, Forall_cons, negb_false_iff, String.eqb_eq. reflexivity.
Qed.

Lemma init_cache_consistent (cls : UDFClass) (kwargs : dict pyobj) :
  cache_consistent (UDF_.__init__ cls kwargs).
Proof. intros b buffers Hc. simpl in Hc. discriminate. Qed.

Lemma requires_custom_merge_value (self : UDF) (buffers : dict BufferWrapper) :
  cache_consistent self ->
  UDF_.get_result_buffers self = Ok buffers ->
  (UDF_.requires_custom_merge self).2 = Ok (any_not_nav buffers)
  /\ cache_consistent (UDF_.requires_custom_merge self).1.
Proof.
  intros Hc Hb. unfold UDF_.requires_custom_merge.
  destruct (_requires_custom_merge self) as [b|] eqn:E.
  - simpl. split; [|exact Hc]. f_equal. apply Hc; [exact E | exact Hb].
  - rewrite Hb. simpl. split; [reflexivity|].
    intros b' buffers' Hc' Hb'. simpl in Hc'.
    unfold UDF_.get_result_buffers, UDF_._kwargs in *. simpl in Hb'.
    rewrite Hb in Hb'. inversion Hc'; inversion Hb'; subst. reflexivity.
Qed.

Lemma dict_get_of_item {V} (d : dict V) (k : string) (v : V) :
  NoDup (dict_keys d) -> (k, v) ∈ d -> dict_get k d = Some v.
Proof.
  induction d as [|[k0 v0] d IH]; simpl; intros Hnd Hin.
  - apply elem_of_nil in Hin. destruct Hin.
  - apply NoDup_cons in Hnd as [Hk0 Hnd].
    apply elem_of_cons in Hin as [Heq|Hin].
    + inversion Heq; subst. rewrite String.eqb_refl. reflexivity.
    + destruct (String.eqb k k0) eqn:E; [|auto].
      apply String.eqb_eq in E. subst k0. exfalso. apply Hk0.
      apply list_elem_of_fmap. exists (k, v). split; [reflexivity | exact Hin].
Qed.

Lemma merge_loop_cons (k : string) (ks : list string) (dest src : dict pyobj) (h : heap) :
  UDF_.merge_loop (k :: ks) dest src h =
    match merge_step k dest src h with
    | (h1, Ok _) => UDF_.merge_loop ks dest src h1
    | (h1, Raise e) => (h1, Raise e)
    end.
Proof.
  simpl. unfold merge_step, bind, lift.
  destruct (dict_getitem k dest) as [d|e]; [|reflexivity].
  destruct (dict_getitem k src) as [s|e]; [|reflexivity].
  destruct (UDF_.check_cast d s h) as [h0 [[]|e]]; [|reflexivity].
  destruct (UDF_.setitem_slice s d h0) as [h1 [[]|e]]; reflexivity.
Qed.

(** A round either copies one array after its check, or raises one of
    four exceptions and writes nothing. *)
Lemma merge_step_cases (k : string) (v : pyobj) (dest src : dict pyobj) (h : heap) :
  dict_get k dest = Some v ->
  (exists d s h1,
      v = PyArray d /\ dict_get k src = Some (PyArray s)
      /\ can_cast_safe (dtype_of h d) (dtype_of h s) = true
      /\ setitem_all d s h = Some h1
      /\ merge_step k dest src h = (h1, Ok tt))
  \/ (exists e,
      merge_step k dest src h = (h, Raise e)
      /\ e <> NotImplementedError
      /\ forall d s h1,
           v = PyArray d -> dict_get k src = Some (PyArray s) ->
           can_cast_safe (dtype_of h d) (dtype_of h s) = true ->
           setitem_all d s h = Some h1 -> False).
Proof.
  intros Hd. unfold merge_step, bind, lift, dict_getitem. rewrite Hd.
  destruct (dict_get k src) as [sv|] eqn:Hs.
  2:{ right. exists KeyError. repeat split; [discriminate|]. intros; discriminate. }
  unfold UDF_.check_cast, UDF_.dtype_attr.
  destruct v as [| | | |d|];
    try (right; exists AttributeError; repeat split; [discriminate|]; intros; discriminate).
  destruct sv as [| | | |s|];
    try (right; exists AttributeError; repeat split; [discriminate|]; intros; discriminate).
  destruct (can_cast_safe (dtype_of h d) (dtype_of h s)) eqn:Hcast.
  2:{ right. exists TypeError. repeat split; [discriminate|].
      intros d0 s0 h1 Hv Hsrc Hc. inversion Hv; inversion Hsrc; subst. congruence. }
  unfold UDF_.setitem_slice.
  destruct (setitem_all d s h) as [h1|] eqn:Hset.
  - left. exists d, s, h1. repeat split; assumption.
  - right. exists ValueError. repeat split; [discriminate|].
    intros d0 s0 h1 Hv Hsrc Hc Hset'. inversion Hv; inversion Hsrc; subst. congruence.
Qed.

Lemma merge_loop_spec (its dest src : dict pyobj) (h : heap) :
  (forall k v, (k, v) ∈ its -> dict_get k dest = Some v) ->
  let out := UDF_.merge_loop (dict_keys its) dest src h in
  (out.2 = Ok tt <-> copied src its h out.1)
  /\ out.2 <> Raise NotImplementedError
  /\ exists done rest, its = done ++ rest /\ copied src done h out.1.
Proof.
  revert h. induction its as [|[k v] its IH]; intros h Hits; cbv zeta.
  - simpl. split; [split; [intros _; constructor | reflexivity]|].
    split; [discriminate|]. exists [], []. split; [reflexivity | constructor].
  - change (dict_keys ((k, v) :: its)) with (k :: dict_keys its).
    rewrite merge_loop_cons.
    assert (Hk : dict_get k dest = Some v) by (apply Hits; apply list_elem_of_here).
    assert (Hrest : forall k0 v0, (k0, v0) ∈ its -> dict_get k0 dest = Some v0)
      by (intros k0 v0 Hin; apply Hits; apply list_elem_of_further; exact Hin).
    destruct (merge_step_cases k v dest src h Hk)
      as [(d & s & h1 & -> & Hs & Hc & Hset & Hstep) | (e & Hstep & Hne & Hno)];
      rewrite Hstep.
    + destruct (IH h1 Hrest) as (Hok & Hnie & done & rest & Hsplit & Hdone).
      split; [|split].
      * rewrite Hok. split.
        -- intros Hcop. econstructor; eassumption.
        -- intros Hcop. inversion Hcop; subst. congruence.
      * exact Hnie.
      * exists ((k, PyArray d) :: done), rest. split; [rewrite Hsplit; reflexivity|].
        econstructor; eassumption.
    + simpl. split; [|split].
      * split; [discriminate|]. intros Hcop. exfalso.
        inversion Hcop; subst. eapply Hno; eauto.
      * congruence.
      * exists [], ((k, v) :: its). split; [reflexivity | constructor].
Qed.

(** What the default merge does.  It raises [NotImplementedError]
    exactly when one of the declared buffers has a kind other than
    ['nav'], and then the array store is as before; when all declared
    buffers are ['nav'], it goes through the keys of [dest] in order and,
    for each, makes the check of [check_cast(dest[k], src[k])] and copies
    [src[k]] into [dest[k]]: it returns normally exactly when every check
    and every copy succeeded, and whatever it has written on any exit
    are such copies for a leading part of [dest].  The check is the one
    that [copied] records, from the dtype of the destination to the
    dtype of the source. *)
Lemma default_merge_spec (self : UDF) (buffers : dict BufferWrapper)
    (dest src : dict pyobj) (h : heap) :
  UDF_.get_result_buffers self = Ok buffers ->
  cache_consistent self ->
  NoDup (dict_keys dest) ->
  let out := UDF_.default_merge dest src (h, self) in
  (out.2 = Raise NotImplementedError
   <-> Exists (fun b => kind b <> "nav") (dict_values buffers))
  /\ (out.2 = Raise NotImplementedError -> out.1.1 = h)
  /\ (Forall (fun b => kind b = "nav") (dict_values buffers) ->
      (out.2 = Ok tt <-> copied src dest h out.1.1)
      /\ exists done rest, dest = done ++ rest /\ copied src done h out.1.1).
Proof.
  intros Hbuf Hcache Hnodup out. subst out.
  destruct (requires_custom_merge_value self buffers Hcache Hbuf) as [Hval _].
  unfold UDF_.default_merge, bind, on_snd, on_fst, throw. simpl.
  destruct (UDF_.requires_custom_merge self) as [self' r]. simpl in Hval. subst r.
  destruct (merge_loop_spec dest dest src h
              (fun k v Hin => dict_get_of_item dest k v Hnodup Hin))
    as (Hok & Hnie & Hprefix).
  destruct (any_not_nav buffers) eqn:Hany; simpl.
  - apply any_not_nav_true in Hany.
    split; [tauto|]. split; [reflexivity|].
    intros Hall. exfalso.
    apply Exists_exists in Hany as (b & Hin & Hb).
    rewrite Forall_forall in Hall. apply Hb, Hall, Hin.
  - destruct (UDF_.merge_loop (dict_keys dest) dest src h) as [h' r] eqn:Hloop.
    simpl in *. split; [|split].
    + split; [intros Hr; contradiction|].
      intros Hex. apply any_not_nav_true in Hex. congruence.
    + intros Hr. contradiction.
    + intros _. split; [exact Hok | exact Hprefix].
Qed.

(** A UDF class without a [merge] of its own gets the default one. *)
Lemma merge_is_default (self : UDF) (dest src : dict pyobj) (h : heap) :
  cls_merge (__class__ self) = None ->
  UDF_.merge dest src (h, self) = UDF_.default_merge dest src (h, self).
Proof. intros Hnone. unfold UDF_.merge. simpl. rewrite Hnone. reflexivity. Qed.

End MergeFacts.

(** ** [run_for_partition]: the CUDA device of the worker *)

Section DeviceFacts.
Context `{Buffers}.
Variable W : Type.
Variable n_devices : nat.
Variable cupy_installed : bool.
Variable get_device_class : string.
Variable get_use_cuda : option nat.
Variable _init_udfs :
  list UDF -> list UDF -> Partition -> option Roi -> option CorrectionSet -> string ->
  M (Worker W) (UDFMeta * TilingScheme * dtype).
Variable set_corrections : Partition -> option CorrectionSet -> M (Worker W) unit.
Variable _run_udfs :
  list UDF -> list UDF -> Partition -> TilingScheme -> option Roi -> dtype ->
  M (Worker W) unit.
Variable _wrapup_udfs : list UDF -> list UDF -> Partition -> M (Worker W) unit.
Variable results_of : list UDF -> Worker W -> list (option UDFData).

(** The [finally] block, entered with a saved id of an existing device,
    selects that device. *)
Lemma run_finally_restores (previous_id : nat) (w : Worker W) :
  previous_id < n_devices ->
  device_id (UDFRunner_.run_finally W n_devices (Some previous_id, w)).1.2 = previous_id.
Proof.
  intros Hlt. unfold UDFRunner_.run_finally, on_snd, UDFRunner_.Device_use. simpl.
  apply Nat.ltb_lt in Hlt. rewrite Hlt. reflexivity.
Qed.

Lemma run_finally_nothing_saved (w : Worker W) :
  UDFRunner_.run_finally W n_devices (None, w) = ((None, w), Ok tt).
Proof. reflexivity. Qed.

(** What the [try] block leaves behind, by the answer of [_udf_lists]:
    without device-mode UDFs nothing is saved and the worker is as the
    phases left it; with device-mode UDFs either nothing is saved and the
    worker is untouched, or the id of the start is saved. *)
Lemma run_try_saves (self : UDFRunner) p r c (l0 : option nat) (w : Worker W) :
  let out := UDFRunner_.run_try W n_devices cupy_installed get_device_class get_use_cuda
               _init_udfs set_corrections _run_udfs _wrapup_udfs self p r c (l0, w) in
  match UDFRunner_._udf_lists self get_device_class with
  | Raise _ => out.1 = (None, w)
  | Ok (numpy_udfs, []) =>
      out.1 = (None, (UDFRunner_.run_phases W _init_udfs set_corrections _run_udfs
                        _wrapup_udfs numpy_udfs [] get_device_class p r c w).1)
  | Ok (_, _ :: _) => out.1 = (None, w) \/ out.1.1 = Some (device_id w)
  end.
Proof.
  cbv zeta. unfold UDFRunner_.run_try, bind, ret, lift. simpl.
  destruct (UDFRunner_._udf_lists self get_device_class) as [[numpy_udfs cupy_udfs]|e];
    simpl; [|reflexivity].
  destruct cupy_udfs as [|u cupy_udfs].
  - simpl. unfold on_snd. simpl.
    destruct (UDFRunner_.run_phases _ _ _ _ _ _ _ _ _ _ _ w) as [w' [[]|e]]; reflexivity.
  - unfold on_snd, UDFRunner_.import_cupy. simpl.
    destruct cupy_installed; simpl; [|left; reflexivity].
    destruct (UDFRunner_.Device_use W n_devices get_use_cuda w) as [w1 [[]|e]] eqn:Huse; simpl.
    + destruct (UDFRunner_.run_phases _ _ _ _ _ _ _ _ _ _ _ w1) as [w' [[]|e]]; simpl;
        right; reflexivity.
    + right. reflexivity.
Qed.

(** C5, as amended: with device-mode UDFs, the device that is selected
    when [run_for_partition] returns or raises is the device that was
    selected when it was called: the runner saves the id before it
    selects its own device, and the [finally] block selects the saved one
    again, whatever the phases of the run did to the selection and
    however they ended.  Without device-mode UDFs the runner neither
    selects, saves nor restores a device: the device after the call is
    the one that the phases of the run left selected.  When [_udf_lists]
    rejects the UDFs, no phase runs and the device is as before. *)
Theorem run_for_partition_restores_device (self : UDFRunner) (p : Partition)
    (r : option Roi) (c : option CorrectionSet) (w : Worker W) :
  device_id w < n_devices ->
  let out := UDFRunner_.run_for_partition W n_devices cupy_installed get_device_class
               get_use_cuda _init_udfs set_corrections _run_udfs _wrapup_udfs results_of
               self p r c w in
  match UDFRunner_._udf_lists self get_device_class with
  | Ok (_, _ :: _) => device_id out.1 = device_id w
  | Ok (numpy_udfs, []) =>
      device_id out.1
      = device_id (UDFRunner_.run_phases W _init_udfs set_corrections _run_udfs _wrapup_udfs
                     numpy_udfs [] get_device_class p r c (UDFRunner_.set_threads W 1 w)).1
  | Raise _ => device_id out.1 = device_id w
  end.
Proof.
  intros Hvalid. cbv zeta.
  unfold UDFRunner_.run_for_partition, UDFRunner_.with_num_threads, try_finally.
  pose proof (run_try_saves self p r c None (UDFRunner_.set_threads W 1 w)) as Hsaved.
  cbv zeta in Hsaved.
  destruct (UDFRunner_.run_try _ _ _ _ _ _ _ _ _ _ _ _ _ _) as [[l w1] res].
  simpl in Hsaved.
  destruct (UDFRunner_._udf_lists self get_device_class) as [[numpy_udfs [|u cupy_udfs]]|e].
  - injection Hsaved as -> ->. rewrite run_finally_nothing_saved.
    destruct res; reflexivity.
  - destruct Hsaved as [Heq | ->].
    + injection Heq as -> ->. rewrite run_finally_nothing_saved. destruct res; reflexivity.
    + pose proof (run_finally_restores (device_id w) w1 Hvalid) as Hres.
      destruct (UDFRunner_.run_finally W n_devices (Some (device_id w), w1))
        as [[l2 w2] [[]|e]]; simpl in *; destruct res; simpl; exact Hres.
  - injection Hsaved as -> ->. rewrite run_finally_nothing_saved. destruct res; reflexivity.
Qed.

End DeviceFacts.

(** ** [run_for_dataset_async]: what is yielded *)

Section AsyncFacts.
Context `{Buffers}.


Lemma in_results_ok {A} (m : M (heap * UDFData) A) (h h' : heap) (u u' : UDF) (a : A) :
  UDF_.in_results m (h, u) = ((h', u'), Ok a) -> is_Some (results u').
Proof.
  unfold UDF_.in_results. simpl. destruct (results u) as [r|]; [|discriminate].
  destruct (m (h, r)) as [[h1 r1] x]. intros Heq. inversion Heq; subst. simpl. eauto.
Qed.

Lemma in_params_results {A} (m : M (heap * UDFData) A) (hu : heap * UDF) :
  results (UDF_.in_params m hu).1.2 = results hu.2.
Proof.
  unfold UDF_.in_params, zoom. destruct (m (hu.1, params hu.2)) as [[h1 p1] x]. reflexivity.
Qed.

Lemma clear_views_ok (h h' : heap) (u u' : UDF) :
  UDF_.clear_views (h, u) = ((h', u'), Ok tt) -> is_Some (results u').
Proof.
  unfold UDF_.clear_views, bind.
  destruct (UDF_.in_params UDF_.data_clear_views (h, u)) as [[h1 u1] [[]|e]]; [|discriminate].
  apply in_results_ok.
Qed.

Lemma clear_views_total (h : heap) (u : UDF) :
  is_Some (results u) ->
  exists u', UDF_.clear_views (h, u) = ((h, u'), Ok tt)
             /\ (UDFData_.as_dict <$> results u') = (UDFData_.as_dict <$> results u).
Proof.
  intros [r Hr].
  exists (UDF_.with_results (UDF_.with_params u (UDFData_.clear_views (params u)))
            (Some (UDFData_.clear_views r))).
  unfold UDF_.clear_views, bind, UDF_.in_params, zoom, UDF_.in_results,
    UDF_.data_clear_views. simpl. rewrite Hr. split; reflexivity.
Qed.

Lemma merge_partial_ok (results0 : UDFData) (task : UDFTask) (h h' : heap) (u u' : UDF) :
  UDFRunner_.merge_partial results0 task (h, u) = ((h', u'), Ok tt) ->
  is_Some (results u').
Proof.
  unfold UDFRunner_.merge_partial, bind, lift.
  destruct (UDF_.set_views_for_partition (partition task) (h, u)) as [[h1 u1] [[]|e]];
    [|discriminate].
  destruct (results (h1, u1).2) as [r|]; [|discriminate].
  destruct (UDFData_.get_proxy r) as [dest|e]; [|discriminate].
  destruct (UDFData_.get_proxy results0) as [src|e]; [|discriminate].
  destruct (UDF_.merge dest src (h1, u1)) as [[h2 u2] [[]|e]]; [|discriminate].
  apply clear_views_ok.
Qed.

Lemma merge_zip_ok (prs : list UDFData) (udfs udfs' : list UDF) (task : UDFTask)
    (h h' : heap) :
  all_have_results udfs ->
  UDFRunner_.merge_zip prs udfs task h = (h', udfs', Ok tt) ->
  all_have_results udfs'.
Proof.
  revert udfs udfs' h h'. induction prs as [|pr prs IH]; intros udfs udfs' h h' Hall Hz.
  - simpl in Hz. destruct udfs; inversion Hz; subst; exact Hall.
  - destruct udfs as [|u udfs]; simpl in Hz; [inversion Hz; subst; exact Hall|].
    destruct (UDFRunner_.merge_partial pr task (h, u)) as [[h1 u1] [[]|e]] eqn:Hm;
      [|inversion Hz].
    destruct (UDFRunner_.merge_zip prs udfs task h1) as [[h2 rest] r] eqn:Hrest.
    inversion Hz; subst.
    inversion Hall; subst.
    constructor; [eapply merge_partial_ok; exact Hm | eapply IH; eauto].
Qed.

Lemma for_each_udf_ok (body : M (heap * UDF) unit) (P : UDF -> Prop)
    (udfs udfs' : list UDF) (h h' : heap) :
  (forall h0 u0 h1 u1, body (h0, u0) = ((h1, u1), Ok tt) -> P u1) ->
  UDFRunner_.for_each_udf body udfs h = (h', udfs', Ok tt) ->
  Forall P udfs'.
Proof.
  intros Hbody. revert udfs' h h'.
  induction udfs as [|u udfs IH]; intros udfs' h h' Hf; simpl in Hf.
  - inversion Hf; subst. constructor.
  - destruct (body (h, u)) as [[h1 u1] [[]|e]] eqn:Hb; [|inversion Hf].
    destruct (UDFRunner_.for_each_udf body udfs h1) as [[h2 rest] r] eqn:Hrest.
    inversion Hf; subst.
    constructor; [eapply Hbody; exact Hb | eapply IH; exact Hrest].
Qed.

(** The [else] suite: with result buffers everywhere, clearing the views
    succeeds, changes no array and no result dict. *)
Lemma clear_all_views_total (udfs : list UDF) (h : heap) :
  all_have_results udfs ->
  exists udfs',
    UDFRunner_.for_each_udf UDF_.clear_views udfs h = (h, udfs', Ok tt)
    /\ all_have_results udfs'
    /\ UDFRunner_.results_as_dicts udfs' = UDFRunner_.results_as_dicts udfs.
Proof.
  induction udfs as [|u udfs IH]; intros Hall; simpl.
  - exists []. repeat split. constructor.
  - inversion Hall as [|? ? Hu Hrest]; subst.
    destruct (clear_views_total h u Hu) as (u' & Hc & Hd).
    destruct (IH Hrest) as (udfs' & Hf & Hall' & Hdicts).
    rewrite Hc, Hf. exists (u' :: udfs'). split; [reflexivity|].
    assert (Hu' : is_Some (results u')) by (eapply clear_views_ok; exact Hc).
    split; [constructor; assumption|].
    simpl. rewrite Hdicts.
    destruct Hu as [r Hr], Hu' as [r' Hr']. rewrite Hr, Hr' in *. simpl in Hd.
    inversion Hd as [Heq]. rewrite Heq. reflexivity.
Qed.

Lemma results_as_dicts_total (udfs : list UDF) :
  all_have_results udfs -> exists g, UDFRunner_.results_as_dicts udfs = Ok g.
Proof.
  induction 1 as [|u udfs [r Hr] _ [g Hg]]; simpl; [eauto|].
  rewrite Hr, Hg. simpl. eauto.
Qed.

Lemma allocate_for_full_ok (dataset : DataSet) (roi : option Roi) (h h' : heap) (u u' : UDF) :
  UDF_.allocate_for_full dataset roi (h, u) = ((h', u'), Ok tt) -> is_Some (results u').
Proof.
  unfold UDF_.allocate_for_full, bind.
  destruct (UDF_.in_params _ (h, u)) as [[h1 u1] [[]|e]]; [|discriminate].
  apply in_results_ok.
Qed.

Lemma preprocess_for_dataset_ok (dataset : DataSet) (h h' : heap) (u u' : UDF) :
  is_Some (results u) ->
  UDFRunner_.preprocess_for_dataset dataset (h, u) = ((h', u'), Ok tt) ->
  is_Some (results u').
Proof.
  intros Hu. unfold UDFRunner_.preprocess_for_dataset. simpl.
  destruct (cls_preprocess (__class__ u)) as [user_preprocess|].
  - unfold bind.
    destruct (UDF_.set_views_for_dataset dataset (h, u)) as [[h1 u1] [[]|e]]; [|discriminate].
    apply in_results_ok.
  - intros Heq. inversion Heq; subst. exact Hu.
Qed.

Lemma prepare_ok (dataset : DataSet) (roi : option Roi) (corrections : option CorrectionSet)
    (backends : option (list string)) (st st1 : heap * UDFRunner) (tasks : list UDFTask) :
  UDFRunner_._prepare_run_for_dataset dataset roi corrections backends st = (st1, Ok tasks) ->
  all_have_results (_udfs st1.2).
Proof.
  unfold UDFRunner_._prepare_run_for_dataset, bind, lift.
  destruct (UDFRunner_._check_preconditions dataset roi) as [[]|e]; [|discriminate].
  unfold UDFRunner_.for_udfs.
  destruct (UDFRunner_.for_each_udf _ (_udfs st.2) st.1) as [[h1 udfs1] [[]|e]] eqn:Hf;
    [|discriminate].
  intros Heq. inversion Heq; subst. simpl.
  eapply for_each_udf_ok; [|exact Hf].
  intros h0 u0 h2 u2. unfold bind. simpl.
  destruct (UDF_.init_result_buffers _) as [[h3 u3] [[]|e]]; [|discriminate].
  destruct (UDF_.allocate_for_full dataset roi (h3, u3)) as [[h4 u4] [[]|e]] eqn:Ha;
    [|discriminate].
  apply preprocess_for_dataset_ok. eapply allocate_for_full_ok. exact Ha.
Qed.

(** The two equations of the loop. *)
Lemma async_for_nil (h : heap) (self : UDFRunner) :
  UDFRunner_.async_for [] (h, self) =
    match UDFRunner_.for_each_udf UDF_.clear_views (_udfs self) h with
    | (h1, udfs1, Ok _) =>
        match UDFRunner_.results_as_dicts udfs1 with
        | Ok g => ((h1, UDFRunner_.with_udfs self udfs1),
                   [Yielded {| groups := g; arrays := h1 |}], Ok tt)
        | Raise e => ((h1, UDFRunner_.with_udfs self udfs1), [], Raise e)
        end
    | (h1, udfs1, Raise e) => ((h1, UDFRunner_.with_udfs self udfs1), [], Raise e)
    end.
Proof.
  simpl. unfold UDFRunner_.gbind, UDFRunner_.glift, UDFRunner_.for_udfs,
    UDFRunner_.yield_results. simpl.
  destruct (UDFRunner_.for_each_udf UDF_.clear_views (_udfs self) h) as [[h1 udfs1] [[]|e]];
    [|reflexivity].
  simpl. destruct (UDFRunner_.results_as_dicts udfs1); reflexivity.
Qed.

Lemma async_for_cons (receive : M heap (list UDFData * UDFTask))
    (rest : list (M heap (list UDFData * UDFTask))) (h : heap) (self : UDFRunner) :
  UDFRunner_.async_for (receive :: rest) (h, self) =
    match receive h with
    | (h1, Raise e) => ((h1, self), [], Raise e)
    | (h1, Ok delivery) =>
        match UDFRunner_.merge_zip delivery.1 (_udfs self) delivery.2 h1 with
        | (h2, udfs2, Raise e) => ((h2, UDFRunner_.with_udfs self udfs2), [], Raise e)
        | (h2, udfs2, Ok _) =>
            match UDFRunner_.results_as_dicts udfs2 with
            | Raise e =>
                ((h2, UDFRunner_.with_udfs self udfs2), [Merged delivery.2], Raise e)
            | Ok g =>
                match UDFRunner_.async_for rest (h2, UDFRunner_.with_udfs self udfs2) with
                | (st3, tr, r) =>
                    (st3, Merged delivery.2 :: Yielded {| groups := g; arrays := h2 |} :: tr, r)
                end
            end
        end
    end.
Proof.
  simpl. unfold UDFRunner_.gbind, UDFRunner_.glift, on_fst, UDFRunner_.merge_task,
    UDFRunner_.emit, UDFRunner_.yield_results. simpl.
  destruct (receive h) as [h1 [delivery|e]]; [|reflexivity].
  cbn [fst snd].
  destruct (UDFRunner_.merge_zip delivery.1 (_udfs self) delivery.2 h1)
    as [[h2 udfs2] [[]|e]]; [|reflexivity].
  cbn [fst snd _udfs UDFRunner_.with_udfs].
  destruct (UDFRunner_.results_as_dicts udfs2) as [g|e]; [|reflexivity].
  destruct (UDFRunner_.async_for rest (h2, UDFRunner_.with_udfs self udfs2)) as [[st3 tr] r].
  reflexivity.
Qed.


(** After a stream that delivered something, the final snapshot repeats
    the one that followed the last merge. *)
Lemma async_for_final_repeats (stream : list (M heap (list UDFData * UDFTask)))
    (st : heap * UDFRunner) :
  all_have_results (_udfs st.2) ->
  stream <> [] ->
  (UDFRunner_.async_for stream st).2 = Ok tt ->
  exists pre t s,
    (UDFRunner_.async_for stream st).1.2 = pre ++ [Merged t; Yielded s; Yielded s].
Proof.
  revert st. induction stream as [|receive rest IH]; intros [h self] Hall Hne; [contradiction|].
  simpl in Hall. rewrite async_for_cons.
  destruct (receive h) as [h1 [delivery|e]]; simpl; [|discriminate].
  destruct (UDFRunner_.merge_zip delivery.1 (_udfs self) delivery.2 h1)
    as [[h2 udfs2] [[]|e]] eqn:Hz; simpl; [|discriminate].
  assert (Hall2 : all_have_results udfs2) by (eapply merge_zip_ok; eauto).
  destruct (results_as_dicts_total udfs2 Hall2) as [g Hg]. rewrite Hg.
  destruct rest as [|receive' rest'].
  - rewrite async_for_nil. simpl.
    destruct (clear_all_views_total udfs2 h2 Hall2) as (udfs' & Hf & _ & Hdicts).
    rewrite Hf, Hdicts, Hg. simpl. intros _.
    exists [], delivery.2, {| groups := g; arrays := h2 |}. reflexivity.
  - specialize (IH (h2, UDFRunner_.with_udfs self udfs2) Hall2 ltac:(discriminate)).
    destruct (UDFRunner_.async_for (receive' :: rest') (h2, UDFRunner_.with_udfs self udfs2))
      as [[st3 tr3] r3].
    simpl in *. intros Hok. destruct (IH Hok) as (pre & t & s & ->).
    exists (Merged delivery.2 :: Yielded {| groups := g; arrays := h2 |} :: pre), t, s.
    reflexivity.
Qed.



Lemma run_trace_shape stream st tr b : run_trace stream st tr b -> run_shape tr b.
Proof. induction 1; constructor; assumption. Qed.



End AsyncFacts.

(** ** [UDFData]: attribute access, views and the proxy *)

Section AttributeFacts.
Context `{Buffers}.

Lemma getattr_never_KeyError (d : UDFData) (k : string) :
  UDFData_.__getattr__ d k <> Raise KeyError.
Proof.
  unfold UDFData_.__getattr__.
  destruct (String.prefix "_" k); [discriminate|].
  destruct (UDFData_._get_view_or_data d k) as [x|e]; [discriminate|].
  destruct e; discriminate.
Qed.

(** X1: [UDFData.get] never returns its default.  For every container,
    key and default it does exactly what attribute access does, because
    the [KeyError] its [except] clause waits for never leaves
    [__getattr__]. *)
Theorem get_never_uses_default (d : UDFData) (k : string) (v : pyobj) :
  UDFData_.get d k v = UDFData_.__getattr__ d k.
Proof.
  unfold UDFData_.get.
  pose proof (getattr_never_KeyError d k) as Hne.
  destruct (UDFData_.__getattr__ d k) as [x|e]; [reflexivity|].
  destruct e; try reflexivity. contradiction.
Qed.

Lemma set_views_loop_data getter bufs (h : heap) (d : UDFData) :
  _data (UDFData_.set_views_loop getter bufs (h, d)).1.2 = _data d.
Proof.
  revert h d. induction bufs as [|[k b] bufs IH]; intros h d; simpl; [reflexivity|].
  destruct (getter b h) as [h' [a|e]]; simpl; [|reflexivity].
  rewrite IH. reflexivity.
Qed.

(** X3: the view lifecycle leaves the container as it was.  Setting views
    and then clearing them gives the container that clearing alone gives,
    whether the setter returned or raised half-way; no view setter ever
    changes the data dict. *)
Theorem set_views_then_clear getter (h : heap) (d : UDFData) :
  UDFData_.clear_views (UDFData_.set_view_with getter (h, d)).1.2 = UDFData_.clear_views d
  /\ _data (UDFData_.set_view_with getter (h, d)).1.2 = _data d.
Proof.
  unfold UDFData_.set_view_with, UDFData_.clear_views. simpl.
  rewrite set_views_loop_data. split; reflexivity.
Qed.

(** X4: [get_proxy] gives a dict with the keys of the data dict, in the
    same order, whose values are arrays (or [None] for a buffer without
    storage) and never buffer wrappers.  It succeeds exactly when every
    key without a view holds a buffer, and otherwise raises
    [AttributeError]. *)
Theorem get_proxy_spec (d : UDFData) :
  (is_ok (UDFData_.get_proxy d) = true
   <-> Forall (fun kv => dict_get kv.1 (_views d) = None -> is_Some (as_buffer kv.2))
              (_data d))
  /\ (forall p, UDFData_.get_proxy d = Ok p ->
        dict_keys p = UDFData_.keys d
        /\ Forall (fun kx => kx.2 = PyNone \/ exists a, kx.2 = PyArray a) p)
  /\ (forall e, UDFData_.get_proxy d = Raise e -> e = AttributeError).
Proof.
  unfold UDFData_.get_proxy, UDFData_.keys.
  generalize (_views d) as views. generalize (_data d) as its. intros its views.
  induction its as [|[k v] its (IHok & IHkeys & IHerr)]; simpl.
  - split; [split; [constructor | reflexivity]|].
    split; [|discriminate].
    intros p Hp. inversion Hp; subst. split; [reflexivity | constructor].
  - rewrite Forall_cons. simpl.
    destruct (dict_get k views) as [a|] eqn:Hview; simpl.
    + destruct (UDFData_.proxy_items views its) as [p0|e0] eqn:Hrest; simpl.
      * split; [split; [intros _; split; [discriminate | apply IHok; reflexivity] | reflexivity]|].
        split; [|discriminate].
        intros p Hp. inversion Hp; subst. destruct (IHkeys p0 eq_refl) as [Hk Hv].
        split; [simpl; rewrite Hk; reflexivity|].
        constructor; [right; eauto | exact Hv].
      * split; [split; [discriminate|]|].
        { intros [_ Hall]. apply IHok in Hall. discriminate. }
        split; [discriminate|]. intros e He. inversion He; subst. apply IHerr. reflexivity.
    + destruct (as_buffer v) as [b|] eqn:Hbuf; simpl.
      * destruct (UDFData_.proxy_items views its) as [p0|e0] eqn:Hrest; simpl.
        -- split; [split; [intros _; split; [eauto | apply IHok; reflexivity] | reflexivity]|].
           split; [|discriminate].
           intros p Hp. inversion Hp; subst. destruct (IHkeys p0 eq_refl) as [Hk Hv].
           split; [simpl; rewrite Hk; reflexivity|].
           constructor; [|exact Hv].
           simpl. unfold raw_data_obj. destruct (raw_data b); [right; eauto | left; reflexivity].
        -- split; [split; [discriminate|]|].
           { intros [_ Hall]. apply IHok in Hall. discriminate. }
           split; [discriminate|]. intros e He. inversion He; subst. apply IHerr. reflexivity.
      * split; [split; [discriminate|]|].
        { intros [Hk _]. destruct (Hk eq_refl) as [x Hx]. discriminate. }
        split; [discriminate|]. intros e He. inversion He. reflexivity.
Qed.

End AttributeFacts.

(** ** The default [merge]: failures and what it reads *)

Section MergeMoreFacts.
Context `{Buffers}.

Lemma merge_step_outcome (k : string) (v : pyobj) (dest src : dict pyobj) (h : heap) :
  dict_get k dest = Some v ->
  match round_failure h v (dict_get k src) with
  | Some e => merge_step k dest src h = (h, Raise e)
  | None => exists d s h1,
      v = PyArray d /\ dict_get k src = Some (PyArray s)
      /\ setitem_all d s h = Some h1 /\ merge_step k dest src h = (h1, Ok tt)
  end.
Proof.
  intros Hd. unfold merge_step, round_failure, bind, lift, dict_getitem. rewrite Hd.
  destruct (dict_get k src) as [sv|]; [|reflexivity].
  unfold UDF_.check_cast, UDF_.dtype_attr, UDF_.setitem_slice.
  destruct v as [| | | |d|]; try reflexivity.
  destruct sv as [| | | |s|]; try reflexivity.
  destruct (can_cast_safe (dtype_of h d) (dtype_of h s)); [|reflexivity].
  destruct (setitem_all d s h) as [h1|] eqn:Hset; [|reflexivity].
  exists d, s, h1. repeat split. exact Hset.
Qed.

Lemma merge_loop_stops (done rest dest src : dict pyobj) (k : string) (v : pyobj)
    (e : exception) (h h1 : heap) :
  (forall k0 v0, (k0, v0) ∈ done ++ (k, v) :: rest -> dict_get k0 dest = Some v0) ->
  copied src done h h1 ->
  round_failure h1 v (dict_get k src) = Some e ->
  UDF_.merge_loop (dict_keys (done ++ (k, v) :: rest)) dest src h = (h1, Raise e).
Proof.
  intros Hdest Hcopied Hfail. revert Hdest.
  induction Hcopied as [h|k' d s done' h h' h'' Hs Hc Hset Hcop IH]; intros Hdest.
  - change (dict_keys ([] ++ (k, v) :: rest)) with (k :: dict_keys rest).
    rewrite merge_loop_cons.
    assert (Hk : dict_get k dest = Some v) by (apply Hdest; apply list_elem_of_here).
    pose proof (merge_step_outcome k v dest src h Hk) as Hstep.
    rewrite Hfail in Hstep. rewrite Hstep. reflexivity.
  - change (dict_keys (((k', PyArray d) :: done') ++ (k, v) :: rest))
      with (k' :: dict_keys (done' ++ (k, v) :: rest)).
    rewrite merge_loop_cons.
    assert (Hk : dict_get k' dest = Some (PyArray d)) by (apply Hdest; apply list_elem_of_here).
    pose proof (merge_step_outcome k' (PyArray d) dest src h Hk) as Hstep.
    unfold round_failure in Hstep. rewrite Hs, Hc, Hset in Hstep.
    destruct Hstep as (d0 & s0 & h0 & Hd0 & Hs0 & Hset0 & Hstep).
    inversion Hd0; inversion Hs0; subst. rewrite Hset in Hset0. inversion Hset0; subst.
    rewrite Hstep. apply IH; [exact Hfail|].
    intros k0 v0 Hin. apply Hdest. apply list_elem_of_further. exact Hin.
Qed.

(** X5: the default merge is not all-or-nothing.  When the keys before
    [k] were copied and the round for [k] fails (key missing from the
    source: [KeyError]; a value without dtype: [AttributeError]; unsafe
    cast: [TypeError]; arrays that do not fit: [ValueError]), the merge
    raises that exception, the copies made before [k] stay in the store,
    and nothing after [k] is touched. *)
Theorem default_merge_stops_at_first_failure (self : UDF) (done rest src : dict pyobj)
    (k : string) (v : pyobj) (e : exception) (h h1 : heap) :
  (UDF_.requires_custom_merge self).2 = Ok false ->
  NoDup (dict_keys (done ++ (k, v) :: rest)) ->
  copied src done h h1 ->
  round_failure h1 v (dict_get k src) = Some e ->
  let out := UDF_.default_merge (done ++ (k, v) :: rest) src (h, self) in
  out.2 = Raise e /\ out.1.1 = h1.
Proof.
  intros Hreq Hnodup Hcopied Hfail out. subst out.
  unfold UDF_.default_merge, bind, on_snd, on_fst, throw. cbn [fst snd].
  destruct (UDF_.requires_custom_merge self) as [self' r]. cbn [fst snd] in Hreq. subst r.
  change ((h, self').1) with h.
  rewrite (merge_loop_stops done rest (done ++ (k, v) :: rest) src k v e h h1);
    [split; reflexivity | | exact Hcopied | exact Hfail].
  intros k0 v0 Hin. apply dict_get_of_item; assumption.
Qed.

Lemma merge_loop_agree (ks : list string) (dest src src' : dict pyobj) (h : heap) :
  (forall k, k ∈ ks -> dict_get k src = dict_get k src') ->
  UDF_.merge_loop ks dest src h = UDF_.merge_loop ks dest src' h.
Proof.
  revert h. induction ks as [|k ks IH]; intros h Hagree; [reflexivity|].
  rewrite !merge_loop_cons.
  assert (Hstep : merge_step k dest src h = merge_step k dest src' h).
  { unfold merge_step, bind, lift, dict_getitem.
    rewrite (Hagree k (list_elem_of_here k ks)). reflexivity. }
  rewrite Hstep. destruct (merge_step k dest src' h) as [h1 [[]|e]]; [|reflexivity].
  apply IH. intros k0 Hin. apply Hagree. apply list_elem_of_further. exact Hin.
Qed.

(** X6: the default merge reads the source only under the keys of the
    destination: two sources that agree on those keys give the same
    outcome, the same store and the same UDF object, whatever else they
    hold. *)
Theorem default_merge_ignores_other_keys (self : UDF) (dest src src' : dict pyobj) (h : heap) :
  (forall k, k ∈ dict_keys dest -> dict_get k src = dict_get k src') ->
  UDF_.default_merge dest src (h, self) = UDF_.default_merge dest src' (h, self).
Proof.
  intros Hagree. unfold UDF_.default_merge, bind, on_snd, on_fst. simpl.
  destruct (UDF_.requires_custom_merge self) as [self' [b|e]]; [|reflexivity].
  destruct b; [reflexivity|]. simpl.
  rewrite (merge_loop_agree (dict_keys dest) dest src src' h Hagree). reflexivity.
Qed.

End MergeMoreFacts.

(** ** [get_resources]: what a task can ask for *)

Section ResourceMoreFacts.
Context `{Buffers}.

(** X7: a resource request that [get_resources] returns always asks for
    one [compute] and never for [CPU] and [CUDA] together. *)
Theorem get_resources_compute_always (task : UDFTask) (r : gmap string nat) :
  UDFTask_.get_resources task = Ok r ->
  r !! "compute" = Some 1
  /\ ~ (is_Some (r !! "CPU") /\ is_Some (r !! "CUDA")).
Proof.
  unfold UDFTask_.get_resources.
  destruct (map _ (task_udfs task)) as [|s0 sets]; [discriminate|].
  generalize (match task_backends task with
              | Some limit => list_to_set limit ∩ UDFTask_.intersect_all s0 (s0 :: sets)
              | None => UDFTask_.intersect_all s0 (s0 :: sets)
              end).
  intros backends. cbv zeta.
  destruct (Nat.eqb (size backends) 0); [discriminate|].
  destruct (bool_decide ("numpy" ∈ backends)
            && (bool_decide ("cupy" ∈ backends) || bool_decide ("cuda" ∈ backends))).
  { intros Hr. inversion Hr; subst. split; [reflexivity|].
    intros [[x Hx] _]. vm_compute in Hx. discriminate. }
  destruct (bool_decide ("numpy" ∈ backends)).
  { intros Hr. inversion Hr; subst. split; [reflexivity|].
    intros [_ [x Hx]]. vm_compute in Hx. discriminate. }
  destruct (bool_decide ("cupy" ∈ backends) || bool_decide ("cuda" ∈ backends));
    [|discriminate].
  intros Hr. inversion Hr; subst. split; [reflexivity|].
  intros [[x Hx] _]. vm_compute in Hx. discriminate.
Qed.

(** X8: for a task with UDFs, [get_resources] raises exactly when none of
    the backends ['numpy'], ['cuda'] and ['cupy'] is supported by all its
    UDFs and the limit, also when they share some other label, and what
    it raises is [ValueError]. *)
Theorem get_resources_fails_without_known_backend (task : UDFTask) :
  task_udfs task <> [] ->
  (UDFTask_.get_resources task = Raise ValueError
   <-> ~ supported task "numpy" /\ ~ supported task "cuda" /\ ~ supported task "cupy")
  /\ (forall e, UDFTask_.get_resources task = Raise e -> e = ValueError).
Proof.
  intros Hne. rewrite get_resources_unfold by exact Hne. cbv zeta.
  pose proof (elem_of_common_backends task) as Hmem.
  assert (Hdec : forall b, bool_decide (b ∈ common_backends task) = true <-> supported task b).
  { intros b. rewrite bool_decide_eq_true. apply Hmem. exact Hne. }
  assert (Hsize : forall b, supported task b -> Nat.eqb (size (common_backends task)) 0 = false).
  { intros b Hb. apply Nat.eqb_neq. intros Hz.
    apply size_empty_iff in Hz. apply (Hmem b Hne) in Hb.
    rewrite Hz in Hb. set_solver. }
  destruct (bool_decide ("numpy" ∈ common_backends task)) eqn:En;
    destruct (bool_decide ("cupy" ∈ common_backends task)) eqn:Ep;
    destruct (bool_decide ("cuda" ∈ common_backends task)) eqn:Ec;
    try (rewrite (Hsize "numpy" (proj1 (Hdec _) En)));
    try (rewrite (Hsize "cupy" (proj1 (Hdec _) Ep)));
    try (rewrite (Hsize "cuda" (proj1 (Hdec _) Ec)));
    simpl;
    try (split; [split; [discriminate|] | discriminate];
         intros (Hn & Hc & Hp); exfalso;
         first [ apply Hn, Hdec, En | apply Hp, Hdec, Ep | apply Hc, Hdec, Ec ]).
  assert (Hnone : ~ supported task "numpy" /\ ~ supported task "cuda" /\ ~ supported task "cupy").
  { repeat split; intros Hs; apply Hdec in Hs; congruence. }
  destruct (Nat.eqb (size (common_backends task)) 0).
  - split; [tauto|]. intros e He. inversion He. reflexivity.
  - split; [tauto|]. intros e He. inversion He. reflexivity.
Qed.

(** X9: the request does not depend on the order of the UDFs of the
    task, although the code starts from the first one. *)
Theorem get_resources_order_independent (task task' : UDFTask) :
  task_udfs task ≡ₚ task_udfs task' ->
  task_backends task = task_backends task' ->
  UDFTask_.get_resources task = UDFTask_.get_resources task'.
Proof.
  intros Hperm Hlimit.
  destruct (task_udfs task) as [|u us] eqn:Hu.
  - apply Permutation_nil_l in Hperm.
    rewrite !get_resources_no_udfs by (symmetry in Hperm; assumption || assumption).
    reflexivity.
  - assert (Hne : task_udfs task <> []) by (rewrite Hu; discriminate).
    assert (Hne' : task_udfs task' <> []).
    { intros Hnil. rewrite Hnil in Hperm. apply Permutation_nil_r in Hperm. discriminate. }
    rewrite (get_resources_unfold task Hne), (get_resources_unfold task' Hne').
    assert (Heq : common_backends task = common_backends task').
    { apply set_eq. intros b.
      rewrite (elem_of_common_backends task b Hne), (elem_of_common_backends task' b Hne').
      unfold supported. rewrite Hu, Hlimit, Hperm. reflexivity. }
    rewrite Heq. reflexivity.
Qed.

End ResourceMoreFacts.

(** ** [_udf_lists]: no UDF is lost *)

Section UdfListsMoreFacts.
Context `{Buffers}.

Lemma host_device_partition (udfs : list UDF) :
  Forall cuda_capable udfs -> host_mode udfs ++ device_mode udfs ≡ₚ udfs.
Proof.
  unfold host_mode, device_mode.
  induction udfs as [|u udfs IH]; intros Hall; [reflexivity|].
  inversion Hall as [|? ? Hu Hrest]; subst.
  rewrite filter_cons, (filter_cons _ u).
  destruct (decide ("cuda" ∈ UDF_.get_backends u)) as [Hc|Hc].
  - rewrite decide_False by tauto. simpl. rewrite (IH Hrest). reflexivity.
  - destruct Hu as [Hu|Hu]; [contradiction|].
    rewrite decide_True by tauto.
    rewrite <- Permutation_middle. rewrite (IH Hrest). reflexivity.
Qed.

(** X10: when [_udf_lists] returns, the two lists together hold every UDF
    of the runner exactly once, and each list keeps the order of the
    runner's list. *)
Theorem udf_lists_lose_nothing (self : UDFRunner) (device_class : string)
    (numpy_udfs cupy_udfs : list UDF) :
  UDFRunner_._udf_lists self device_class = Ok (numpy_udfs, cupy_udfs) ->
  numpy_udfs ++ cupy_udfs ≡ₚ _udfs self
  /\ numpy_udfs `sublist_of` _udfs self
  /\ cupy_udfs `sublist_of` _udfs self.
Proof.
  unfold UDFRunner_._udf_lists.
  destruct (String.eqb device_class "cuda").
  - destruct (decide (Forall cuda_capable (_udfs self))) as [Hall|Hnot].
    + rewrite udf_lists_cuda_ok by exact Hall. simpl. intros Heq. inversion Heq; subst.
      split; [apply host_device_partition; exact Hall|].
      split; apply sublist_filter.
    + rewrite udf_lists_cuda_rejects by exact Hnot. discriminate.
  - destruct (String.eqb device_class "cpu"); [|discriminate].
    destruct (forallb _ _); [|discriminate].
    intros Heq. inversion Heq; subst. rewrite app_nil_r.
    split; [reflexivity|]. split; [reflexivity | apply sublist_nil_l].
Qed.

End UdfListsMoreFacts.

(** ** [run_for_partition]: a run that cannot be set up *)

Section SetupFacts.
Context `{Buffers}.
Variable W : Type.
Variable n_devices : nat.
Variable cupy_installed : bool.
Variable get_device_class : string.
Variable get_use_cuda : option nat.
Variable _init_udfs :
  list UDF -> list UDF -> Partition -> option Roi -> option CorrectionSet -> string ->
  M (Worker W) (UDFMeta * TilingScheme * dtype).
Variable set_corrections : Partition -> option CorrectionSet -> M (Worker W) unit.
Variable _run_udfs :
  list UDF -> list UDF -> Partition -> TilingScheme -> option Roi -> dtype ->
  M (Worker W) unit.
Variable _wrapup_udfs : list UDF -> list UDF -> Partition -> M (Worker W) unit.
Variable results_of : list UDF -> Worker W -> list (option UDFData).

(** X11: a run that cannot be set up does nothing.  When [_udf_lists]
    rejects the UDFs, when there are device-mode UDFs but [cupy] cannot
    be imported, or when the device the worker is told to use does not
    exist, [run_for_partition] raises that error and the worker is
    exactly as before the call: no phase of the run has been entered. *)
Theorem run_for_partition_setup_failure (self : UDFRunner) (p : Partition)
    (r : option Roi) (c : option CorrectionSet) (w : Worker W) :
  let run := UDFRunner_.run_for_partition W n_devices cupy_installed get_device_class
               get_use_cuda _init_udfs set_corrections _run_udfs _wrapup_udfs results_of
               self p r c in
  (forall e, UDFRunner_._udf_lists self get_device_class = Raise e -> run w = (w, Raise e))
  /\ (forall numpy_udfs u cupy_udfs,
        UDFRunner_._udf_lists self get_device_class = Ok (numpy_udfs, u :: cupy_udfs) ->
        (cupy_installed = false -> run w = (w, Raise ImportError))
        /\ (forall d, cupy_installed = true -> get_use_cuda = Some d -> n_devices <= d ->
            device_id w < n_devices -> run w = (w, Raise RuntimeError))).
Proof.
  cbv zeta.
  unfold UDFRunner_.run_for_partition, UDFRunner_.with_num_threads, try_finally,
    UDFRunner_.run_try, UDFRunner_.run_finally, bind, ret, lift, on_snd,
    UDFRunner_.import_cupy, UDFRunner_.Device_use, UDFRunner_.set_threads,
    UDFRunner_.set_device.
  destruct w as [dev thr obj]. simpl. split.
  - intros e He. rewrite He. reflexivity.
  - intros numpy_udfs u cupy_udfs Hl. rewrite Hl. simpl. split.
    + intros ->. reflexivity.
    + intros d -> -> Hd Hdev.
      apply Nat.ltb_ge in Hd. rewrite Hd. simpl.
      apply Nat.ltb_lt in Hdev. rewrite Hdev. reflexivity.
Qed.

End SetupFacts.

(** ** The ROI of a partition, and the native dtype *)

Section RoiFacts.
Context `{Buffers}.

Lemma count_nonzero_app (l1 l2 : Roi) :
  UDFRunner_.count_nonzero (l1 ++ l2)
  = UDFRunner_.count_nonzero l1 + UDFRunner_.count_nonzero l2.
Proof.
  unfold UDFRunner_.count_nonzero, Roi in *.
  rewrite filter_app, length_app. reflexivity.
Qed.

Lemma roi_slice_split (roi : Roi) (a b c : nat) :
  a <= b -> b <= c ->
  take (c - a) (drop a roi) = take (b - a) (drop a roi) ++ take (c - b) (drop b roi).
Proof.
  intros Hab Hbc.
  replace (c - a) with ((b - a) + (c - b)) by lia.
  rewrite <- take_take_drop, drop_drop.
  replace (a + (b - a)) with b by lia. reflexivity.
Qed.

(** X12: the ROI counts of partitions that follow one another add up.
    For partitions chained from position [a] to position [b] of the
    navigation axis, the numbers of ROI entries that [_make_udf_tasks]
    counts in the partitions sum to the number of ROI entries in
    [roi[a:b]]; no position is counted twice or left out. *)
Theorem roi_counts_add_up (roi : Roi) (ps : list Partition) (a b : nat) :
  chained a ps b ->
  sum_list (map (fun p => UDFRunner_.count_nonzero (UDFRunner_._roi_for_partition roi p)) ps)
  = UDFRunner_.count_nonzero (take (b - a) (drop a roi)).
Proof.
  revert a. induction ps as [|p ps IH]; intros a Hchain; simpl in *.
  - subst. rewrite Nat.sub_diag. reflexivity.
  - destruct Hchain as (Hstart & Hle & Hrest).
    assert (Hb : part_stop p <= b).
    { clear IH. revert Hrest. generalize (part_stop p). induction ps as [|q qs IHq]; simpl.
      - intros n ->. lia.
      - intros n (_ & Hn & Hq). apply IHq in Hq. lia. }
    rewrite (IH _ Hrest).
    rewrite (roi_slice_split roi a (part_stop p) b Hle Hb), count_nonzero_app.
    unfold UDFRunner_._roi_for_partition. rewrite Hstart. reflexivity.
Qed.

(** X13: UDFs that prefer a dtype which is neutral for [result_type]
    (what [UDF.USE_NATIVE_DTYPE] is meant to be) leave the native dtype
    alone: the input dtype is the dtype of the data. *)
Theorem native_dtype_is_kept (self : UDFRunner) (d : dtype) :
  Forall (fun u => forall d', result_type (UDF_.get_preferred_input_dtype u) d' = d')
         (_udfs self) ->
  UDFRunner_._get_dtype self d = d.
Proof.
  unfold UDFRunner_._get_dtype. revert d.
  induction (_udfs self) as [|u udfs IH]; intros d Hall; simpl; [reflexivity|].
  inversion Hall as [|? ? Hu Hrest]; subst. rewrite Hu. apply IH. exact Hrest.
Qed.

End RoiFacts.

(** ** [_init_udfs]: the backends of the UDFs *)

Section BackendFacts.
Context `{Buffers}.

Lemma for_each_set_backend (b : string) (udfs : list UDF) (h : heap) :
  Forall (fun u => b ∈ UDF_.get_backends u) udfs ->
  UDFRunner_.for_each_udf (on_snd (UDF_.set_backend b)) udfs h
  = (h, map (fun u => UDF_.with_backend u b) udfs, Ok tt).
Proof.
  induction 1 as [|u udfs Hu Hrest IH]; [reflexivity|].
  cbn [UDFRunner_.for_each_udf map]. unfold on_snd at 1, UDF_.set_backend at 1.
  cbn [fst snd]. rewrite bool_decide_eq_true_2 by exact Hu. rewrite IH. reflexivity.
Qed.

(** X14: the lists that [_udf_lists] returns fit the backend assignment
    of [_init_udfs].  Neither the [assert] of [set_backend] nor
    [assert not cupy_udfs] fails on them: every host-mode UDF gets
    ['cuda'] on a CUDA worker and ['numpy'] on a CPU worker, every
    device-mode UDF gets ['cupy'], and no array is touched. *)
Theorem udf_lists_fit_backend_assignment (self : UDFRunner) (device_class : string)
    (numpy_udfs cupy_udfs : list UDF) (h : heap) :
  UDFRunner_._udf_lists self device_class = Ok (numpy_udfs, cupy_udfs) ->
  UDFRunner_.assign_backends device_class (h, (numpy_udfs, cupy_udfs))
  = ((h, (map (fun u => UDF_.with_backend u
                          (if String.eqb device_class "cuda" then "cuda" else "numpy"))
              numpy_udfs,
          map (fun u => UDF_.with_backend u "cupy") cupy_udfs)),
     Ok tt).
Proof.
  unfold UDFRunner_._udf_lists, UDFRunner_.assign_backends. cbn [fst snd].
  destruct (String.eqb device_class "cuda") eqn:Ecuda.
  - apply String.eqb_eq in Ecuda. subst device_class.
    destruct (decide (Forall cuda_capable (_udfs self))) as [Hall|Hnot].
    + rewrite udf_lists_cuda_ok by exact Hall. cbn [app]. intros Heq.
      inversion Heq; subst numpy_udfs cupy_udfs; clear Heq.
      rewrite for_each_set_backend.
      2:{ apply Forall_forall. intros u Hu. unfold host_mode in Hu.
          apply list_elem_of_filter in Hu. apply Hu. }
      cbn [String.eqb Ascii.eqb Bool.eqb andb].
      rewrite for_each_set_backend.
      2:{ apply Forall_forall. intros u Hu. unfold device_mode in Hu.
          apply list_elem_of_filter in Hu. apply Hu. }
      reflexivity.
    + rewrite udf_lists_cuda_rejects by exact Hnot. discriminate.
  - destruct (String.eqb device_class "cpu"); [|discriminate].
    destruct (forallb _ _) eqn:Eall; [|discriminate].
    intros Heq. inversion Heq; subst numpy_udfs cupy_udfs; clear Heq.
    apply forallb_numpy in Eall.
    rewrite for_each_set_backend by exact Eall.
    rewrite bool_decide_eq_true_2 by reflexivity. reflexivity.
Qed.

End BackendFacts.


(** ** Loops over the UDFs of a run *)

Section LoopFacts.
Context `{Buffers}.

Lemma lookup_of_map {A B} (f : A -> B) (l : list A) (i : nat) :
  map f l !! i = f <$> (l !! i).
Proof. revert i. induction l as [|x l IH]; intros [|i]; simpl; auto. Qed.

Lemma udfs_of_with (side : bool) (l : list UDF) (st : UDFRunner_.RunState) :
  UDFRunner_.udfs_of side (UDFRunner_.with_udfs_of side l st) = l.
Proof. destruct side; reflexivity. Qed.

Lemma udfs_of_with_other (side : bool) (l : list UDF) (st : UDFRunner_.RunState) :
  UDFRunner_.udfs_of (negb side) (UDFRunner_.with_udfs_of side l st)
  = UDFRunner_.udfs_of (negb side) st.
Proof. destruct side; reflexivity. Qed.

Lemma udfs_of_snd (side : bool) (st st' : UDFRunner_.RunState) :
  st'.2 = st.2 -> UDFRunner_.udfs_of side st' = UDFRunner_.udfs_of side st.
Proof. unfold UDFRunner_.udfs_of. intros ->. reflexivity. Qed.

Lemma with_udfs_of_snd (side : bool) (l : list UDF) (st st' : UDFRunner_.RunState) :
  st'.2 = st.2 ->
  (UDFRunner_.with_udfs_of side l st').2 = (UDFRunner_.with_udfs_of side l st).2.
Proof. unfold UDFRunner_.with_udfs_of. intros ->. destruct side; reflexivity. Qed.

Lemma with_udfs_of_twice (side : bool) (l l' : list UDF) (st : UDFRunner_.RunState) :
  (UDFRunner_.with_udfs_of side l' (UDFRunner_.with_udfs_of side l st)).2
  = (UDFRunner_.with_udfs_of side l' st).2.
Proof. destruct side; reflexivity. Qed.

Lemma with_udfs_of_same (side : bool) (st : UDFRunner_.RunState) :
  (UDFRunner_.with_udfs_of side (UDFRunner_.udfs_of side st) st).2 = st.2.
Proof. destruct st as [h [n c]]. destruct side; reflexivity. Qed.

(** *** Statements that are local to one UDF *)

Lemma local_lret {A} (side : bool) (i : nat) (a : A) :
  local side i (lret a) (fun u u' log a' => u' = u /\ log = [] /\ a' = a).
Proof.
  intros st u st' log a' Hu Hrun. unfold lret in Hrun. injection Hrun as <- <- <-.
  exists u. split; [auto|].
  rewrite list_insert_id by exact Hu. symmetry. apply with_udfs_of_same.
Qed.

Lemma local_at_udf {A} (side : bool) (i : nat) (m : M (heap * UDF) A) :
  local side i (quiet (UDFRunner_.at_udf side i m))
    (fun u u' log a => log = [] /\ exists h h', m (h, u) = ((h', u'), Ok a)).
Proof.
  intros st u st' log a Hu Hrun. unfold quiet, UDFRunner_.at_udf in Hrun.
  rewrite Hu in Hrun. destruct (m (st.1, u)) as [[h' u'] r] eqn:Em.
  injection Hrun as <- <- ->.
  exists u'. split; [split; [reflexivity | exists st.1, h'; exact Em]|].
  destruct side; reflexivity.
Qed.

Lemma local_call_user (side : bool) (i : nat) (c : user_call) (effect : UDF -> M heap unit) :
  local side i (UDFRunner_.call_user side i c effect)
    (fun u u' log _ => u' = u /\ log = [{| callee := u; what := c |}]).
Proof.
  intros st u st' log a Hu Hrun. unfold UDFRunner_.call_user in Hrun.
  rewrite Hu in Hrun. destruct (effect u st.1) as [h' r].
  injection Hrun as <- <- ->.
  exists u. split; [auto|].
  rewrite list_insert_id by exact Hu. destruct st as [h [n c']]. destruct side; reflexivity.
Qed.

Lemma local_lbind {A B} (side : bool) (i : nat)
    (m : Logged call UDFRunner_.RunState A) (k : A -> Logged call UDFRunner_.RunState B)
    (Q1 : UDF -> UDF -> list call -> A -> Prop)
    (Q2 : A -> UDF -> UDF -> list call -> B -> Prop)
    (Q : UDF -> UDF -> list call -> B -> Prop) :
  local side i m Q1 ->
  (forall a, local side i (k a) (Q2 a)) ->
  (forall u u1 u' lg1 lg2 a b, Q1 u u1 lg1 a -> Q2 a u1 u' lg2 b -> Q u u' (lg1 ++ lg2) b) ->
  local side i (lbind m k) Q.
Proof.
  intros Hm Hk HQ st u st' log b Hu Hrun. unfold lbind in Hrun.
  destruct (m st) as [[st1 lg1] [a|e]] eqn:Em; [|discriminate].
  destruct (k a st1) as [[st2 lg2] r] eqn:Ek. injection Hrun as <- <- ->.
  destruct (Hm _ _ _ _ _ Hu Em) as (u1 & HQ1 & Hst1).
  assert (Hlt : i < length (UDFRunner_.udfs_of side st)) by (eapply lookup_lt_Some; exact Hu).
  assert (Hl1 : UDFRunner_.udfs_of side st1 = <[i := u1]> (UDFRunner_.udfs_of side st)).
  { rewrite <- (udfs_of_with side (<[i := u1]> _) st). apply udfs_of_snd. exact Hst1. }
  assert (Hu1 : UDFRunner_.udfs_of side st1 !! i = Some u1).
  { rewrite Hl1. apply list_lookup_insert_eq. exact Hlt. }
  destruct (Hk a _ _ _ _ _ Hu1 Ek) as (u' & HQ2 & Hst2).
  exists u'. split; [eapply HQ; eassumption|].
  rewrite Hst2, Hl1, list_insert_insert_eq.
  rewrite (with_udfs_of_snd side _ _ _ Hst1). apply with_udfs_of_twice.
Qed.

Lemma local_impl {A} (side : bool) (i : nat) (m : Logged call UDFRunner_.RunState A)
    (Q Q' : UDF -> UDF -> list call -> A -> Prop) :
  local side i m Q -> (forall u u' lg a, Q u u' lg a -> Q' u u' lg a) -> local side i m Q'.
Proof.
  intros Hm HQ st u st' log a Hu Hrun.
  destruct (Hm _ _ _ _ _ Hu Hrun) as (u' & Hq & Hst). exists u'. auto.
Qed.

Lemma local_seq {A B} (side : bool) (i : nat)
    (m : Logged call UDFRunner_.RunState A) (k : A -> Logged call UDFRunner_.RunState B)
    (Q1 : UDF -> UDF -> list call -> A -> Prop)
    (Q2 : A -> UDF -> UDF -> list call -> B -> Prop) :
  local side i m Q1 ->
  (forall a, local side i (k a) (Q2 a)) ->
  local side i (lbind m k)
    (fun u u' lg b =>
       exists u1 lg1 lg2 a, Q1 u u1 lg1 a /\ Q2 a u1 u' lg2 b /\ lg = lg1 ++ lg2).
Proof.
  intros Hm Hk. eapply local_lbind; [exact Hm | exact Hk |].
  intros u u1 u' lg1 lg2 a b H1 H2. exists u1, lg1, lg2, a. auto.
Qed.

(** A loop whose rounds are local, over the positions [a], ..., [a + k - 1]. *)
Lemma for_positions_rounds (side : bool) (body : nat -> Logged call UDFRunner_.RunState unit)
    (Q : UDF -> UDF -> list call -> Prop) :
  (forall i, local side i (body i) (fun u u' lg _ => Q u u' lg)) ->
  forall k a st st' log,
    a + k <= length (UDFRunner_.udfs_of side st) ->
    UDFRunner_.for_positions body (seq a k) st = (st', log, Ok tt) ->
    exists news,
      rounds Q (take k (drop a (UDFRunner_.udfs_of side st))) news log
      /\ UDFRunner_.udfs_of side st'
         = take a (UDFRunner_.udfs_of side st) ++ news
           ++ drop (a + k) (UDFRunner_.udfs_of side st)
      /\ UDFRunner_.udfs_of (negb side) st' = UDFRunner_.udfs_of (negb side) st.
Proof.
  intros Hbody. induction k as [|k IH]; intros a st st' log Hlen Hrun.
  - simpl in Hrun. unfold lret in Hrun. injection Hrun as <- <-.
    exists []. split; [rewrite take_0; constructor|].
    rewrite Nat.add_0_r. simpl. rewrite take_drop. auto.
  - cbn [seq UDFRunner_.for_positions] in Hrun. unfold lbind in Hrun.
    destruct (body a st) as [[st1 lg1] [[]|e]] eqn:Eb; [|discriminate].
    destruct (UDFRunner_.for_positions body (seq (S a) k) st1) as [[st2 lg2] r] eqn:Ef.
    injection Hrun as <- <- ->.
    destruct (UDFRunner_.udfs_of side st !! a) as [u|] eqn:Hu.
    2:{ apply lookup_ge_None in Hu. lia. }
    destruct (Hbody a _ _ _ _ _ Hu Eb) as (u1 & HQ & Hst1).
    assert (Hlt : a < length (UDFRunner_.udfs_of side st)) by lia.
    assert (Hl1 : UDFRunner_.udfs_of side st1 = <[a := u1]> (UDFRunner_.udfs_of side st)).
    { rewrite <- (udfs_of_with side (<[a := u1]> _) st). apply udfs_of_snd. exact Hst1. }
    assert (Ho1 : UDFRunner_.udfs_of (negb side) st1 = UDFRunner_.udfs_of (negb side) st).
    { rewrite <- (udfs_of_with_other side (<[a := u1]> (UDFRunner_.udfs_of side st)) st).
      apply udfs_of_snd. exact Hst1. }
    destruct (IH (S a) st1 st2 lg2) as (news & Hr & Hl2 & Ho2).
    { rewrite Hl1, length_insert. lia. }
    { exact Ef. }
    exists (u1 :: news). split; [|split].
    + rewrite (drop_S _ _ _ Hu). cbn [take].
      constructor; [exact HQ|].
      rewrite Hl1, drop_insert_lt in Hr by lia. exact Hr.
    + rewrite Hl2, Hl1.
      rewrite take_insert_lt by lia.
      rewrite drop_insert_lt by lia.
      rewrite (take_S_r _ _ _ Hu).
      rewrite insert_app_r_alt by (rewrite length_take; lia).
      rewrite length_take, Nat.min_l by lia. rewrite Nat.sub_diag. cbn [insert list_insert].
      replace (S a + k) with (a + S k) by lia.
      rewrite <- app_assoc. reflexivity.
    + rewrite Ho2. exact Ho1.
Qed.

Lemma for_udfs_of_rounds (side : bool) (body : nat -> Logged call UDFRunner_.RunState unit)
    (Q : UDF -> UDF -> list call -> Prop) (st st' : UDFRunner_.RunState) (log : list call) :
  (forall i, local side i (body i) (fun u u' lg _ => Q u u' lg)) ->
  UDFRunner_.for_udfs_of side body st = (st', log, Ok tt) ->
  rounds Q (UDFRunner_.udfs_of side st) (UDFRunner_.udfs_of side st') log
  /\ UDFRunner_.udfs_of (negb side) st' = UDFRunner_.udfs_of (negb side) st.
Proof.
  intros Hbody Hrun. unfold UDFRunner_.for_udfs_of in Hrun.
  destruct (for_positions_rounds side body Q Hbody _ 0 st st' log (Nat.le_refl _) Hrun)
    as (news & Hr & Hl & Ho).
  rewrite drop_0, firstn_all in Hr.
  cbn [Nat.add] in Hl. rewrite take_0, drop_all, app_nil_r in Hl. simpl in Hl. subst news. auto.
Qed.

Lemma rounds_Forall2 (Q : UDF -> UDF -> list call -> Prop) (T : UDF -> UDF -> Prop)
    (us us' : list UDF) (log : list call) :
  (forall u u' lg, Q u u' lg -> T u u') -> rounds Q us us' log -> Forall2 T us us'.
Proof. intros HQ. induction 1; constructor; eauto. Qed.

End LoopFacts.


(** ** The methods that close a run *)

Section ClosingFacts.
Context `{Buffers}.

Lemma clear_views_effect (h h' : heap) (u u' : UDF) :
  UDF_.clear_views (h, u) = ((h', u'), Ok tt) ->
  h' = h /\ same_udf u u' /\ no_views u' /\ meta u' = meta u /\ _backend u' = _backend u
  /\ task_data u' = task_data u /\ is_Some (results u).
Proof.
  unfold UDF_.clear_views, bind, UDF_.in_params, UDF_.in_results, zoom, UDF_.data_clear_views.
  cbn [fst snd]. destruct (results u) as [r|] eqn:Er; cbn [UDF_.with_params results fst snd].
  - rewrite Er. intros Heq. injection Heq as <- <-.
    repeat split; try reflexivity; eauto.
  - rewrite Er. discriminate.
Qed.

Lemma flush_ok (buf_flush : BufferWrapper -> M heap unit) (h h' : heap) (u u' : UDF) :
  UDFRunner_.flush buf_flush (h, u) = ((h', u'), Ok tt) -> u' = u.
Proof.
  unfold UDFRunner_.flush, bind, UDF_.in_params, UDF_.in_results, zoom,
    UDFRunner_.data_flush, on_fst.
  cbn [fst snd].
  destruct (UDFRunner_.flush_buffers buf_flush _ h) as [h1 [[]|e]]; [|discriminate].
  cbn [fst snd UDF_.with_params results].
  destruct (results u) as [r|] eqn:Er; [|discriminate].
  destruct (UDFRunner_.flush_buffers buf_flush _ h1) as [h2 r2].
  intros Heq. injection Heq as _ <- _.
  destruct u; simpl in *. subst. reflexivity.
Qed.

Lemma export_results_ok (buf_export : BufferWrapper -> M heap BufferWrapper)
    (h h' : heap) (u u' : UDF) :
  UDFRunner_.export_results buf_export (h, u) = ((h', u'), Ok tt) ->
  same_udf u u' /\ (no_views u -> no_views u') /\ meta u' = meta u.
Proof.
  unfold UDFRunner_.export_results, UDF_.in_results, UDFRunner_.data_export.
  cbn [fst snd]. destruct (results u) as [r|] eqn:Er; [|discriminate].
  cbn [fst snd]. destruct (UDFRunner_.export_items buf_export (_data r) h) as [[h1 d] r1].
  intros Heq. injection Heq as _ <- _.
  split; [reflexivity|]. split; [|reflexivity].
  intros (Hp & r0 & Hr0 & Hv). split; [exact Hp|].
  eexists. split; [reflexivity|]. simpl. rewrite Er in Hr0. injection Hr0 as <-. exact Hv.
Qed.

End ClosingFacts.


(** ** [_init_udfs]: what is set up, and the calls of [preprocess] *)

Section InitFacts.
Context `{Buffers}.
Variable cupy_installed : bool.
Variable set_shape_partition : BufferWrapper -> Partition -> option Roi -> BufferWrapper.
Variable allocate_lib : BufferWrapper -> array_module -> M heap BufferWrapper.
Variable get_scheme : list UDF -> Partition -> dtype -> option Roi -> result TilingScheme.
Variable get_task_data : UDF -> result (dict pyobj).

#[local] Abbreviation init_udf :=
  (UDFRunner_.init_udf cupy_installed set_shape_partition allocate_lib get_task_data)
  (only parsing).
#[local] Abbreviation _init_udfs :=
  (UDFRunner_._init_udfs cupy_installed set_shape_partition allocate_lib get_scheme
     get_task_data) (only parsing).

(** The call of one round of the loop of [_init_udfs], by UDF. *)
#[local] Abbreviation init_calls u :=
  (match cls_preprocess (__class__ u) with
   | Some _ => [(who u, Preprocess)]
   | None => []
   end) (only parsing).

Lemma for_each_udf_pairs (body : M (heap * UDF) unit) (udfs udfs' : list UDF) (h h' : heap) :
  UDFRunner_.for_each_udf body udfs h = (h', udfs', Ok tt) ->
  Forall2 (fun u u' => exists h1 h2, body (h1, u) = ((h2, u'), Ok tt)) udfs udfs'.
Proof.
  revert udfs' h h'. induction udfs as [|u udfs IH]; intros udfs' h h' Hrun; simpl in Hrun.
  - injection Hrun as <- <-. constructor.
  - destruct (body (h, u)) as [[h1 u1] [[]|e]] eqn:Eb; [|discriminate].
    destruct (UDFRunner_.for_each_udf body udfs h1) as [[h2 rest] r] eqn:Er.
    injection Hrun as <- <- ->.
    constructor; [exists h, h1; exact Eb | eapply IH; exact Er].
Qed.

Lemma set_backend_ok (b : string) (h h' : heap) (u u' : UDF) :
  on_snd (UDF_.set_backend b) (h, u) = ((h', u'), Ok tt) -> u' = UDF_.with_backend u b.
Proof.
  unfold on_snd, UDF_.set_backend. cbn [fst snd].
  destruct (bool_decide _); [|discriminate]. intros Heq. injection Heq as _ <-. reflexivity.
Qed.

Lemma assign_backends_ok (device_class : string) (st st' : UDFRunner_.RunState) :
  UDFRunner_.assign_backends device_class st = (st', Ok tt) ->
  Forall2 (fun u u' => same_udf u u' /\ (_backend u' = "cuda" \/ _backend u' = "numpy"))
          st.2.1 st'.2.1
  /\ Forall2 (fun u u' => same_udf u u' /\ _backend u' = "cupy") st.2.2 st'.2.2.
Proof.
  unfold UDFRunner_.assign_backends.
  destruct (UDFRunner_.for_each_udf _ st.2.1 st.1) as [[h0 host] [[]|e]] eqn:E0; [|discriminate].
  destruct (_ && _); [discriminate|].
  destruct (UDFRunner_.for_each_udf _ st.2.2 h0) as [[h1 device] r] eqn:E1.
  intros Heq. injection Heq as <- ->. cbn [fst snd].
  apply for_each_udf_pairs in E0, E1. split.
  - eapply Forall2_impl; [exact E0|]. intros u u' (h2 & h3 & Hb).
    apply set_backend_ok in Hb. subst u'. split; [reflexivity|].
    cbn [_backend UDF_.with_backend]. destruct (String.eqb device_class "cuda"); auto.
  - eapply Forall2_impl; [exact E1|]. intros u u' (h2 & h3 & Hb).
    apply set_backend_ok in Hb. subst u'. split; reflexivity.
Qed.

Lemma init_result_buffers_ok (h h' : heap) (u u' : UDF) :
  UDF_.init_result_buffers (h, u) = ((h', u'), Ok tt) ->
  same_udf u u' /\ _backend u' = _backend u /\ meta u' = meta u /\ is_Some (results u')
  /\ params u' = params u.
Proof.
  unfold UDF_.init_result_buffers. cbn [fst snd].
  destruct (UDF_.get_result_buffers u); [|discriminate].
  intros Heq. injection Heq as _ <-. repeat split; eauto.
Qed.

Lemma allocate_for_part_ok (p : Partition) (roi : option Roi) (h h' : heap) (u u' : UDF) :
  UDFRunner_.allocate_for_part cupy_installed set_shape_partition allocate_lib p roi (h, u)
  = ((h', u'), Ok tt) ->
  same_udf u u' /\ _backend u' = _backend u /\ meta u' = meta u /\ is_Some (results u')
  /\ params u' = params u /\ is_ok (UDF_.xp cupy_installed u) = true.
Proof.
  unfold UDFRunner_.allocate_for_part, UDF_.in_results, UDFRunner_.data_allocate_for_part.
  cbn [fst snd]. destruct (results u) as [r|] eqn:Er; [|discriminate].
  destruct (UDF_.xp cupy_installed u) as [lib|e] eqn:Exp; [|discriminate].
  cbn [fst snd].
  destruct (UDFRunner_.allocate_lib_items allocate_lib _ lib h) as [[h1 d] r1].
  intros Heq. injection Heq as _ <- _. repeat split; eauto.
Qed.

Lemma init_task_data_ok (h h' : heap) (u u' : UDF) :
  UDFRunner_.init_task_data get_task_data (h, u) = ((h', u'), Ok tt) ->
  same_udf u u' /\ _backend u' = _backend u /\ meta u' = meta u /\ results u' = results u
  /\ params u' = params u /\ is_Some (task_data u').
Proof.
  unfold UDFRunner_.init_task_data. cbn [fst snd].
  destruct (get_task_data u); [|discriminate].
  intros Heq. injection Heq as _ <-. repeat split; eauto.
Qed.

Lemma init_udf_local (meta0 : UDFMeta) (p : Partition) (roi : option Roi)
    (side : bool) (i : nat) :
  local side i (init_udf meta0 p roi side i)
    (fun u u' lg _ =>
       same_udf u u' /\ _backend u' = _backend u /\ is_Some (results u')
       /\ is_Some (task_data u') /\ is_ok (UDF_.xp cupy_installed u') = true
       /\ map (fun c => (who (callee c), what c)) lg = init_calls u
       /\ Forall (fun c => no_views (callee c) /\ meta (callee c) = Some meta0) lg).
Proof.
  unfold UDFRunner_.init_udf.
  eapply local_impl.
  { eapply local_seq; [apply local_at_udf | intros ?].
    eapply local_seq; [apply local_at_udf | intros ?].
    eapply local_seq; [apply local_at_udf | intros ?].
    eapply local_seq; [apply local_at_udf | intros ?].
    (* the call of [preprocess] *)
    instantiate (1 := fun _ u u' lg _ =>
      same_udf u u' /\ _backend u' = _backend u /\ meta u' = meta u
      /\ task_data u' = task_data u
      /\ (is_Some (results u) -> is_Some (results u'))
      /\ map (fun c => (who (callee c), what c)) lg = init_calls u
      /\ Forall (fun c => no_views (callee c) /\ meta (callee c) = meta u) lg).
    intros st u st' log [] Hu Hrun. cbv beta in Hrun. rewrite Hu in Hrun.
    destruct (cls_preprocess (__class__ u)) as [user_preprocess|] eqn:Ep.
    - pose proof (local_seq side i _ _ _ _
                    (local_at_udf side i UDF_.clear_views)
                    (fun _ => local_call_user side i Preprocess _)
                    st u st' log tt Hu Hrun) as (u' & HQ & Hst).
      exists u'. split; [|exact Hst].
      destruct HQ as (u1 & lg1 & lg2 & [] & (-> & h & h' & Hc) & (-> & ->) & ->).
      apply clear_views_effect in Hc as (_ & Hsame & Hno & Hmeta & Hback & Htask & Hres).
      cbn [app map callee what]. rewrite Hsame.
      repeat split; try assumption.
      + intros _. destruct Hno as (_ & r & -> & _). eauto.
      + constructor; [split; assumption | constructor].
    - injection Hrun as <- <-. exists u. split.
      + repeat split; auto.
      + rewrite list_insert_id by exact Hu. symmetry. apply with_udfs_of_same. }
  cbv beta. intros u u' lg [] HQ.
  destruct HQ as (u1 & lg1 & lg2 & [] & (-> & h1 & h1' & Hmeta) & HQ & ->).
  cbn [fst snd] in Hmeta. injection Hmeta as _ <-.
  destruct HQ as (u2 & lg2' & lg3 & [] & (-> & h2 & h2' & Hinit) & HQ & ->).
  destruct HQ as (u3 & lg3' & lg4 & [] & (-> & h3 & h3' & Halloc) & HQ & ->).
  destruct HQ as (u4 & lg4' & lg5 & [] & (-> & h4 & h4' & Htask) & HQ & ->).
  destruct HQ as (Hs5 & Hb5 & Hm5 & Ht5 & Hr5 & Hlog & Hcalls).
  apply init_result_buffers_ok in Hinit as (Hs2 & Hb2 & Hm2 & Hr2 & Hp2).
  apply allocate_for_part_ok in Halloc as (Hs3 & Hb3 & Hm3 & Hr3 & Hp3 & Hxp3).
  apply init_task_data_ok in Htask as (Hs4 & Hb4 & Hm4 & Hr4 & Hp4 & Ht4).
  unfold same_udf in *. cbn [app].
  assert (Hback : _backend u' = _backend u) by (rewrite Hb5, Hb4, Hb3, Hb2; reflexivity).
  assert (Hwho : who u4 = who u) by (rewrite Hs4, Hs3, Hs2; reflexivity).
  assert (Hmeta4 : meta u4 = Some meta0) by (rewrite Hm4, Hm3, Hm2; reflexivity).
  repeat split.
  - congruence.
  - exact Hback.
  - apply Hr5. rewrite Hr4. exact Hr3.
  - rewrite Ht5. exact Ht4.
  - unfold UDF_.xp in *. rewrite Hb5, Hb4, Hb3. exact Hxp3.
  - rewrite Hlog. injection Hwho as Hcls Hkw. rewrite Hcls, Hs4, Hs3, Hs2. reflexivity.
  - rewrite Hmeta4 in Hcalls. exact Hcalls.
Qed.

(** One round of the loop of [_init_udfs], as it is seen from outside. *)
#[local] Abbreviation init_round meta0 :=
  (fun u u' lg =>
     same_udf u u' /\ _backend u' = _backend u /\ is_Some (results u')
     /\ is_Some (task_data u') /\ is_ok (UDF_.xp cupy_installed u') = true
     /\ map (fun c => (who (callee c), what c)) lg = init_calls u
     /\ Forall (fun c => no_views (callee c) /\ meta (callee c) = Some meta0) lg)
  (only parsing).

Lemma init_udfs_stages (self : UDFRunner) (p : Partition) (roi : option Roi)
    (corr : option CorrectionSet) (dc : string) (st st' : UDFRunner_.RunState)
    (log : list call) (m : UDFMeta) (ts : TilingScheme) (dt : dtype) :
  _init_udfs self p roi corr dc st = (st', log, Ok (m, ts, dt)) ->
  dt = UDFRunner_._get_dtype self (part_dtype p)
  /\ m = UDFMeta_.__init__ (Some (UDFRunner_.adjust_for_roi_shape p roi))
           (part_meta_shape p) roi (part_dtype p) dt (Some ts) 0 corr (Some dc)
  /\ exists host0 device0 host1 device1 log1 log2,
       Forall2 (fun u u' => same_udf u u' /\ (_backend u' = "cuda" \/ _backend u' = "numpy"))
               st.2.1 host0
       /\ Forall2 (fun u u' => same_udf u u' /\ _backend u' = "cupy") st.2.2 device0
       /\ rounds (init_round (UDFRunner_._init_udfs_meta self p roi corr dc)) host0 host1 log1
       /\ rounds (init_round (UDFRunner_._init_udfs_meta self p roi corr dc))
                 device0 device1 log2
       /\ log = log1 ++ log2
       /\ st'.2.1 = map (fun u => UDF_.set_meta u m) host1
       /\ st'.2.2 = map (fun u => UDF_.set_meta u m) device1.
Proof.
  unfold UDFRunner_._init_udfs. cbv zeta. unfold lbind at 1, quiet at 1.
  destruct (UDFRunner_.assign_backends dc st) as [st0 [[]|e]] eqn:E0; [|discriminate].
  unfold lbind at 1.
  destruct (UDFRunner_.for_udfs_of false _ st0) as [[st1 log1] [[]|e]] eqn:E1; [|discriminate].
  unfold lbind at 1.
  destruct (UDFRunner_.for_udfs_of true _ st1) as [[st2 log2] [[]|e]] eqn:E2; [|discriminate].
  unfold lbind, quiet, lret.
  destruct (get_scheme _ p _ roi) as [scheme|e]; [|discriminate].
  intros Heq. injection Heq as <- <- <- <- <-.
  split; [reflexivity|]. split; [reflexivity|].
  apply assign_backends_ok in E0 as [Hhost Hdevice].
  apply (for_udfs_of_rounds false _ _ _ _ _
           (init_udf_local (UDFRunner_._init_udfs_meta self p roi corr dc) p roi false))
    in E1 as [Hr1 Ho1].
  apply (for_udfs_of_rounds true _ _ _ _ _
           (init_udf_local (UDFRunner_._init_udfs_meta self p roi corr dc) p roi true))
    in E2 as [Hr2 Ho2].
  cbn [negb UDFRunner_.udfs_of] in *.
  rewrite Ho1 in Hr2. rewrite <- Ho2 in Hr1.
  exists st0.2.1, st0.2.2, st2.2.1, st2.2.2, log1, log2.
  cbn [fst snd]. rewrite ?app_nil_r.
  repeat split; assumption.
Qed.

(** X15: what [_init_udfs] has set up when it returns.  The dtype it
    returns is the input dtype of [_get_dtype]; the metadata it returns
    carries that dtype, the negotiated tiling scheme and the device
    class; the two lists hold the same UDFs as before, all of them with
    that one metadata, with result buffers and with task data; and a
    host-mode UDF computes with NumPy, a device-mode UDF with CuPy, so
    that [cupy_udfs[0].xp] in [_run_udfs] cannot fail afterwards. *)
Theorem init_udfs_postcondition (self : UDFRunner) (p : Partition) (roi : option Roi)
    (corr : option CorrectionSet) (dc : string) (st st' : UDFRunner_.RunState)
    (log : list call) (m : UDFMeta) (ts : TilingScheme) (dt : dtype) :
  _init_udfs self p roi corr dc st = (st', log, Ok (m, ts, dt)) ->
  dt = UDFRunner_._get_dtype self (part_dtype p)
  /\ UDFMeta_.input_dtype m = dt
  /\ _tiling_scheme m = Some ts
  /\ UDFMeta_.device_class m = dc
  /\ Forall2 same_udf (st.2.1 ++ st.2.2) (st'.2.1 ++ st'.2.2)
  /\ Forall (fun u => meta u = Some m /\ is_Some (results u) /\ is_Some (task_data u))
            (st'.2.1 ++ st'.2.2)
  /\ Forall (fun u => UDF_.xp cupy_installed u = Ok numpy_module) st'.2.1
  /\ Forall (fun u => UDF_.xp cupy_installed u = Ok cupy_module) st'.2.2.
Proof.
  intros Hrun.
  apply init_udfs_stages in Hrun
    as (Hdt & Hm & host0 & device0 & host1 & device1 & log1 & log2
        & Hhost & Hdevice & Hr1 & Hr2 & _ & Hst1 & Hst2).
  split; [exact Hdt|]. split; [rewrite Hm; reflexivity|].
  split; [rewrite Hm; reflexivity|]. split; [rewrite Hm; reflexivity|].
  rewrite Hst1, Hst2. clear Hst1 Hst2 Hdt Hm.
  assert (Hone : forall (B : string -> Prop) us us0 us1 lg,
    Forall2 (fun u u' => same_udf u u' /\ B (_backend u')) us us0 ->
    rounds (init_round (UDFRunner_._init_udfs_meta self p roi corr dc)) us0 us1 lg ->
    Forall2 same_udf us (map (fun u => UDF_.set_meta u m) us1)
    /\ Forall (fun u => meta u = Some m /\ is_Some (results u) /\ is_Some (task_data u))
              (map (fun u => UDF_.set_meta u m) us1)
    /\ Forall (fun u => B (_backend u) /\ is_ok (UDF_.xp cupy_installed u) = true)
              (map (fun u => UDF_.set_meta u m) us1)).
  { intros B us us0 us1 lg Hassign Hrounds. revert us Hassign.
    induction Hrounds as [|u0 u1 lg0 us0 us1 lg1 (Hs & Hb & Hr & Ht & Hxp & _) _ IH];
      intros us Hassign; inversion Hassign as [|u ? us' ? [Hs0 Hb0] Hrest]; subst.
    - repeat split; constructor.
    - destruct (IH _ Hrest) as (IH1 & IH2 & IH3). cbn [map].
      repeat split; constructor; try assumption.
      + unfold same_udf in *. change (who (UDF_.set_meta u1 m)) with (who u1). congruence.
      + repeat split; assumption.
      + split; [cbn [UDF_.set_meta _backend]; rewrite Hb; exact Hb0 | exact Hxp]. }
  destruct (Hone (fun b => b = "cuda" \/ b = "numpy") _ _ _ _ Hhost Hr1) as (Hs1 & Hp1 & Hb1).
  destruct (Hone (fun b => b = "cupy") _ _ _ _ Hdevice Hr2) as (Hs2 & Hp2 & Hb2).
  split; [apply Forall2_app; assumption|].
  split; [apply Forall_app; auto|]. split.
  - eapply Forall_impl; [exact Hb1|]. intros u [[Hb|Hb] _]; unfold UDF_.xp; rewrite Hb;
      reflexivity.
  - eapply Forall_impl; [exact Hb2|]. intros u [Hb Hxp]. unfold UDF_.xp in *.
    rewrite Hb in *. cbn in *. destruct cupy_installed; [reflexivity | discriminate].
Qed.

(** X16: the calls of [preprocess] on a worker.  When [_init_udfs]
    returns, it has called [preprocess] once for every UDF whose class
    has one, host-mode UDFs first, in the order of the lists, and nothing
    else of the user's code.  At each of these calls the UDF holds no
    view, and its metadata has the input dtype but neither a tiling
    scheme nor a slice: the scheme is negotiated after the loop. *)
Theorem init_udfs_preprocess_calls (self : UDFRunner) (p : Partition) (roi : option Roi)
    (corr : option CorrectionSet) (dc : string) (st st' : UDFRunner_.RunState)
    (log : list call) (m : UDFMeta) (ts : TilingScheme) (dt : dtype) :
  _init_udfs self p roi corr dc st = (st', log, Ok (m, ts, dt)) ->
  map (fun c => (who (callee c), what c)) log
  = flat_map (fun u => init_calls u) (st.2.1 ++ st.2.2)
  /\ Forall (fun c => no_views (callee c)
                      /\ exists m0, meta (callee c) = Some m0
                                    /\ _tiling_scheme m0 = None /\ _slice m0 = None
                                    /\ UDFMeta_.input_dtype m0 = dt) log.
Proof.
  intros Hrun.
  apply init_udfs_stages in Hrun
    as (Hdt & _ & host0 & device0 & host1 & device1 & log1 & log2
        & Hhost & Hdevice & Hr1 & Hr2 & -> & _ & _).
  assert (Hone : forall (B : string -> Prop) us us0 us1 lg,
    Forall2 (fun u u' => same_udf u u' /\ B (_backend u')) us us0 ->
    rounds (init_round (UDFRunner_._init_udfs_meta self p roi corr dc)) us0 us1 lg ->
    map (fun c => (who (callee c), what c)) lg = flat_map (fun u => init_calls u) us
    /\ Forall (fun c => no_views (callee c)
                        /\ meta (callee c) = Some (UDFRunner_._init_udfs_meta self p roi corr dc))
              lg).
  { intros B us us0 us1 lg Hassign Hrounds. revert us Hassign.
    induction Hrounds as [|u0 u1 lg0 us0 us1 lg1 (_ & _ & _ & _ & _ & Hl & Hc) _ IH];
      intros us Hassign; inversion Hassign as [|u ? us' ? [Hs0 Hb0] Hrest]; subst.
    - split; [reflexivity | constructor].
    - destruct (IH _ Hrest) as (IH1 & IH2). split.
      + rewrite map_app, Hl, IH1. cbn [flat_map]. unfold same_udf in Hs0.
        injection Hs0 as Hcls Hkw. unfold who. rewrite Hcls, Hkw. reflexivity.
      + apply Forall_app. auto. }
  destruct (Hone (fun b => b = "cuda" \/ b = "numpy") _ _ _ _ Hhost Hr1) as (Hl1 & Hc1).
  destruct (Hone (fun b => b = "cupy") _ _ _ _ Hdevice Hr2) as (Hl2 & Hc2).
  split.
  - rewrite map_app, flat_map_app, Hl1, Hl2. reflexivity.
  - apply Forall_app. split; (eapply Forall_impl; [eassumption|]);
      intros c [Hno Hm]; (split; [exact Hno|]); eexists; (split; [exact Hm|]);
      rewrite Hdt; repeat split.
Qed.

End InitFacts.


(** ** Invariants of the processing phase *)

Section KeepFacts.
Context `{Buffers}.

Lemma keeps_lret {A} I P (a : A) : keeps I P (lret a).
Proof. intros st HI. split; [exact HI | constructor]. Qed.

Lemma keeps_lbind {A B} I P (m : Logged call UDFRunner_.RunState A)
    (k : A -> Logged call UDFRunner_.RunState B) :
  keeps I P m -> (forall a, keeps I P (k a)) -> keeps I P (lbind m k).
Proof.
  intros Hm Hk st HI. unfold lbind. destruct (Hm st HI) as [HI1 HP1].
  destruct (m st) as [[st1 lg1] [a|e]]; cbn [fst snd] in *; [|auto].
  destruct (Hk a st1 HI1) as [HI2 HP2].
  destruct (k a st1) as [[st2 lg2] r]. cbn [fst snd] in *.
  split; [exact HI2 | apply Forall_app; auto].
Qed.

Lemma keeps_quiet {A} I P (m : M UDFRunner_.RunState A) :
  (forall st, I st -> I (m st).1) -> keeps I P (quiet m).
Proof.
  intros Hm st HI. unfold quiet. specialize (Hm st HI).
  destruct (m st) as [st1 r]. split; [exact Hm | constructor].
Qed.

Lemma keeps_for_positions I P (body : nat -> Logged call UDFRunner_.RunState unit)
    (positions : list nat) :
  (forall i, keeps I P (body i)) -> keeps I P (UDFRunner_.for_positions body positions).
Proof.
  intros Hbody. induction positions as [|i rest IH]; simpl.
  - apply keeps_lret.
  - apply keeps_lbind; [apply Hbody | intros _; exact IH].
Qed.

Lemma keeps_for_udfs_of I P (side : bool) (body : nat -> Logged call UDFRunner_.RunState unit) :
  (forall i, keeps I P (body i)) -> keeps I P (UDFRunner_.for_udfs_of side body).
Proof.
  intros Hbody st. unfold UDFRunner_.for_udfs_of. apply keeps_for_positions. exact Hbody.
Qed.

Lemma keeps_at_udf {A} I T (side : bool) (i : nat) (m : M (heap * UDF) A) :
  stable I T -> (forall h u, T u (m (h, u)).1.2) ->
  keeps I (fun _ => True) (quiet (UDFRunner_.at_udf side i m)).
Proof.
  intros [Hheap Hrepl] Hm. apply keeps_quiet. intros st HI. unfold UDFRunner_.at_udf.
  destruct (UDFRunner_.udfs_of side st !! i) as [u|] eqn:Hu; [|exact HI].
  specialize (Hm st.1 u). destruct (m (st.1, u)) as [[h' u'] r]. cbn [fst snd] in *.
  pose proof (Hrepl st side i u u' Hu Hm HI) as HI'.
  apply (Hheap _ h') in HI'.
  destruct side; exact HI'.
Qed.

Lemma keeps_call_user I T (side : bool) (i : nat) (c : user_call)
    (effect : UDF -> M heap unit) :
  stable I T -> keeps I (fun _ => True) (UDFRunner_.call_user side i c effect).
Proof.
  intros [Hheap _] st HI. unfold UDFRunner_.call_user.
  destruct (UDFRunner_.udfs_of side st !! i) as [u|]; [|split; [exact HI | constructor]].
  destruct (effect u st.1) as [h' r]. cbn [fst snd].
  split; [apply Hheap; exact HI | repeat constructor].
Qed.

Lemma keeps_weaken {A} I (P P' : call -> Prop) (m : Logged call UDFRunner_.RunState A) :
  (forall c, P c -> P' c) -> keeps I P m -> keeps I P' m.
Proof.
  intros HP Hm st HI. destruct (Hm st HI) as [HI' Hlog].
  split; [exact HI' | eapply Forall_impl; eauto].
Qed.

(** *** The methods that set views *)

Lemma set_view_with_data getter (hd : heap * UDFData) :
  _data (UDFData_.set_view_with getter hd).1.2 = _data hd.2.
Proof.
  unfold UDFData_.set_view_with. destruct hd as [h d]. apply set_views_loop_data.
Qed.

Lemma views_methods_same_setup (m1 m2 : M (heap * UDFData) unit) (h : heap) (u : UDF) :
  (forall hd, _data (m1 hd).1.2 = _data hd.2) ->
  same_setup u ((UDF_.in_params m1 ;;; UDF_.in_results m2)%py (h, u)).1.2.
Proof.
  intros Hdata. unfold bind, UDF_.in_params, UDF_.in_results, zoom. cbn [fst snd].
  specialize (Hdata (h, params u)).
  destruct (m1 (h, params u)) as [[h1 p1] [[]|e]]; cbn [fst snd] in *.
  - cbn [results UDF_.with_params].
    destruct (results u) as [r|]; cbn [fst snd].
    + destruct (m2 (h1, r)) as [[h2 r2] x]. cbn [fst snd].
      unfold same_setup, who, UDF_._kwargs. cbn. rewrite Hdata. auto.
    + unfold same_setup, who, UDF_._kwargs. cbn. rewrite Hdata. auto.
  - unfold same_setup, who, UDF_._kwargs. cbn. rewrite Hdata. auto.
Qed.

Lemma set_views_for_tile_same (p : Partition) (t : Tile) (h : heap) (u : UDF) :
  same_setup u (UDF_.set_views_for_tile p t (h, u)).1.2.
Proof. apply views_methods_same_setup. intros hd. apply set_view_with_data. Qed.

Lemma set_contiguous_views_for_tile_same (p : Partition) (t : Tile) (h : heap) (u : UDF) :
  same_setup u (UDF_.set_contiguous_views_for_tile p t (h, u)).1.2.
Proof. apply views_methods_same_setup. intros hd. apply set_view_with_data. Qed.

Lemma set_views_for_frame_same (p : Partition) (t : Tile) (k : nat) (h : heap) (u : UDF) :
  same_setup u (UDF_.set_views_for_frame p t k (h, u)).1.2.
Proof. apply views_methods_same_setup. intros hd. apply set_view_with_data. Qed.

Lemma same_setup_refl (u : UDF) : same_setup u u.
Proof. repeat split. Qed.

Lemma get_method_same (u u' : UDF) :
  who u' = who u -> UDF_.get_method u' = UDF_.get_method u.
Proof. unfold who, UDF_.get_method. intros Heq. injection Heq as -> _. reflexivity. Qed.

(** *** The two invariants of the processing phase *)

Lemma no_method_at_stable (side : bool) (j : nat) : stable (no_method_at side j) same_setup.
Proof.
  split.
  - intros st h' (u & Hu & Hbad). exists u. split; [|exact Hbad].
    destruct side; exact Hu.
  - intros st side' i u u' Hu (Hwho & _) (v & Hv & Hbad).
    unfold no_method_at.
    destruct (Bool.eqb side side') eqn:Es.
    + apply Bool.eqb_prop in Es. subst side'. rewrite udfs_of_with.
      destruct (decide (i = j)) as [->|Hne].
      * exists u'. split.
        -- apply list_lookup_insert_eq. eapply lookup_lt_Some. exact Hu.
        -- rewrite (get_method_same _ _ Hwho). congruence.
      * exists v. split; [|exact Hbad]. rewrite list_lookup_insert_ne by exact Hne. exact Hv.
    + exists v. split; [|exact Hbad].
      destruct side, side'; try discriminate; exact Hv.
Qed.


Lemma set_slice_keeps_no_method (side side' : bool) (i j : nat) (s : Slice) :
  keeps (no_method_at side j) (fun _ => True) (quiet (UDFRunner_.set_slice side' i s)).
Proof.
  apply keeps_quiet. intros st (u & Hu & Hbad). unfold UDFRunner_.set_slice.
  destruct (UDFRunner_.udfs_of side' st !! i) as [v|]; [|exists u; auto].
  destruct (meta v) as [mv|]; [|exists u; auto].
  exists (UDFRunner_.slice_seen s u). cbn [fst snd]. split.
  - destruct side; cbn [UDFRunner_.udfs_of fst snd] in *; rewrite lookup_of_map, Hu; reflexivity.
  - rewrite <- Hbad. apply get_method_same. reflexivity.
Qed.

Lemma meta_with_slice_twice (m : UDFMeta) (s s' : option Slice) :
  UDF_.meta_with_slice (UDF_.meta_with_slice m s) s' = UDF_.meta_with_slice m s'.
Proof. reflexivity. Qed.


End KeepFacts.


(** ** [_run_udfs]: the calls of the processing methods *)

Section RunFacts.
Context `{Buffers}.
Variable cupy_installed : bool.
Variable partition_slice : Partition -> Slice.
Variable get_tiles : Partition -> TilingScheme -> option Roi -> dtype -> list DataTile.
Variable asanyarray : array_module -> DataTile -> M heap DataTile.
Variable process_tile : UDF -> DataTile -> M heap unit.
Variable process_frame : UDF -> aref -> M heap unit.
Variable process_partition : UDF -> DataTile -> M heap unit.

#[local] Abbreviation run_frames := (UDFRunner_.run_frames process_frame) (only parsing).
#[local] Abbreviation run_tile_udf :=
  (UDFRunner_.run_tile_udf partition_slice process_tile process_frame process_partition)
  (only parsing).
#[local] Abbreviation run_tile :=
  (UDFRunner_.run_tile partition_slice process_tile process_frame process_partition)
  (only parsing).
#[local] Abbreviation run_tiles :=
  (UDFRunner_.run_tiles partition_slice asanyarray process_tile process_frame
     process_partition) (only parsing).
#[local] Abbreviation _run_udfs :=
  (UDFRunner_._run_udfs cupy_installed partition_slice get_tiles asanyarray process_tile
     process_frame process_partition) (only parsing).

(** An invariant that the methods which set views and [set_slice] keep
    is kept by the whole phase. *)
Section Invariant.
Variable I : UDFRunner_.RunState -> Prop.
Hypothesis I_stable : stable I same_setup.
Hypothesis I_set_slice :
  forall side i s, keeps I (fun _ => True) (quiet (UDFRunner_.set_slice side i s)).

Lemma run_frames_keeps (p : Partition) (tile : DataTile) (side : bool) (i : nat)
    (frames : list aref) (frame_idx : nat) :
  keeps I (fun _ => True) (run_frames p tile side i frame_idx frames).
Proof.
  revert frame_idx. induction frames as [|frame rest IH]; intros frame_idx; simpl.
  - apply keeps_lret.
  - apply keeps_lbind; [apply keeps_quiet; intros st HI; exact HI | intros s].
    apply keeps_lbind; [apply I_set_slice | intros _].
    apply keeps_lbind.
    { eapply keeps_at_udf; [exact I_stable | intros h u; apply set_views_for_frame_same]. }
    intros _. apply keeps_lbind; [eapply keeps_call_user; exact I_stable | intros _].
    apply IH.
Qed.

Lemma run_tile_udf_keeps (p : Partition) (tile device_tile : DataTile) (side : bool)
    (i : nat) :
  keeps I (fun _ => True) (run_tile_udf p tile device_tile side i).
Proof.
  unfold UDFRunner_.run_tile_udf.
  apply keeps_lbind.
  { eapply keeps_at_udf; [exact I_stable | intros h u; apply same_setup_refl]. }
  intros method.
  destruct (String.eqb method "tile").
  { apply keeps_lbind.
    { eapply keeps_at_udf; [exact I_stable|].
      intros h u; apply set_contiguous_views_for_tile_same. }
    intros _. apply keeps_lbind; [apply I_set_slice | intros _].
    eapply keeps_call_user; exact I_stable. }
  destruct (String.eqb method "frame"); [apply run_frames_keeps|].
  destruct (String.eqb method "partition"); [|apply keeps_lret].
  apply keeps_lbind.
  { eapply keeps_at_udf; [exact I_stable | intros h u; apply set_views_for_tile_same]. }
  intros _. apply keeps_lbind; [apply I_set_slice | intros _].
  eapply keeps_call_user; exact I_stable.
Qed.

Lemma run_tile_keeps (p : Partition) (side : bool) (tile device_tile : DataTile) :
  keeps I (fun _ => True) (run_tile p side tile device_tile).
Proof. apply keeps_for_udfs_of. intros i. apply run_tile_udf_keeps. Qed.




End Invariant.


(** *** A UDF without a [process_*] method *)

Lemma run_tile_udf_rejects (p : Partition) (tile device_tile : DataTile) (side : bool)
    (j : nat) (st : UDFRunner_.RunState) :
  no_method_at side j st -> is_ok (run_tile_udf p tile device_tile side j st).2 = false.
Proof.
  intros (u & Hu & Hbad).
  unfold UDFRunner_.run_tile_udf, lbind, quiet, UDFRunner_.at_udf.
  rewrite Hu. cbn [fst snd]. rewrite Hbad. reflexivity.
Qed.

Lemma for_positions_rejects (p : Partition) (tile device_tile : DataTile) (side : bool)
    (j : nat) (positions : list nat) (st : UDFRunner_.RunState) :
  j ∈ positions -> no_method_at side j st ->
  is_ok (UDFRunner_.for_positions (run_tile_udf p tile device_tile side) positions st).2
  = false.
Proof.
  revert st. induction positions as [|i rest IH]; intros st Hin Hbad.
  - inversion Hin.
  - cbn [UDFRunner_.for_positions]. unfold lbind.
    pose proof (run_tile_udf_keeps (no_method_at side j) (no_method_at_stable side j)
                  (fun side' i' s => set_slice_keeps_no_method side side' i' j s)
                  p tile device_tile side i st Hbad) as [Hkeep _].
    destruct (decide (i = j)) as [->|Hne].
    + pose proof (run_tile_udf_rejects p tile device_tile side j st Hbad) as Hrej.
      destruct (run_tile_udf p tile device_tile side j st) as [[st1 lg1] [[]|e]];
        [discriminate | reflexivity].
    + destruct (run_tile_udf p tile device_tile side i st) as [[st1 lg1] [[]|e]];
        [|reflexivity].
      cbn [fst snd] in Hkeep.
      assert (Hin' : j ∈ rest).
      { apply elem_of_cons in Hin as [->|Hin]; [contradiction | exact Hin]. }
      specialize (IH st1 Hin' Hkeep).
      destruct (UDFRunner_.for_positions _ rest st1) as [[st2 lg2] r]. exact IH.
Qed.

Lemma run_tile_rejects (p : Partition) (tile device_tile : DataTile) (side : bool)
    (j : nat) (st : UDFRunner_.RunState) :
  no_method_at side j st -> is_ok (run_tile p side tile device_tile st).2 = false.
Proof.
  intros Hbad. unfold UDFRunner_.run_tile, UDFRunner_.for_udfs_of.
  apply (for_positions_rejects p tile device_tile side j); [|exact Hbad].
  destruct Hbad as (u & Hu & _). apply lookup_lt_Some in Hu.
  apply elem_of_seq. lia.
Qed.

Lemma run_tiles_rejects (p : Partition) (lib : option array_module) (tile : DataTile)
    (rest : list DataTile) (j : nat) (st : UDFRunner_.RunState) :
  no_method_at false j st \/ (no_method_at true j st /\ is_Some lib) ->
  is_ok (run_tiles p lib (tile :: rest) st).2 = false.
Proof.
  intros Hbad. cbn [UDFRunner_.run_tiles]. unfold lbind at 1.
  destruct Hbad as [Hbad|[Hbad [xp0 ->]]].
  - pose proof (run_tile_rejects p tile tile false j st Hbad) as Hrej.
    destruct (run_tile p false tile tile st) as [[st1 lg1] [[]|e]];
      [discriminate | reflexivity].
  - pose proof (run_tile_keeps (no_method_at true j) (no_method_at_stable true j)
                  (fun side' i' s => set_slice_keeps_no_method true side' i' j s)
                  p false tile tile st Hbad) as [Hkeep _].
    destruct (run_tile p false tile tile st) as [[st1 lg1] [[]|e]]; [|reflexivity].
    cbn [fst snd] in Hkeep. unfold lbind at 1.
    destruct Hkeep as (u & Hu & Hm).
    assert (Hbad1 : no_method_at true j st1) by (exists u; auto).
    cbn [UDFRunner_.udfs_of] in Hu.
    destruct st1.2.2 as [|first others] eqn:Hdev; [destruct j; discriminate|].
    unfold lbind at 1, quiet at 1, on_fst.
    destruct (asanyarray xp0 tile st1.1) as [h' [device_tile|e]]; [|reflexivity].
    assert (Hbad2 : no_method_at true j (h', st1.2)).
    { apply (proj1 (no_method_at_stable true j)). exact Hbad1. }
    pose proof (run_tile_rejects p tile device_tile true j (h', st1.2) Hbad2) as Hrej.
    destruct (run_tile p true tile device_tile (h', st1.2)) as [[st2 lg2] [[]|e]];
      [discriminate | reflexivity].
Qed.

(** X18: a UDF without any [process_*] method is found out by the first
    tile, and only by a tile.  With such a UDF in one of the lists,
    [_run_udfs] does not return normally once the partition has a tile;
    when the partition has no tile (and there is no device-mode UDF), it
    returns at once, has called nothing and has changed nothing. *)
Theorem udf_without_method_is_rejected (p : Partition) (ts : TilingScheme)
    (roi : option Roi) (dt : dtype) (st : UDFRunner_.RunState) (u : UDF) :
  u ∈ st.2.1 ++ st.2.2 ->
  UDF_.get_method u = Raise TypeError ->
  (get_tiles p ts roi dt <> [] -> is_ok (_run_udfs p ts roi dt st).2 = false)
  /\ (get_tiles p ts roi dt = [] -> st.2.2 = [] -> _run_udfs p ts roi dt st = (st, [], Ok tt)).
Proof.
  intros Hin Hbad. unfold UDFRunner_._run_udfs. split.
  - intros Htiles.
    destruct (get_tiles p ts roi dt) as [|tile rest]; [contradiction|].
    apply elem_of_app in Hin as [Hin|Hin]; apply list_elem_of_lookup in Hin as [j Hj].
    + assert (Hat : no_method_at false j st) by (exists u; auto).
      destruct st.2.2 as [|first others]; [apply (run_tiles_rejects _ _ _ _ j); auto|].
      destruct (UDF_.xp cupy_installed first); [|reflexivity].
      apply (run_tiles_rejects _ _ _ _ j); auto.
    + destruct st.2.2 as [|first others] eqn:Hdev; [destruct j; discriminate|].
      destruct (UDF_.xp cupy_installed first) as [xp0|e]; [|reflexivity].
      apply (run_tiles_rejects _ _ _ _ j). right. split; [|eauto].
      exists u. split; [|exact Hbad]. cbn [UDFRunner_.udfs_of]. rewrite Hdev. exact Hj.
  - intros -> ->. reflexivity.
Qed.

(** *** What the processing methods find in [self.meta.slice] *)

Lemma lbind_inv {E S A B} (m : Logged E S A) (k : A -> Logged E S B)
    (st st' : S) (log : list E) (r : result B) :
  lbind m k st = (st', log, r) ->
  (exists st1 lg1 a lg2,
      m st = (st1, lg1, Ok a) /\ k a st1 = (st', lg2, r) /\ log = lg1 ++ lg2)
  \/ (exists e, m st = (st', log, Raise e) /\ r = Raise e).
Proof.
  unfold lbind. destruct (m st) as [[st1 lg1] [a|e]].
  - destruct (k a st1) as [[st2 lg2] r2] eqn:Ek. intros Heq. injection Heq as <- <- <-.
    left. exists st1, lg1, a, lg2. auto.
  - intros Heq. injection Heq as <- <- <-. right. exists e. auto.
Qed.

Lemma quiet_inv {E S A} (m : M S A) (st st' : S) (log : list E) (r : result A) :
  quiet m st = (st', log, r) -> m st = (st', r) /\ log = [].
Proof.
  unfold quiet. destruct (m st) as [s1 r1]. intros Heq. injection Heq as <- <- <-. auto.
Qed.

Lemma frame_slice_is (s : Slice) (k : nat) :
  UDFRunner_.frame_slice s k
  = match slice_of_frame s k with
    | Some x => Ok x
    | None => Raise IndexError
    end.
Proof.
  unfold UDFRunner_.frame_slice, slice_of_frame.
  destruct (origin s) as [|first others]; [reflexivity|].
  do 2 f_equal. unfold one_deep, make_Shape.
  destruct (slice_shape s) as [nv sg]. cbn [nav sig].
  destruct nv as [|n ns].
  - destruct sg as [|g gs]; [reflexivity|].
    cbn [app tail length]. rewrite Nat.sub_diag. reflexivity.
  - cbn [app tail length]. rewrite length_app.
    replace (S (length ns + length sg) - length sg) with (S (length ns)) by lia.
    cbn [take drop]. rewrite take_app_length, drop_app_length. reflexivity.
Qed.

Lemma set_slice_at (side : bool) (i : nat) (s : Slice) (st st' : UDFRunner_.RunState)
    (u : UDF) :
  UDFRunner_.udfs_of side st !! i = Some u ->
  UDFRunner_.set_slice side i s st = (st', Ok tt) ->
  exists u1, UDFRunner_.udfs_of side st' !! i = Some u1
             /\ who u1 = who u /\ meta_slice u1 = Some s.
Proof.
  intros Hu. unfold UDFRunner_.set_slice. rewrite Hu.
  destruct (meta u) as [mu|] eqn:Hm; [|discriminate].
  intros Heq. injection Heq as <-.
  exists (UDFRunner_.slice_seen s u). split; [|split].
  - destruct side; cbn [UDFRunner_.udfs_of fst snd] in *; rewrite lookup_of_map, Hu; reflexivity.
  - reflexivity.
  - unfold meta_slice, UDFRunner_.slice_seen. cbn [meta UDF_.with_meta]. rewrite Hm.
    reflexivity.
Qed.

Lemma at_udf_at {A} (side : bool) (i : nat) (m : M (heap * UDF) A)
    (st st' : UDFRunner_.RunState) (r : result A) (u : UDF) :
  (forall h v, same_setup v (m (h, v)).1.2) ->
  UDFRunner_.udfs_of side st !! i = Some u ->
  UDFRunner_.at_udf side i m st = (st', r) ->
  exists u', UDFRunner_.udfs_of side st' !! i = Some u' /\ same_setup u u'.
Proof.
  intros Hm Hu. unfold UDFRunner_.at_udf. rewrite Hu.
  specialize (Hm st.1 u). destruct (m (st.1, u)) as [[h' u'] r0]. cbn [fst snd] in *.
  intros Heq. injection Heq as <- _.
  exists u'. split; [|exact Hm].
  assert (Hlt : i < length (UDFRunner_.udfs_of side st)) by (eapply lookup_lt_Some; eauto).
  destruct side; cbn [UDFRunner_.udfs_of UDFRunner_.with_udfs_of fst snd] in *;
    apply list_lookup_insert_eq; exact Hlt.
Qed.

Lemma call_user_at (side : bool) (i : nat) (c : user_call) (effect : UDF -> M heap unit)
    (st st' : UDFRunner_.RunState) (log : list call) (r : result unit) (u : UDF) :
  UDFRunner_.udfs_of side st !! i = Some u ->
  UDFRunner_.call_user side i c effect st = (st', log, r) ->
  log = [{| callee := u; what := c |}] /\ st'.2 = st.2.
Proof.
  intros Hu. unfold UDFRunner_.call_user. rewrite Hu.
  destruct (effect u st.1) as [h' r0]. intros Heq. injection Heq as <- <- _. auto.
Qed.

Lemma run_frames_log (p : Partition) (tile : DataTile) (side : bool) (i : nat)
    (frames : list aref) :
  forall (k0 : nat) (st st' : UDFRunner_.RunState) (log : list call) (r : result unit)
         (u : UDF),
    UDFRunner_.udfs_of side st !! i = Some u ->
    run_frames p tile side i k0 frames st = (st', log, r) ->
    map seen log
      `prefix_of` imap (fun k frame =>
                          (who u, ProcessFrame frame,
                           slice_of_frame (tile_slice tile) (k0 + k))) frames
    /\ (r = Ok tt ->
        map seen log
        = imap (fun k frame =>
                  (who u, ProcessFrame frame, slice_of_frame (tile_slice tile) (k0 + k)))
               frames).
Proof.
  induction frames as [|frame rest IH]; intros k0 st st' log r u Hu Hrun.
  - simpl in Hrun. unfold lret in Hrun. injection Hrun as <- <- <-.
    split; [apply prefix_nil | reflexivity].
  - cbn [UDFRunner_.run_frames] in Hrun. rewrite imap_cons, Nat.add_0_r.
    apply lbind_inv in Hrun as [(st1 & lg1 & s & lg2 & Hm & Hk & ->) | (e & Hm & ->)].
    2:{ apply quiet_inv in Hm as [_ ->]. split; [apply prefix_nil | discriminate]. }
    apply quiet_inv in Hm as [Hm ->]. unfold lift in Hm. injection Hm as <- Hfs.
    rewrite frame_slice_is in Hfs.
    destruct (slice_of_frame (tile_slice tile) k0) as [s0|] eqn:Hsf; [|discriminate].
    injection Hfs as ->. cbn [app].
    apply lbind_inv in Hk as [(st1 & lg1 & [] & lg3 & Hm & Hk & ->) | (e & Hm & ->)].
    2:{ apply quiet_inv in Hm as [_ ->]. split; [apply prefix_nil | discriminate]. }
    apply quiet_inv in Hm as [Hm ->]. cbn [app].
    destruct (set_slice_at side i s st st1 u Hu Hm) as (u1 & Hu1 & Hw1 & Hs1).
    apply lbind_inv in Hk as [(st2 & lg1 & [] & lg4 & Hm2 & Hk & ->) | (e & Hm2 & ->)].
    2:{ apply quiet_inv in Hm2 as [_ ->]. split; [apply prefix_nil | discriminate]. }
    apply quiet_inv in Hm2 as [Hm2 ->]. cbn [app].
    destruct (at_udf_at side i _ st1 st2 _ u1
                (fun h v => set_views_for_frame_same p (tile_of tile) k0 h v) Hu1 Hm2)
      as (u2 & Hu2 & Hsame).
    assert (Hseen : seen {| callee := u2; what := ProcessFrame frame |}
                    = (who u, ProcessFrame frame, Some s)).
    { unfold seen. cbn [callee what]. destruct Hsame as (Hw2 & Hmeta & _).
      rewrite Hw2, Hw1. unfold meta_slice in *. rewrite Hmeta. rewrite Hs1. reflexivity. }
    apply lbind_inv in Hk as [(st3 & lg1 & [] & lg5 & Hm3 & Hk & ->) | (e & Hm3 & ->)].
    2:{ apply call_user_at with (u := u2) in Hm3 as [-> _]; [|exact Hu2].
        cbn [map]. rewrite Hseen. split; [|discriminate].
        apply prefix_cons, prefix_nil. }
    apply call_user_at with (u := u2) in Hm3 as [-> Hst3]; [|exact Hu2].
    assert (Hu3 : UDFRunner_.udfs_of side st3 !! i = Some u2).
    { rewrite (udfs_of_snd side st2 st3 Hst3). exact Hu2. }
    destruct (IH (S k0) st3 st' lg5 r u2 Hu3 Hk) as [Hpre Hfull].
    assert (Hext : imap (fun k frame0 =>
                           (who u2, ProcessFrame frame0,
                            slice_of_frame (tile_slice tile) (S k0 + k))) rest
                   = imap ((fun k frame0 =>
                              (who u, ProcessFrame frame0,
                               slice_of_frame (tile_slice tile) (k0 + k))) ∘ S) rest).
    { apply imap_ext. intros k f _. cbn. destruct Hsame as (Hw2 & _).
      rewrite Hw2, Hw1. rewrite Nat.add_succ_r. reflexivity. }
    rewrite Hext in Hpre, Hfull.
    cbn [app map]. rewrite Hseen. split.
    + apply prefix_cons. exact Hpre.
    + intros Hr. rewrite (Hfull Hr). reflexivity.
Qed.

Lemma tile_call_log (side : bool) (i : nat) (s : Slice) (c : user_call)
    (effect : UDF -> M heap unit) (m : M (heap * UDF) unit)
    (st st' : UDFRunner_.RunState) (log : list call) (r : result unit) (u : UDF) :
  (forall h v, same_setup v (m (h, v)).1.2) ->
  UDFRunner_.udfs_of side st !! i = Some u ->
  (quiet (UDFRunner_.at_udf side i m) ;;;
   quiet (UDFRunner_.set_slice side i s) ;;;
   UDFRunner_.call_user side i c effect)%log st = (st', log, r) ->
  map seen log `prefix_of` [(who u, c, Some s)]
  /\ (r = Ok tt -> map seen log = [(who u, c, Some s)]).
Proof.
  intros Hsetup Hu Hrun.
  apply lbind_inv in Hrun as [(st1 & lg1 & [] & lg2 & Hm & Hk & ->) | (e & Hm & ->)].
  2:{ apply quiet_inv in Hm as [_ ->]. split; [apply prefix_nil | discriminate]. }
  apply quiet_inv in Hm as [Hm ->]. cbn [app].
  destruct (at_udf_at side i m st st1 _ u Hsetup Hu Hm) as (u1 & Hu1 & Hsame).
  apply lbind_inv in Hk as [(st2 & lg1 & [] & lg3 & Hm2 & Hk & ->) | (e & Hm2 & ->)].
  2:{ apply quiet_inv in Hm2 as [_ ->]. split; [apply prefix_nil | discriminate]. }
  apply quiet_inv in Hm2 as [Hm2 ->]. cbn [app].
  destruct (set_slice_at side i s st1 st2 u1 Hu1 Hm2) as (u2 & Hu2 & Hw2 & Hs2).
  apply call_user_at with (u := u2) in Hk as [-> _]; [|exact Hu2].
  assert (Hseen : seen {| callee := u2; what := c |} = (who u, c, Some s)).
  { unfold seen. cbn [callee what]. destruct Hsame as (Hw1 & _).
    rewrite Hw2, Hw1, Hs2. reflexivity. }
  cbn [map]. rewrite Hseen. split; [reflexivity | reflexivity].
Qed.

Lemma calls_for_who (p : Partition) (tile device_tile : DataTile) (u u' : UDF) :
  who u' = who u ->
  calls_for partition_slice p tile device_tile u'
  = calls_for partition_slice p tile device_tile u.
Proof.
  intros Hw. unfold calls_for. rewrite (get_method_same u u' Hw), Hw. reflexivity.
Qed.

Lemma flat_map_calls_for (p : Partition) (tile device_tile : DataTile) (l l' : list UDF) :
  map who l' = map who l ->
  flat_map (calls_for partition_slice p tile device_tile) l'
  = flat_map (calls_for partition_slice p tile device_tile) l.
Proof.
  revert l. induction l' as [|u' l' IH]; intros [|u l] Hw; try discriminate; [reflexivity|].
  cbn [map] in Hw.
  assert (Hu : who u' = who u) by (injection Hw; intros; unfold who; congruence).
  assert (Hl : map who l' = map who l) by (injection Hw; auto).
  cbn [flat_map].
  rewrite (calls_for_who p tile device_tile u u' Hu), (IH l Hl). reflexivity.
Qed.

Lemma run_tile_udf_log (p : Partition) (tile device_tile : DataTile) (side : bool) (i : nat)
    (st st' : UDFRunner_.RunState) (log : list call) (r : result unit) (u : UDF) :
  UDFRunner_.udfs_of side st !! i = Some u ->
  run_tile_udf p tile device_tile side i st = (st', log, r) ->
  map seen log `prefix_of` calls_for partition_slice p tile device_tile u
  /\ (r = Ok tt -> map seen log = calls_for partition_slice p tile device_tile u).
Proof.
  intros Hu Hrun. unfold UDFRunner_.run_tile_udf in Hrun.
  apply lbind_inv in Hrun as [(st1 & lg1 & method & lg2 & Hm & Hk & ->) | (e & Hm & ->)].
  2:{ apply quiet_inv in Hm as [_ ->]. split; [apply prefix_nil | discriminate]. }
  apply quiet_inv in Hm as [Hm ->]. cbn [app].
  destruct (at_udf_at side i (fun hs : heap * UDF => (hs, UDF_.get_method hs.2)) st st1 _ u
              (fun h v => same_setup_refl v) Hu Hm)
    as (u0 & Hu0 & (Hw0 & _)).
  unfold UDFRunner_.at_udf in Hm. rewrite Hu in Hm. cbn [fst snd] in Hm.
  injection Hm as _ Hmethod.
  unfold calls_for. rewrite Hmethod.
  destruct (String.eqb method "tile").
  { rewrite <- Hw0.
    apply (tile_call_log side i _ _ _ _ st1 st' lg2 r u0
             (fun h v => set_contiguous_views_for_tile_same p (tile_of tile) h v) Hu0 Hk). }
  destruct (String.eqb method "frame").
  { rewrite <- Hw0. apply (run_frames_log p tile side i _ 0 st1 st' lg2 r u0 Hu0 Hk). }
  destruct (String.eqb method "partition").
  { rewrite <- Hw0.
    apply (tile_call_log side i _ _ _ _ st1 st' lg2 r u0
             (fun h v => set_views_for_tile_same p (tile_of tile) h v) Hu0 Hk). }
  unfold lret in Hk. injection Hk as <- <- <-. split; [apply prefix_nil | reflexivity].
Qed.

Lemma same_whos_stable (host device : list UDF) : stable (same_whos host device) same_setup.
Proof.
  split.
  - intros st h' Hst. exact Hst.
  - intros st side i u u' Hu (Hw & _) [Hh Hd].
    assert (Hins : map who (<[i := u']> (UDFRunner_.udfs_of side st))
                   = map who (UDFRunner_.udfs_of side st)).
    { change (map who) with (fmap (M := list) who). rewrite list_fmap_insert.
      apply list_insert_id. rewrite list_lookup_fmap, Hu. cbn. rewrite Hw. reflexivity. }
    destruct side; cbn [UDFRunner_.udfs_of UDFRunner_.with_udfs_of fst snd] in *;
      split; cbn [fst snd]; congruence.
Qed.

Lemma set_slice_keeps_whos (host device : list UDF) (side : bool) (i : nat) (s : Slice) :
  keeps (same_whos host device) (fun _ => True) (quiet (UDFRunner_.set_slice side i s)).
Proof.
  apply keeps_quiet. intros st [Hh Hd]. unfold UDFRunner_.set_slice.
  destruct (UDFRunner_.udfs_of side st !! i) as [v|]; [|split; assumption].
  destruct (meta v) as [mv|]; [|split; assumption].
  split; cbn [fst snd]; rewrite map_map; assumption.
Qed.

Lemma same_whos_of (host device : list UDF) (side : bool) (st st1 : UDFRunner_.RunState) :
  same_whos host device st -> same_whos host device st1 ->
  map who (UDFRunner_.udfs_of side st1) = map who (UDFRunner_.udfs_of side st).
Proof. intros [Hh Hd] [Hh1 Hd1]. destruct side; cbn [UDFRunner_.udfs_of]; congruence. Qed.

Lemma same_whos_refl (st : UDFRunner_.RunState) : same_whos st.2.1 st.2.2 st.
Proof. split; reflexivity. Qed.

Lemma for_positions_log (p : Partition) (tile device_tile : DataTile) (side : bool)
    (k : nat) :
  forall (a : nat) (st st' : UDFRunner_.RunState) (log : list call) (r : result unit),
    a + k = length (UDFRunner_.udfs_of side st) ->
    UDFRunner_.for_positions (run_tile_udf p tile device_tile side) (seq a k) st
    = (st', log, r) ->
    map seen log
      `prefix_of` flat_map (calls_for partition_slice p tile device_tile)
                    (drop a (UDFRunner_.udfs_of side st))
    /\ (r = Ok tt ->
        map seen log
        = flat_map (calls_for partition_slice p tile device_tile)
            (drop a (UDFRunner_.udfs_of side st))).
Proof.
  induction k as [|k IH]; intros a st st' log r Hlen Hrun.
  - simpl in Hrun. unfold lret in Hrun. injection Hrun as <- <- <-.
    rewrite drop_ge by lia. split; [apply prefix_nil | reflexivity].
  - cbn [seq UDFRunner_.for_positions] in Hrun.
    destruct (UDFRunner_.udfs_of side st !! a) as [u|] eqn:Hu.
    2:{ apply lookup_ge_None in Hu. lia. }
    rewrite (drop_S _ _ _ Hu). cbn [flat_map].
    apply lbind_inv in Hrun as [(st1 & lg1 & [] & lg2 & Hm & Hk & ->) | (e & Hm & ->)].
    2:{ destruct (run_tile_udf_log p tile device_tile side a st st' log _ u Hu Hm) as [Hpre _].
        split; [|discriminate]. apply prefix_app_r. exact Hpre. }
    destruct (run_tile_udf_log p tile device_tile side a st st1 lg1 _ u Hu Hm) as [_ Hfull].
    specialize (Hfull eq_refl).
    pose proof (run_tile_udf_keeps (same_whos st.2.1 st.2.2) (same_whos_stable _ _)
                  (set_slice_keeps_whos _ _) p tile device_tile side a st
                  (same_whos_refl st)) as [Hkeep _].
    rewrite Hm in Hkeep. cbn [fst] in Hkeep.
    pose proof (same_whos_of _ _ side st st1 (same_whos_refl st) Hkeep) as Hw.
    assert (Hlen1 : S a + k = length (UDFRunner_.udfs_of side st1)).
    { rewrite <- (length_map who), Hw, length_map. lia. }
    destruct (IH (S a) st1 st' lg2 r Hlen1 Hk) as [Hpre2 Hfull2].
    assert (Hrest : flat_map (calls_for partition_slice p tile device_tile)
                      (drop (S a) (UDFRunner_.udfs_of side st1))
                    = flat_map (calls_for partition_slice p tile device_tile)
                        (drop (S a) (UDFRunner_.udfs_of side st))).
    { apply flat_map_calls_for.
      change (map who) with (fmap (M := list) who). rewrite !fmap_drop.
      f_equal. exact Hw. }
    rewrite Hrest in Hpre2, Hfull2. rewrite map_app, Hfull. split.
    + apply prefix_app. exact Hpre2.
    + intros Hr. rewrite (Hfull2 Hr). reflexivity.
Qed.

Lemma run_tile_log (p : Partition) (side : bool) (tile device_tile : DataTile)
    (st st' : UDFRunner_.RunState) (log : list call) (r : result unit) :
  run_tile p side tile device_tile st = (st', log, r) ->
  map seen log
    `prefix_of` flat_map (calls_for partition_slice p tile device_tile)
                  (UDFRunner_.udfs_of side st)
  /\ (r = Ok tt ->
      map seen log
      = flat_map (calls_for partition_slice p tile device_tile) (UDFRunner_.udfs_of side st)).
Proof.
  intros Hrun. unfold UDFRunner_.run_tile, UDFRunner_.for_udfs_of in Hrun.
  apply (for_positions_log p tile device_tile side _ 0 st st' log r (Nat.add_0_l _) Hrun).
Qed.

Lemma run_tile_whos (p : Partition) (side : bool) (tile device_tile : DataTile)
    (host device : list UDF) (st st' : UDFRunner_.RunState) (log : list call)
    (r : result unit) :
  same_whos host device st ->
  run_tile p side tile device_tile st = (st', log, r) ->
  same_whos host device st'.
Proof.
  intros Hst Hrun.
  pose proof (run_tile_keeps (same_whos host device) (same_whos_stable _ _)
                (set_slice_keeps_whos _ _) p side tile device_tile st Hst) as [Hkeep _].
  rewrite Hrun in Hkeep. exact Hkeep.
Qed.

Lemma run_tiles_log (p : Partition) (lib : option array_module) (host device : list UDF)
    (tiles : list DataTile) :
  forall (st st' : UDFRunner_.RunState) (log : list call) (r : result unit),
    same_whos host device st ->
    (device <> [] -> is_Some lib) ->
    run_tiles p lib tiles st = (st', log, r) ->
    tiles_log partition_slice asanyarray lib p host device (is_ok r) tiles (map seen log).
Proof.
  induction tiles as [|tile rest IH]; intros st st' log r Hst Hlib Hrun.
  - simpl in Hrun. unfold lret in Hrun. injection Hrun as <- <- <-. constructor.
  - cbn [UDFRunner_.run_tiles] in Hrun.
    apply lbind_inv in Hrun as [(st1 & lg1 & [] & lg2 & Hm & Hk & ->) | (e & Hm & ->)].
    2:{ destruct (run_tile_log p false tile tile st st' log _ Hm) as [Hpre _].
        apply log_stopped_host.
        rewrite <- (flat_map_calls_for p tile tile host st.2.1 (proj1 Hst)). exact Hpre. }
    destruct (run_tile_log p false tile tile st st1 lg1 _ Hm) as [_ Hhost].
    specialize (Hhost eq_refl). cbn [UDFRunner_.udfs_of] in Hhost.
    rewrite (flat_map_calls_for p tile tile host st.2.1 (proj1 Hst)) in Hhost.
    pose proof (run_tile_whos p false tile tile host device st st1 lg1 _ Hst Hm) as Hst1.
    apply lbind_inv in Hk as [(st2 & lg3 & [] & lg4 & Hm2 & Hk & ->) | (e & Hm2 & ->)];
      cbv beta in Hm2.
    + (* the device-mode UDFs got through the tile *)
      destruct st1.2.2 as [|first others] eqn:Hdev.
      * injection Hm2 as <- <-.
        assert (device = []) as Hnil.
        { destruct Hst1 as [_ Hd]. rewrite Hdev in Hd. destruct device; [reflexivity|discriminate]. }
        pose proof (IH st1 st' lg4 r Hst1 Hlib Hk) as Hrest.
        rewrite !map_app, Hhost. cbn [map app].
        replace (map seen lg4)
          with (flat_map (calls_for partition_slice p tile tile) device ++ map seen lg4)
          by (rewrite Hnil; reflexivity).
        apply log_tile; [intros Hne; contradiction | exact Hrest].
      * destruct lib as [xp0|].
        2:{ exfalso. assert (Hne : device <> []).
            { destruct Hst1 as [_ Hd]. rewrite Hdev in Hd. destruct device; discriminate. }
            destruct (Hlib Hne) as [x Hx]. discriminate. }
        apply lbind_inv in Hm2 as [(st3 & lg5 & device_tile & lg6 & Hm3 & Hk3 & ->)
                                   | (e & Hm3 & Hbad)]; [|discriminate].
        apply quiet_inv in Hm3 as [Hm3 ->]. cbn [app].
        unfold on_fst in Hm3.
        destruct (asanyarray xp0 tile st1.1) as [h' ra] eqn:Hmove.
        injection Hm3 as <- ->.
        assert (Hst3 : same_whos host device (h', st1.2)) by exact Hst1.
        destruct (run_tile_log p true tile device_tile (h', st1.2) st2 lg6 _ Hk3) as [_ Hdevice].
        specialize (Hdevice eq_refl). cbn [UDFRunner_.udfs_of snd] in Hdevice.
        rewrite (flat_map_calls_for p tile device_tile device st1.2.2 (proj2 Hst1)) in Hdevice.
        pose proof (run_tile_whos p true tile device_tile host device _ st2 lg6 _ Hst3 Hk3)
          as Hst2.
        pose proof (IH st2 st' lg4 r Hst2 Hlib Hk) as Hrest.
        rewrite !map_app, Hhost, Hdevice.
        apply log_tile; [|exact Hrest].
        intros _. exists xp0, st1.1, h'. split; [reflexivity | exact Hmove].
    + (* the run stopped at the device-mode UDFs *)
      destruct st1.2.2 as [|first others] eqn:Hdev; [discriminate|].
      destruct lib as [xp0|]; [|discriminate].
      apply lbind_inv in Hm2 as [(st3 & lg5 & device_tile & lg6 & Hm3 & Hk3 & ->)
                                 | (e' & Hm3 & _)].
      * apply quiet_inv in Hm3 as [Hm3 ->]. cbn [app].
        unfold on_fst in Hm3.
        destruct (asanyarray xp0 tile st1.1) as [h' ra] eqn:Hmove.
        injection Hm3 as <- ->.
        destruct (run_tile_log p true tile device_tile (h', st1.2) st' lg6 _ Hk3) as [Hpre _].
        cbn [UDFRunner_.udfs_of snd] in Hpre.
        rewrite (flat_map_calls_for p tile device_tile device st1.2.2 (proj2 Hst1)) in Hpre.
        rewrite map_app, Hhost.
        apply (log_stopped_device _ _ _ _ _ _ tile device_tile); [|exact Hpre].
        exists xp0, st1.1, h'. split; [reflexivity | exact Hmove].
      * apply quiet_inv in Hm3 as [_ ->]. rewrite app_nil_r, Hhost.
        apply log_stopped_host. reflexivity.
Qed.

(** X17: what the calls of [_run_udfs] into the user's code show.  The
    calls of a run, with the UDF that is called, the argument and the
    slice that the UDF finds in [self.meta.slice], are settled by the
    tiles of the partition and the two lists of UDFs: tile by tile, the
    host-mode UDFs in their order and then the device-mode UDFs in
    theirs; [process_tile] gets the tile and finds the slice of that
    tile, [process_frame] gets the frames of the tile one after the
    other and finds for frame [k] the slice of frame [k],
    [process_partition] gets the tile and finds the slice of the whole
    partition; the device-mode UDFs get the tile and its frames as
    [asanyarray] gave them.  A run that returns has made exactly these
    calls, and a run that raises has made a leading part of them. *)
Theorem process_calls_see_their_slice (p : Partition) (ts : TilingScheme)
    (roi : option Roi) (dt : dtype) (st st' : UDFRunner_.RunState) (log : list call)
    (r : result unit) :
  _run_udfs p ts roi dt st = (st', log, r) ->
  tiles_log partition_slice asanyarray (device_lib cupy_installed st.2.2) p st.2.1 st.2.2
    (is_ok r) (get_tiles p ts roi dt) (map seen log).
Proof.
  intros Hrun. unfold UDFRunner_._run_udfs in Hrun.
  pose proof (same_whos_refl st) as Hst.
  destruct st.2.2 as [|first others] eqn:Hdev.
  - apply (run_tiles_log p None st.2.1 [] _ st st' log r); [exact Hst | | exact Hrun].
    intros Hne. contradiction.
  - unfold device_lib.
    destruct (UDF_.xp cupy_installed first) as [xp0|e].
    + apply (run_tiles_log p (Some xp0) st.2.1 (first :: others) _ st st' log r);
        [exact Hst | eauto | exact Hrun].
    + injection Hrun as <- <- <-. apply log_stopped.
Qed.

End RunFacts.


(** ** [_wrapup_udfs]: views and the calls that close a run *)

Section WrapupFacts.
Context `{Buffers}.
Variable buf_flush : BufferWrapper -> M heap unit.
Variable buf_export : BufferWrapper -> M heap BufferWrapper.
Variable postprocess : UDFClass -> option (UDF -> M heap unit).
Variable cleanup : UDF -> M heap unit.
Variable pickles_partition : Partition -> result unit.
Variable pickles_results : list (option UDFData) -> result unit.

#[local] Abbreviation wrapup_udf :=
  (UDFRunner_.wrapup_udf buf_flush buf_export postprocess cleanup) (only parsing).
#[local] Abbreviation _wrapup_udfs :=
  (UDFRunner_._wrapup_udfs buf_flush buf_export postprocess cleanup
     pickles_partition pickles_results) (only parsing).

(** The calls of one round of the loop of [_wrapup_udfs], by UDF. *)
#[local] Abbreviation wrapup_calls u :=
  (match postprocess (__class__ u) with
   | Some _ => [(who u, Postprocess)]
   | None => []
   end ++ [(who u, Cleanup)]) (only parsing).

Lemma wrapup_udf_local (side : bool) (i : nat) :
  local side i (wrapup_udf side i)
    (fun u u' lg _ =>
       same_udf u u' /\ no_views u'
       /\ map (fun c => (who (callee c), what c)) lg = wrapup_calls u
       /\ Forall (fun c => what c = Postprocess -> no_views (callee c)) lg).
Proof.
  unfold UDFRunner_.wrapup_udf.
  eapply local_impl.
  { eapply local_seq; [apply local_at_udf | intros ?].
    eapply local_seq.
    { (* the call of [postprocess] *)
      instantiate (1 := fun u u' lg _ =>
        same_udf u u'
        /\ map (fun c => (who (callee c), what c)) lg
           = match postprocess (__class__ u) with
             | Some _ => [(who u, Postprocess)]
             | None => []
             end
        /\ Forall (fun c => what c = Postprocess -> no_views (callee c)) lg).
      intros st u st' log [] Hu Hrun. cbv beta in Hrun. rewrite Hu in Hrun.
      destruct (postprocess (__class__ u)) as [user_postprocess|] eqn:Ep.
      - pose proof (local_seq side i _ _ _ _
                      (local_at_udf side i UDF_.clear_views)
                      (fun _ => local_call_user side i Postprocess user_postprocess)
                      st u st' log tt Hu Hrun) as (u' & HQ & Hst).
        exists u'. split; [|exact Hst].
        destruct HQ as (u1 & lg1 & lg2 & [] & (-> & h & h' & Hc) & (-> & ->) & ->).
        apply clear_views_effect in Hc as (_ & Hsame & Hno & _).
        cbn [app map callee what]. rewrite Hsame.
        split; [exact Hsame|]. split; [reflexivity|].
        constructor; [intros _; exact Hno | constructor].
      - injection Hrun as <- <-. exists u. split; [|].
        + split; [reflexivity|]. split; [reflexivity | constructor].
        + rewrite list_insert_id by exact Hu. symmetry. apply with_udfs_of_same. }
    intros ?. eapply local_seq; [apply local_call_user | intros ?].
    eapply local_seq; [apply local_at_udf | intros ?; apply local_at_udf]. }
  cbv beta. intros u u' lg [] HQ.
  destruct HQ as (u1 & lg1 & lg2 & [] & (-> & h1 & h1' & Hflush) & HQ & ->).
  apply flush_ok in Hflush. subst u1.
  destruct HQ as (u2 & lg2' & lg3 & [] & (Hsame2 & Hlog2 & Hpost2) & HQ & ->).
  destruct HQ as (u3 & lg3' & lg4 & [] & (-> & ->) & HQ & ->).
  destruct HQ as (u4 & lg4' & lg5 & [] & (-> & h4 & h4' & Hclear) & (-> & h5 & h5' & Hexp) & ->).
  apply clear_views_effect in Hclear as (_ & Hsame4 & Hno4 & _).
  apply export_results_ok in Hexp as (Hsame5 & Hno5 & _).
  unfold same_udf in *.
  split; [congruence|]. split; [auto|].
  cbn [app]. split.
  - rewrite map_app, Hlog2. cbn [map callee what]. rewrite Hsame2. reflexivity.
  - apply Forall_app. split; [exact Hpost2|].
    constructor; [discriminate | constructor].
Qed.

Lemma wrapup_rounds (st st' : UDFRunner_.RunState) (log : list call) (self : UDFRunner)
    (p : Partition) :
  _wrapup_udfs self p st = (st', log, Ok tt) ->
  exists log1 log2,
    log = log1 ++ log2
    /\ rounds (fun u u' lg =>
         same_udf u u' /\ no_views u'
         /\ map (fun c => (who (callee c), what c)) lg = wrapup_calls u
         /\ Forall (fun c => what c = Postprocess -> no_views (callee c)) lg)
       st.2.1 st'.2.1 log1
    /\ rounds (fun u u' lg =>
         same_udf u u' /\ no_views u'
         /\ map (fun c => (who (callee c), what c)) lg = wrapup_calls u
         /\ Forall (fun c => what c = Postprocess -> no_views (callee c)) lg)
       st.2.2 st'.2.2 log2.
Proof.
  unfold UDFRunner_._wrapup_udfs, lbind.
  destruct (UDFRunner_.for_udfs_of false _ st) as [[st1 log1] [[]|e]] eqn:E1; [|discriminate].
  destruct (UDFRunner_.for_udfs_of true _ st1) as [[st2 log2] [[]|e]] eqn:E2; [|discriminate].
  apply (for_udfs_of_rounds false _ _ _ _ _ (wrapup_udf_local false)) in E1 as [Hr1 Ho1].
  apply (for_udfs_of_rounds true _ _ _ _ _ (wrapup_udf_local true)) in E2 as [Hr2 Ho2].
  cbn [negb UDFRunner_.udfs_of] in *.
  intros Hrest.
  assert (Hend : st' = st2 /\ log = log1 ++ log2).
  { destruct (_debug self).
    - unfold quiet, lift in Hrest.
      destruct (pickles_partition p); [|discriminate].
      destruct (pickles_results _); [|discriminate].
      injection Hrest as <- <-. rewrite !app_nil_r. auto.
    - unfold lret in Hrest. injection Hrest as <- <-. rewrite !app_nil_r. auto. }
  destruct Hend as [-> ->].
  exists log1, log2. split; [reflexivity|].
  rewrite Ho2. rewrite <- Ho1. split; assumption.
Qed.

(** X20: when [_wrapup_udfs] returns, the two lists hold the same UDFs
    as before and none of them holds a view, neither on its parameters
    nor on its results. *)
Theorem wrapup_leaves_no_views (self : UDFRunner) (p : Partition)
    (st st' : UDFRunner_.RunState) (log : list call) :
  _wrapup_udfs self p st = (st', log, Ok tt) ->
  Forall2 same_udf (st.2.1 ++ st.2.2) (st'.2.1 ++ st'.2.2)
  /\ Forall no_views (st'.2.1 ++ st'.2.2).
Proof.
  intros Hrun. apply wrapup_rounds in Hrun as (log1 & log2 & _ & Hr1 & Hr2).
  assert (Hone : forall us us' lg,
    rounds (fun u u' lg =>
         same_udf u u' /\ no_views u'
         /\ map (fun c => (who (callee c), what c)) lg = wrapup_calls u
         /\ Forall (fun c => what c = Postprocess -> no_views (callee c)) lg) us us' lg ->
    Forall2 same_udf us us' /\ Forall no_views us').
  { induction 1 as [|u u' lg us us' lg' (Hs & Hn & _) _ [IH1 IH2]].
    - split; constructor.
    - split; constructor; assumption. }
  apply Hone in Hr1 as [Hs1 Hn1]. apply Hone in Hr2 as [Hs2 Hn2].
  split; [apply Forall2_app; assumption | apply Forall_app; auto].
Qed.

(** X21: the calls that close a run.  When [_wrapup_udfs] returns, it
    has called, for every UDF in the order of the lists, host-mode UDFs
    first, [postprocess] if the class has one and then [cleanup], and
    nothing else; every [postprocess] has found the UDF without views. *)
Theorem wrapup_calls_in_order (self : UDFRunner) (p : Partition)
    (st st' : UDFRunner_.RunState) (log : list call) :
  _wrapup_udfs self p st = (st', log, Ok tt) ->
  map (fun c => (who (callee c), what c)) log
  = flat_map (fun u => wrapup_calls u) (st.2.1 ++ st.2.2)
  /\ Forall (fun c => what c = Postprocess -> no_views (callee c)) log.
Proof.
  intros Hrun. apply wrapup_rounds in Hrun as (log1 & log2 & -> & Hr1 & Hr2).
  assert (Hone : forall us us' lg,
    rounds (fun u u' lg =>
         same_udf u u' /\ no_views u'
         /\ map (fun c => (who (callee c), what c)) lg = wrapup_calls u
         /\ Forall (fun c => what c = Postprocess -> no_views (callee c)) lg) us us' lg ->
    map (fun c => (who (callee c), what c)) lg = flat_map (fun u => wrapup_calls u) us
    /\ Forall (fun c => what c = Postprocess -> no_views (callee c)) lg).
  { induction 1 as [|u u' lg us us' lg' (_ & _ & Hl & Hp) _ [IH1 IH2]].
    - split; [reflexivity | constructor].
    - split.
      + rewrite map_app, Hl, IH1. reflexivity.
      + apply Forall_app. auto. }
  apply Hone in Hr1 as [Hl1 Hp1]. apply Hone in Hr2 as [Hl2 Hp2].
  split.
  - rewrite map_app, flat_map_app, Hl1, Hl2. reflexivity.
  - apply Forall_app. auto.
Qed.

End WrapupFacts.


(** ** [run_for_dataset_async]: the names in the snapshots *)

Section SnapshotFacts.
Context `{Buffers}.

Lemma set_shape_ds_items_keys (its : dict pyobj) (ds : DataSet) (roi : option Roi) :
  dict_keys (UDFData_.set_shape_ds_items its ds roi) = dict_keys its.
Proof.
  induction its as [|[k v] its IH]; simpl; [reflexivity|]. rewrite IH. reflexivity.
Qed.

Lemma allocate_items_keys (its : dict pyobj) (h : heap) :
  dict_keys (UDFData_.allocate_items its h).1.2 = dict_keys its.
Proof.
  revert h. induction its as [|[k v] its IH]; intros h; simpl; [reflexivity|].
  destruct (as_buffer v) as [buf|].
  - destruct (has_data buf).
    + specialize (IH h). destruct (UDFData_.allocate_items its h) as [[h' rest'] r].
      simpl in *. rewrite IH. reflexivity.
    + destruct (allocate buf h) as [h1 [buf'|e]]; [|reflexivity].
      specialize (IH h1). destruct (UDFData_.allocate_items its h1) as [[h' rest'] r].
      simpl in *. rewrite IH. reflexivity.
  - specialize (IH h). destruct (UDFData_.allocate_items its h) as [[h' rest'] r].
    simpl in *. rewrite IH. reflexivity.
Qed.

(** The names of the result dict of a UDF, when it has one. *)
#[local] Abbreviation result_names u := (option_map (fun r => dict_keys (_data r)) (results u))
  (only parsing).

Lemma in_results_names {A} (m : M (heap * UDFData) A) (hu : heap * UDF) :
  (forall hd, dict_keys (_data (m hd).1.2) = dict_keys (_data hd.2)) ->
  result_names (UDF_.in_results m hu).1.2 = result_names hu.2.
Proof.
  intros Hm. unfold UDF_.in_results. destruct (results hu.2) as [r|] eqn:Hr.
  - specialize (Hm (hu.1, r)). destruct (m (hu.1, r)) as [[h' r'] x].
    cbn [fst snd results UDF_.with_results option_map] in *. rewrite Hm. reflexivity.
  - cbn [fst snd]. rewrite Hr. reflexivity.
Qed.

Lemma bind_names (m1 m2 : M (heap * UDF) unit) (hu : heap * UDF) :
  (forall x, result_names (m1 x).1.2 = result_names x.2) ->
  (forall x, result_names (m2 x).1.2 = result_names x.2) ->
  result_names ((m1 ;;; m2)%py hu).1.2 = result_names hu.2.
Proof.
  intros H1 H2. unfold bind. specialize (H1 hu).
  destruct (m1 hu) as [hu1 [[]|e]]; simpl in *; [|exact H1].
  rewrite H2. exact H1.
Qed.

Lemma allocate_for_full_names (ds : DataSet) (roi : option Roi) (hu : heap * UDF) :
  result_names (UDF_.allocate_for_full ds roi hu).1.2 = result_names hu.2.
Proof.
  unfold UDF_.allocate_for_full. apply bind_names.
  - intros x. rewrite in_params_results. reflexivity.
  - intros x. apply in_results_names. intros [h d]. unfold UDFData_.allocate_for_full.
    cbn [fst snd].
    pose proof (allocate_items_keys (UDFData_.set_shape_ds_items (_data d) ds roi) h) as Hk.
    destruct (UDFData_.allocate_items _ h) as [[h' d'] r]. simpl in *.
    rewrite Hk. apply set_shape_ds_items_keys.
Qed.

Lemma set_views_for_partition_names (p : Partition) (hu : heap * UDF) :
  result_names (UDF_.set_views_for_partition p hu).1.2 = result_names hu.2.
Proof.
  unfold UDF_.set_views_for_partition. apply bind_names.
  - intros x. rewrite in_params_results. reflexivity.
  - intros x. apply in_results_names. intros [h d].
    unfold UDFData_.set_view_for_partition, UDFData_.set_view_with. cbn [fst snd].
    rewrite set_views_loop_data. reflexivity.
Qed.

Lemma clear_views_names (hu : heap * UDF) :
  result_names (UDF_.clear_views hu).1.2 = result_names hu.2.
Proof.
  unfold UDF_.clear_views. apply bind_names.
  - intros x. rewrite in_params_results. reflexivity.
  - intros x. apply in_results_names. intros [h d]. reflexivity.
Qed.

Lemma merge_keeps_containers (dest src : dict pyobj) (hu : heap * UDF) :
  params (UDF_.merge dest src hu).1.2 = params hu.2
  /\ results (UDF_.merge dest src hu).1.2 = results hu.2.
Proof.
  unfold UDF_.merge. destruct (cls_merge (__class__ hu.2)) as [user_merge|].
  - unfold on_fst. destruct (user_merge dest src hu.1). split; reflexivity.
  - unfold UDF_.default_merge, bind, on_snd, on_fst, throw, UDF_.requires_custom_merge.
    destruct hu as [h u]. cbn [fst snd].
    destruct (_requires_custom_merge u) as [b|].
    + destruct b; cbn [fst snd]; [split; reflexivity|].
      destruct (UDF_.merge_loop _ dest src h). split; reflexivity.
    + destruct (UDF_.get_result_buffers u) as [buffers|e]; [|split; reflexivity].
      cbn [fst snd]. destruct (existsb _ _); cbn [fst snd]; [split; reflexivity|].
      destruct (UDF_.merge_loop _ dest src h). split; reflexivity.
Qed.

Lemma merge_names (dest src : dict pyobj) (hu : heap * UDF) :
  results (UDF_.merge dest src hu).1.2 = results hu.2.
Proof. apply merge_keeps_containers. Qed.

Lemma merge_partial_names (results0 : UDFData) (task : UDFTask) (hu : heap * UDF) :
  result_names (UDFRunner_.merge_partial results0 task hu).1.2 = result_names hu.2.
Proof.
  unfold UDFRunner_.merge_partial. unfold bind at 1.
  pose proof (set_views_for_partition_names (partition task) hu) as H1.
  destruct (UDF_.set_views_for_partition (partition task) hu) as [hu1 [[]|e]];
    cbn [fst snd] in *; [|exact H1].
  rewrite <- H1. clear H1. unfold bind at 1.
  destruct (results hu1.2) as [r|] eqn:Hr; [|cbn; rewrite Hr; reflexivity].
  destruct (UDFData_.get_proxy r) as [dest|e]; [|cbn; rewrite Hr; reflexivity].
  cbn [fst snd]. unfold bind at 1, lift.
  destruct (UDFData_.get_proxy results0) as [src|e]; [|cbn; rewrite Hr; reflexivity].
  unfold bind.
  pose proof (merge_names dest src hu1) as H2.
  destruct (UDF_.merge dest src hu1) as [hu2 [[]|e]]; cbn [fst snd] in *.
  - rewrite clear_views_names, H2, Hr. reflexivity.
  - rewrite H2, Hr. reflexivity.
Qed.

Lemma preprocess_for_dataset_names (ds : DataSet) (hu : heap * UDF) :
  result_names (UDFRunner_.preprocess_for_dataset ds hu).1.2 = result_names hu.2.
Proof.
  unfold UDFRunner_.preprocess_for_dataset.
  destruct (cls_preprocess (__class__ hu.2)) as [user_preprocess|]; [|reflexivity].
  apply bind_names.
  - intros x. unfold UDF_.set_views_for_dataset. rewrite in_params_results. reflexivity.
  - intros x. apply in_results_names. intros [h d]. unfold on_fst. cbn [fst snd].
    destruct (user_preprocess d h). reflexivity.
Qed.

Lemma for_each_udf_names (body : M (heap * UDF) unit) (udfs : list UDF) (h : heap) :
  (forall x, result_names (body x).1.2 = result_names x.2) ->
  map (fun u => result_names u) (UDFRunner_.for_each_udf body udfs h).1.2
  = map (fun u => result_names u) udfs.
Proof.
  intros Hbody. revert h. induction udfs as [|u udfs IH]; intros h; simpl; [reflexivity|].
  specialize (Hbody (h, u)). destruct (body (h, u)) as [[h1 u1] [[]|e]]; cbn [fst snd] in *.
  - specialize (IH h1). destruct (UDFRunner_.for_each_udf body udfs h1) as [[h2 rest] r].
    cbn [fst snd map] in *. rewrite Hbody, IH. reflexivity.
  - cbn [map]. rewrite Hbody. reflexivity.
Qed.

Lemma merge_zip_names (prs : list UDFData) (udfs : list UDF) (task : UDFTask) (h : heap) :
  map (fun u => result_names u) (UDFRunner_.merge_zip prs udfs task h).1.2
  = map (fun u => result_names u) udfs.
Proof.
  revert udfs h. induction prs as [|pr prs IH]; intros udfs h; [destruct udfs; reflexivity|].
  destruct udfs as [|u udfs]; [reflexivity|]. cbn [UDFRunner_.merge_zip].
  pose proof (merge_partial_names pr task (h, u)) as Hu.
  destruct (UDFRunner_.merge_partial pr task (h, u)) as [[h1 u1] [[]|e]]; cbn [fst snd] in *.
  - specialize (IH udfs h1). destruct (UDFRunner_.merge_zip prs udfs task h1) as [[h2 rest] r].
    cbn [fst snd map] in *. rewrite Hu, IH. reflexivity.
  - cbn [map]. rewrite Hu. reflexivity.
Qed.

Lemma results_as_dicts_names (udfs : list UDF) (g : list (dict pyobj)) :
  UDFRunner_.results_as_dicts udfs = Ok g ->
  map (fun u => result_names u) udfs = map (fun d => Some (dict_keys d)) g.
Proof.
  revert g. induction udfs as [|u udfs IH]; intros g; simpl.
  - intros Heq. injection Heq as <-. reflexivity.
  - destruct (results u) as [r|]; [|discriminate].
    destruct (UDFRunner_.results_as_dicts udfs) as [ds|e]; [|discriminate].
    simpl. intros Heq. injection Heq as <-. simpl. rewrite (IH ds eq_refl). reflexivity.
Qed.

(** Every snapshot of the loop has the names that the UDFs have when
    the loop starts. *)
Lemma async_for_names (stream : list (M heap (list UDFData * UDFTask)))
    (st : heap * UDFRunner) :
  Forall (fun s => map (fun d => Some (dict_keys d)) (groups s)
                   = map (fun u => result_names u) (_udfs st.2))
         (snapshots (UDFRunner_.async_for stream st).1.2).
Proof.
  revert st. induction stream as [|receive rest IH]; intros [h self]; cbn [fst snd].
  - rewrite async_for_nil.
    pose proof (for_each_udf_names UDF_.clear_views (_udfs self) h clear_views_names) as Hn.
    destruct (UDFRunner_.for_each_udf UDF_.clear_views (_udfs self) h) as [[h1 udfs1] [[]|e]];
      cbn [fst snd] in *; [|constructor].
    destruct (UDFRunner_.results_as_dicts udfs1) as [g|e] eqn:Hg; [|constructor].
    cbn [fst snd snapshots]. constructor; [|constructor].
    cbn [groups]. rewrite <- Hn. symmetry. apply results_as_dicts_names. exact Hg.
  - rewrite async_for_cons.
    destruct (receive h) as [h1 [delivery|e]]; [|constructor].
    pose proof (merge_zip_names delivery.1 (_udfs self) delivery.2 h1) as Hn.
    destruct (UDFRunner_.merge_zip delivery.1 (_udfs self) delivery.2 h1)
      as [[h2 udfs2] [[]|e]]; cbn [fst snd] in *; [|constructor].
    destruct (UDFRunner_.results_as_dicts udfs2) as [g|e] eqn:Hg; [|constructor].
    specialize (IH (h2, UDFRunner_.with_udfs self udfs2)).
    destruct (UDFRunner_.async_for rest (h2, UDFRunner_.with_udfs self udfs2))
      as [[st3 tr] r].
    cbn [fst snd snapshots _udfs UDFRunner_.with_udfs] in *. constructor.
    + cbn [groups]. rewrite <- Hn. symmetry. apply results_as_dicts_names. exact Hg.
    + rewrite <- Hn. exact IH.
Qed.

Lemma prepare_names (dataset : DataSet) (roi : option Roi) (corrections : option CorrectionSet)
    (backends : option (list string)) (st st1 : heap * UDFRunner) (tasks : list UDFTask) :
  UDFRunner_._prepare_run_for_dataset dataset roi corrections backends st = (st1, Ok tasks) ->
  Forall2 (fun u u1 => exists buffers,
             UDF_.get_result_buffers u = Ok buffers
             /\ result_names u1 = Some (dict_keys buffers))
          (_udfs st.2) (_udfs st1.2).
Proof.
  unfold UDFRunner_._prepare_run_for_dataset, bind, lift.
  destruct (UDFRunner_._check_preconditions dataset roi) as [[]|e]; [|discriminate].
  unfold UDFRunner_.for_udfs.
  destruct (UDFRunner_.for_each_udf _ (_udfs st.2) st.1) as [[h1 udfs1] [[]|e]] eqn:Hf;
    [|discriminate].
  intros Heq. injection Heq as <- _. cbn [fst snd _udfs UDFRunner_.with_udfs].
  apply for_each_udf_pairs in Hf.
  eapply Forall2_impl; [exact Hf|]. clear Hf.
  intros u u1 (h2 & h3 & Hbody). unfold bind in Hbody. cbn [fst snd] in Hbody.
  unfold UDF_.init_result_buffers in Hbody at 1. cbn [fst snd] in Hbody.
  change (UDF_.get_result_buffers (UDF_.set_meta u (UDFRunner_._prepare_meta st.2 dataset roi
                                                      corrections)))
    with (UDF_.get_result_buffers u) in Hbody.
  destruct (UDF_.get_result_buffers u) as [buffers|e]; [|discriminate].
  exists buffers. split; [reflexivity|].
  match type of Hbody with
  | context [UDF_.allocate_for_full dataset roi ?x] =>
      pose proof (allocate_for_full_names dataset roi x) as Ha;
      destruct (UDF_.allocate_for_full dataset roi x) as [hu4 [[]|e]]; [|discriminate]
  end.
  pose proof (preprocess_for_dataset_names dataset hu4) as Hp.
  rewrite Hbody in Hp. cbn [fst snd] in Hp, Ha. rewrite Hp, Ha.
  cbn [results UDF_.with_results option_map UDFData_.__init__ _data].
  unfold dict_keys. rewrite map_map. reflexivity.
Qed.

(** X23: every snapshot that [run_for_dataset_async] yields holds one
    result dict for every UDF of the runner, in the order of the UDFs,
    and each dict has the names that its UDF declares in
    [get_result_buffers], in the order of the declaration; no merge, no
    allocation and no view changes the names. *)
Theorem snapshots_have_declared_names (dataset : DataSet) (executor : UDFRunner_.Executor)
    (cancel_id : string) (roi : option Roi) (corrections : option CorrectionSet)
    (backends : option (list string)) (st : heap * UDFRunner) :
  Forall (fun s => Forall2 has_declared_names (_udfs st.2) (groups s))
         (snapshots (UDFRunner_.run_for_dataset_async dataset executor cancel_id roi
                       corrections backends st).1.2).
Proof.
  unfold UDFRunner_.run_for_dataset_async, UDFRunner_.gbind, UDFRunner_.glift.
  destruct (UDFRunner_._prepare_run_for_dataset dataset roi corrections backends st)
    as [st1 [tasks|e]] eqn:Hprep; [|constructor].
  apply prepare_names in Hprep.
  pose proof (async_for_names (executor tasks cancel_id) st1) as Hsnap.
  destruct (UDFRunner_.async_for (executor tasks cancel_id) st1) as [[st2 tr] r].
  cbn [fst snd app] in *.
  eapply Forall_impl; [exact Hsnap|]. clear Hsnap.
  intros s Hs. cbv beta in Hs.
  revert Hs. generalize (groups s). clear -Hprep.
  induction Hprep as [|u u1 udfs udfs1 (buffers & Hb & Hn) _ IH]; intros g Hg.
  - destruct g; [constructor | discriminate].
  - destruct g as [|d g]; [discriminate|]. cbn [map] in Hg. injection Hg as Hd Hg.
    constructor; [|apply IH; exact Hg].
    exists buffers. split; [exact Hb|]. rewrite Hn in Hd. injection Hd as ->. reflexivity.
Qed.

End SnapshotFacts.

(** ** [run_for_dataset]: the synchronous run *)

Section SyncFacts.
Context `{Buffers}.

Lemma dict_set_new {V} (k : string) (v : V) (d : dict V) :
  k ∉ dict_keys d -> dict_set k v d = d ++ [(k, v)].
Proof.
  induction d as [|[k' v'] d IH]; intros Hk; simpl; [reflexivity|].
  simpl in Hk. apply not_elem_of_cons in Hk as [Hne Hk].
  destruct (String.eqb k k') eqn:E; [apply String.eqb_eq in E; contradiction|].
  rewrite IH by exact Hk. reflexivity.
Qed.

Lemma dict_set_there {V} (k : string) (v w : V) (pre post : dict V) :
  k ∉ dict_keys pre -> dict_set k v (pre ++ (k, w) :: post) = pre ++ (k, v) :: post.
Proof.
  induction pre as [|[k' v'] pre IH]; intros Hk; simpl.
  - rewrite String.eqb_refl. reflexivity.
  - simpl in Hk. apply not_elem_of_cons in Hk as [Hne Hk].
    destruct (String.eqb k k') eqn:E; [apply String.eqb_eq in E; contradiction|].
    rewrite IH by exact Hk. reflexivity.
Qed.

Lemma with_views_same (d : UDFData) : UDFData_.with_views d (_views d) = d.
Proof. destruct d. reflexivity. Qed.

Lemma views_of_keys getter bufs (h h1 : heap) (vs : dict aref) :
  views_of getter bufs h = (h1, Ok vs) -> dict_keys vs = map fst bufs.
Proof.
  revert h h1 vs. induction bufs as [|[k buf] bufs IH]; intros h h1 vs; simpl.
  - intros Heq. injection Heq as _ <-. reflexivity.
  - destruct (getter buf h) as [h2 [a|e]]; [|discriminate].
    destruct (views_of getter bufs h2) as [h3 [vs'|e]] eqn:Hv; [|discriminate].
    intros Heq. injection Heq as _ <-. simpl. rewrite (IH _ _ _ Hv). reflexivity.
Qed.

(** The loop of the view setters, started with views for none or for
    all of the buffers that are still to come. *)
Lemma set_views_loop_views getter bufs (pre old : dict aref) (h : heap) (d : UDFData) :
  NoDup (dict_keys pre ++ map fst bufs) ->
  old = [] \/ dict_keys old = map fst bufs ->
  _views d = pre ++ old ->
  match views_of getter bufs h with
  | (h1, Ok vs) =>
      UDFData_.set_views_loop getter bufs (h, d)
      = ((h1, UDFData_.with_views d (pre ++ vs)), Ok tt)
  | (h1, Raise e) =>
      (UDFData_.set_views_loop getter bufs (h, d)).2 = Raise e
      /\ (UDFData_.set_views_loop getter bufs (h, d)).1.1 = h1
  end.
Proof.
  revert pre old h d. induction bufs as [|[k buf] bufs IH]; intros pre old h d Hnd Hold Hv.
  - simpl. assert (old = []) as ->.
    { destruct Hold as [->|Hk]; [reflexivity|]. destruct old; [reflexivity | discriminate]. }
    rewrite <- Hv, with_views_same. reflexivity.
  - cbn [views_of UDFData_.set_views_loop fst snd].
    destruct (getter buf h) as [h1 [a|e]]; [|split; reflexivity].
    assert (Hk : k ∉ dict_keys pre).
    { cbn [map fst] in Hnd. apply NoDup_app in Hnd as (_ & Hdisj & _).
      intros Hin. apply (Hdisj k Hin). apply list_elem_of_here. }
    assert (Hnd' : NoDup (dict_keys (pre ++ [(k, a)]) ++ map fst bufs)).
    { unfold dict_keys. rewrite map_app. cbn [map fst]. rewrite <- app_assoc. exact Hnd. }
    assert (Hset : exists old', (old' = [] \/ dict_keys old' = map fst bufs)
                     /\ dict_set k a (_views d) = (pre ++ [(k, a)]) ++ old').
    { rewrite Hv. destruct Hold as [->|Hkeys].
      - exists []. split; [left; reflexivity|].
        rewrite !app_nil_r. apply dict_set_new. exact Hk.
      - destruct old as [|[k0 w] old']; [discriminate|].
        cbn [dict_keys map fst] in Hkeys. injection Hkeys as -> Hkeys.
        exists old'. split; [right; exact Hkeys|].
        rewrite <- app_assoc. apply dict_set_there. exact Hk. }
    destruct Hset as (old' & Hold' & Hset).
    specialize (IH (pre ++ [(k, a)]) old' h1
                  (UDFData_.with_views d (dict_set k a (_views d))) Hnd' Hold' Hset).
    destruct (views_of getter bufs h1) as [h2 [vs|e]].
    + rewrite IH. rewrite <- app_assoc. reflexivity.
    + exact IH.
Qed.

Lemma get_buffers_sublist (its : dict pyobj) (fa : bool) :
  map fst (UDFData_._get_buffers_of its fa) `sublist_of` dict_keys its.
Proof.
  induction its as [|[k v] its IH]; simpl; [constructor|].
  destruct (as_buffer v) as [b|]; [|apply sublist_cons; exact IH].
  destruct (has_data b && fa); [apply sublist_cons; exact IH|].
  simpl. apply sublist_skip. exact IH.
Qed.

Lemma set_view_with_aligned getter (h : heap) (d : UDFData) :
  aligned d ->
  match views_of getter (UDFData_._get_buffers d false) h with
  | (h1, Ok vs) =>
      UDFData_.set_view_with getter (h, d) = ((h1, UDFData_.with_views d vs), Ok tt)
  | (h1, Raise e) =>
      (UDFData_.set_view_with getter (h, d)).2 = Raise e
      /\ (UDFData_.set_view_with getter (h, d)).1.1 = h1
  end.
Proof.
  intros [Hnd Hal]. unfold UDFData_.set_view_with. cbn [fst snd].
  apply (set_views_loop_views getter (UDFData_._get_buffers d false) [] (_views d) h d).
  - cbn [dict_keys map app]. eapply sublist_NoDup; [exact Hnd | apply get_buffers_sublist].
  - exact Hal.
  - reflexivity.
Qed.

Lemma aligned_clear (d : UDFData) : aligned d -> aligned (UDFData_.clear_views d).
Proof. intros [Hnd _]. split; [exact Hnd | left; reflexivity]. Qed.

Lemma ready_without_views (u : UDF) : ready u -> ready (without_views u).
Proof.
  intros (Hp & r & Hr & Hal). split; [apply aligned_clear; exact Hp|].
  exists (UDFData_.clear_views r). split; [|apply aligned_clear; exact Hal].
  unfold without_views. cbn [results UDF_.with_results]. rewrite Hr. reflexivity.
Qed.

Lemma without_views_twice (u : UDF) : without_views (without_views u) = without_views u.
Proof. unfold without_views. cbn. destruct (results u); reflexivity. Qed.

(** [set_views_for_partition] on a UDF in the loop: what it gives is
    settled by the views that the buffers give. *)
Lemma set_views_for_partition_ready (p : Partition) (h : heap) (u : UDF) (r : UDFData) :
  aligned (params u) -> results u = Some r -> aligned r ->
  match views_of (fun buf => get_view_for_partition buf p)
                 (UDFData_._get_buffers (params u) false) h with
  | (h1, Ok vs) =>
      match views_of (fun buf => get_view_for_partition buf p)
                     (UDFData_._get_buffers r false) h1 with
      | (h2, Ok ws) =>
          UDF_.set_views_for_partition p (h, u)
          = ((h2, UDF_.with_results
                    (UDF_.with_params u (UDFData_.with_views (params u) vs))
                    (Some (UDFData_.with_views r ws))), Ok tt)
      | (h2, Raise e) => (UDF_.set_views_for_partition p (h, u)).2 = Raise e
      end
  | (h1, Raise e) => (UDF_.set_views_for_partition p (h, u)).2 = Raise e
  end.
Proof.
  intros Hp Hr Hal.
  unfold UDF_.set_views_for_partition, bind, UDF_.in_params, UDF_.in_results, zoom,
    UDFData_.set_view_for_partition.
  cbn [fst snd].
  pose proof (set_view_with_aligned (fun buf => get_view_for_partition buf p) h (params u) Hp)
    as H1.
  destruct (views_of _ (UDFData_._get_buffers (params u) false) h) as [h1 [vs|e]].
  - rewrite H1. cbn [fst snd results UDF_.with_params]. rewrite Hr.
    pose proof (set_view_with_aligned (fun buf => get_view_for_partition buf p) h1 r Hal)
      as H2.
    destruct (views_of _ (UDFData_._get_buffers r false) h1) as [h2 [ws|e]].
    + rewrite H2. reflexivity.
    + destruct H2 as [H2 _].
      destruct (UDFData_.set_view_with _ (h1, r)) as [[h3 r3] x]. cbn [fst snd] in *.
      exact H2.
  - destruct H1 as [H1 _].
    destruct (UDFData_.set_view_with _ (h, params u)) as [[h3 p3] x]. cbn [fst snd] in *.
    subst x. reflexivity.
Qed.

Lemma set_views_for_partition_canon (p : Partition) (h : heap) (u : UDF)
    (x : heap * UDF) :
  ready u ->
  UDF_.set_views_for_partition p (h, u) = (x, Ok tt)
  <-> UDF_.set_views_for_partition p (h, without_views u) = (x, Ok tt).
Proof.
  intros Hready.
  pose proof (ready_without_views u Hready) as Hready'.
  destruct Hready as (Hp & r & Hr & Hal).
  destruct Hready' as (Hp' & r' & Hr' & Hal').
  assert (r' = UDFData_.clear_views r) as ->.
  { unfold without_views in Hr'. cbn [results UDF_.with_results] in Hr'. rewrite Hr in Hr'.
    cbn in Hr'. injection Hr' as <-. reflexivity. }
  pose proof (set_views_for_partition_ready p h u r Hp Hr Hal) as H1.
  pose proof (set_views_for_partition_ready p h (without_views u) _ Hp' Hr' Hal') as H2.
  change (UDFData_._get_buffers (params (without_views u)) false)
    with (UDFData_._get_buffers (params u) false) in H2.
  change (UDFData_._get_buffers (UDFData_.clear_views r) false)
    with (UDFData_._get_buffers r false) in H2.
  destruct (views_of _ (UDFData_._get_buffers (params u) false) h) as [h1 [vs|e]].
  - destruct (views_of _ (UDFData_._get_buffers r false) h1) as [h2 [ws|e]].
    + rewrite H1, H2. reflexivity.
    + rewrite (surjective_pairing (UDF_.set_views_for_partition p (h, u))), H1.
      rewrite (surjective_pairing (UDF_.set_views_for_partition p (h, without_views u))), H2.
      split; intros Heq; discriminate.
  - rewrite (surjective_pairing (UDF_.set_views_for_partition p (h, u))), H1.
    rewrite (surjective_pairing (UDF_.set_views_for_partition p (h, without_views u))), H2.
    split; intros Heq; discriminate.
Qed.

Lemma set_view_with_keeps_aligned getter (h h1 : heap) (d d1 : UDFData) :
  aligned d -> UDFData_.set_view_with getter (h, d) = ((h1, d1), Ok tt) -> aligned d1.
Proof.
  intros Hal Hset. pose proof (set_view_with_aligned getter h d Hal) as Hc.
  destruct (views_of getter (UDFData_._get_buffers d false) h) as [h2 [vs|e]] eqn:Hv.
  - rewrite Hc in Hset. injection Hset as _ <-. destruct Hal as [Hnd _].
    split; [exact Hnd|]. right. cbn [_views UDFData_.with_views].
    apply views_of_keys in Hv. exact Hv.
  - destruct Hc as [Hc _]. rewrite Hset in Hc. discriminate.
Qed.

Lemma set_views_for_partition_keeps_ready (p : Partition) (h h1 : heap) (u u1 : UDF) :
  ready u -> UDF_.set_views_for_partition p (h, u) = ((h1, u1), Ok tt) ->
  ready u1 /\ without_views u1 = without_views u.
Proof.
  intros (Hp & r & Hr & Hal) Hset.
  pose proof (set_views_for_partition_ready p h u r Hp Hr Hal) as Hc.
  destruct (views_of _ (UDFData_._get_buffers (params u) false) h) as [h2 [vs|e]] eqn:Hv;
    [|rewrite Hset in Hc; discriminate].
  destruct (views_of _ (UDFData_._get_buffers r false) h2) as [h3 [ws|e]] eqn:Hw;
    [|rewrite Hset in Hc; discriminate].
  rewrite Hc in Hset. injection Hset as _ <-. split.
  - split.
    + destruct Hp as [Hnd _]. split; [exact Hnd|]. right.
      apply views_of_keys in Hv. exact Hv.
    + eexists. split; [reflexivity|]. destruct Hal as [Hnd _]. split; [exact Hnd|]. right.
      apply views_of_keys in Hw. exact Hw.
  - unfold without_views. cbn. rewrite Hr. reflexivity.
Qed.

Lemma clear_views_gives (h : heap) (u : UDF) :
  is_Some (results u) -> UDF_.clear_views (h, u) = ((h, without_views u), Ok tt).
Proof.
  intros [r Hr].
  unfold UDF_.clear_views, bind, UDF_.in_params, zoom, UDF_.in_results, UDF_.data_clear_views,
    without_views.
  cbn [fst snd results UDF_.with_params]. rewrite Hr. reflexivity.
Qed.

Lemma ready_keeps (u u' : UDF) :
  params u' = params u -> results u' = results u -> ready u -> ready u'.
Proof. unfold ready. intros -> ->. auto. Qed.

(** One round of the inner loop, in both runs. *)
Lemma merge_partial_in_step (results0 : UDFData) (task : UDFTask) (h h' : heap)
    (u_sync u_async u' : UDF) :
  in_step u_sync u_async ->
  UDFRunner_.merge_partial_sync results0 task (h, u_sync) = ((h', u'), Ok tt) ->
  UDFRunner_.merge_partial results0 task (h, u_async) = ((h', without_views u'), Ok tt)
  /\ in_step u' (without_views u').
Proof.
  intros (Hs & Ha & Heq) Hrun.
  unfold UDFRunner_.merge_partial_sync in Hrun. unfold bind at 1 in Hrun.
  destruct (UDF_.set_views_for_partition (partition task) (h, u_sync))
    as [[h1 u1] [[]|e]] eqn:Hset; [|discriminate].
  assert (Hset' : UDF_.set_views_for_partition (partition task) (h, u_async)
                  = ((h1, u1), Ok tt)).
  { apply (proj2 (set_views_for_partition_canon _ _ u_async _ Ha)). rewrite <- Heq.
    apply (proj1 (set_views_for_partition_canon _ _ u_sync _ Hs)). exact Hset. }
  apply set_views_for_partition_keeps_ready in Hset as [Hready1 _]; [|exact Hs].
  unfold UDFRunner_.merge_partial. unfold bind at 1. rewrite Hset'.
  unfold bind at 1 in Hrun. unfold bind at 1. cbn [fst snd] in *.
  destruct (results u1) as [r|] eqn:Hr; [|discriminate].
  destruct (UDFData_.get_proxy r) as [dest|e]; [|discriminate].
  unfold bind at 1, lift in Hrun. unfold bind at 1, lift.
  destruct (UDFData_.get_proxy results0) as [src|e]; [|discriminate].
  unfold bind.
  pose proof (merge_keeps_containers dest src (h1, u1)) as [Hkp Hkr].
  rewrite Hrun in *. cbn [fst snd] in *.
  assert (Hready' : ready u') by (eapply ready_keeps; eauto).
  rewrite clear_views_gives by (destruct Hready' as (_ & r' & -> & _); eauto).
  split; [reflexivity|]. split; [exact Hready'|]. split.
  - apply ready_without_views. exact Hready'.
  - symmetry. apply without_views_twice.
Qed.

Lemma merge_zip_in_step (prs : list UDFData) (task : UDFTask) (h h' : heap)
    (udfs_sync udfs_async udfs' : list UDF) :
  Forall2 in_step udfs_sync udfs_async ->
  UDFRunner_.merge_zip_sync prs udfs_sync task h = (h', udfs', Ok tt) ->
  exists udfs'',
    UDFRunner_.merge_zip prs udfs_async task h = (h', udfs'', Ok tt)
    /\ Forall2 in_step udfs' udfs''.
Proof.
  intros Hstep. revert prs h udfs'.
  induction Hstep as [|u_s u_a us_s us_a Hu Hrest IH]; intros prs h udfs' Hrun.
  - destruct prs; simpl in *; injection Hrun as <- <-; exists []; split; auto.
  - destruct prs as [|pr prs].
    + simpl in *. injection Hrun as <- <-. exists (u_a :: us_a). split; [reflexivity|].
      constructor; assumption.
    + cbn [UDFRunner_.merge_zip_sync] in Hrun. cbn [UDFRunner_.merge_zip].
      destruct (UDFRunner_.merge_partial_sync pr task (h, u_s)) as [[h1 u1] [[]|e]] eqn:Hm;
        [|discriminate].
      destruct (merge_partial_in_step pr task h h1 u_s u_a u1 Hu Hm) as [Hm' Hu1].
      rewrite Hm'.
      destruct (UDFRunner_.merge_zip_sync prs us_s task h1) as [[h2 rest] r] eqn:Hz.
      injection Hrun as <- <- ->.
      destruct (IH prs h1 rest Hz) as (rest' & Hz' & Hrest').
      rewrite Hz'. exists (without_views u1 :: rest'). split; [reflexivity|].
      constructor; assumption.
Qed.

Lemma clear_all_views_gives (udfs : list UDF) (h : heap) :
  Forall ready udfs ->
  UDFRunner_.for_each_udf UDF_.clear_views udfs h = (h, map without_views udfs, Ok tt).
Proof.
  induction 1 as [|u udfs Hu _ IH]; [reflexivity|].
  cbn [UDFRunner_.for_each_udf map].
  rewrite clear_views_gives by (destruct Hu as (_ & r & -> & _); eauto).
  rewrite IH. reflexivity.
Qed.

Lemma in_step_without_views (udfs_sync udfs_async : list UDF) :
  Forall2 in_step udfs_sync udfs_async ->
  Forall ready udfs_sync /\ Forall ready udfs_async
  /\ map without_views udfs_sync = map without_views udfs_async.
Proof.
  induction 1 as [|u_s u_a us_s us_a (Hs & Ha & Heq) _ (IH1 & IH2 & IH3)].
  - repeat split; constructor.
  - repeat split; try (constructor; assumption). cbn [map]. rewrite Heq, IH3. reflexivity.
Qed.

Lemma ready_has_results (udfs : list UDF) : Forall ready udfs -> all_have_results udfs.
Proof.
  intros Hall. eapply Forall_impl; [exact Hall|]. intros u (_ & r & -> & _). eauto.
Qed.

(** The loop of the synchronous run with what follows it, against the
    loop of the asynchronous run. *)
Lemma for_deliveries_in_step (progress : bool)
    (stream : list (M heap (list UDFData * UDFTask))) (h : heap)
    (self_sync self_async : UDFRunner) (st1 st2 : heap * UDFRunner)
    (log : list bar_event) (res : list (dict pyobj)) :
  _debug self_sync = _debug self_async ->
  Forall2 in_step (_udfs self_sync) (_udfs self_async) ->
  UDFRunner_.for_deliveries progress stream (h, self_sync) = (st1, log, Ok tt) ->
  UDFRunner_.for_udfs UDF_.clear_views st1 = (st2, Ok tt) ->
  UDFRunner_.results_as_dicts (_udfs st2.2) = Ok res ->
  exists pre,
    UDFRunner_.async_for stream (h, self_async)
    = (st2, pre ++ [Yielded {| groups := res; arrays := st2.1 |}], Ok tt).
Proof.
  revert h self_sync self_async log.
  induction stream as [|receive rest IH]; intros h self_s self_a log Hdebug Hstep Hrun Hclear Hres.
  - cbn [UDFRunner_.for_deliveries] in Hrun. unfold lret in Hrun. injection Hrun as <- <-.
    destruct (in_step_without_views _ _ Hstep) as (Hrs & Hra & Hsame).
    unfold UDFRunner_.for_udfs in Hclear. cbn [fst snd] in Hclear.
    rewrite clear_all_views_gives in Hclear by exact Hrs. injection Hclear as <-.
    rewrite async_for_nil. rewrite clear_all_views_gives by exact Hra.
    cbn [fst snd _udfs UDFRunner_.with_udfs] in *.
    rewrite <- Hsame, Hres. exists [].
    unfold UDFRunner_.with_udfs. rewrite Hdebug. reflexivity.
  - cbn [UDFRunner_.for_deliveries] in Hrun. unfold lbind at 1, quiet at 1, on_fst in Hrun.
    cbn [fst snd] in Hrun. rewrite async_for_cons.
    destruct (receive h) as [h1 [delivery|e]]; [|discriminate].
    unfold lbind at 1 in Hrun.
    destruct ((if progress then UDFRunner_.bar (BarUpdated 1) else lret tt) (h1, self_s))
      as [[st0 lg0] r0] eqn:Hbar.
    assert (st0 = (h1, self_s) /\ r0 = Ok tt) as [-> ->].
    { destruct progress; injection Hbar as <- _ <-; auto. }
    unfold lbind at 1, quiet at 1, UDFRunner_.merge_task_sync in Hrun. cbn [fst snd] in Hrun.
    destruct (UDFRunner_.merge_zip_sync delivery.1 (_udfs self_s) delivery.2 h1)
      as [[h2 udfs_s'] [[]|e]] eqn:Hz; [|discriminate].
    destruct (merge_zip_in_step _ _ _ _ _ _ _ Hstep Hz) as (udfs_a' & Hz' & Hstep').
    rewrite Hz'.
    destruct (in_step_without_views _ _ Hstep') as (_ & Hra & _).
    destruct (results_as_dicts_total udfs_a' (ready_has_results _ Hra)) as [g Hg].
    rewrite Hg.
    destruct (UDFRunner_.for_deliveries progress rest (h2, UDFRunner_.with_udfs self_s udfs_s'))
      as [[st1' lg1] r1] eqn:Hrest.
    assert (st1' = st1 /\ r1 = Ok tt) as [-> ->].
    { destruct r1; injection Hrun as <- _ <-; auto. }
    destruct (IH h2 (UDFRunner_.with_udfs self_s udfs_s') (UDFRunner_.with_udfs self_a udfs_a')
                lg1 Hdebug Hstep' Hrest Hclear Hres) as (pre & Hasync).
    rewrite Hasync.
    exists (Merged delivery.2 :: Yielded {| groups := g; arrays := h2 |} :: pre).
    reflexivity.
Qed.

Lemma data_allocate_for_full_keeps (ds : DataSet) (roi : option Roi) (hd : heap * UDFData) :
  dict_keys (_data (UDFData_.allocate_for_full ds roi hd).1.2) = dict_keys (_data hd.2)
  /\ _views (UDFData_.allocate_for_full ds roi hd).1.2 = _views hd.2.
Proof.
  unfold UDFData_.allocate_for_full.
  pose proof (allocate_items_keys (UDFData_.set_shape_ds_items (_data hd.2) ds roi) hd.1) as Hk.
  destruct (UDFData_.allocate_items _ hd.1) as [[h' d'] r]. cbn [fst snd _data _views] in *.
  rewrite Hk, set_shape_ds_items_keys. split; reflexivity.
Qed.

Lemma aligned_no_views (d d' : UDFData) :
  dict_keys (_data d') = dict_keys (_data d) -> _views d' = [] ->
  NoDup (dict_keys (_data d)) -> aligned d'.
Proof. intros Hk Hv Hnd. split; [rewrite Hk; exact Hnd | left; exact Hv]. Qed.

(** One round of the loop of [_prepare_run_for_dataset]. *)
Lemma prepare_round_ready (dataset : DataSet) (roi : option Roi) (meta0 : UDFMeta)
    (h h' : heap) (u u' : UDF) :
  fresh_udf u ->
  ((fun hs => ((hs.1, UDF_.set_meta hs.2 meta0), Ok tt)) ;;;
   UDF_.init_result_buffers ;;;
   UDF_.allocate_for_full dataset roi ;;;
   UDFRunner_.preprocess_for_dataset dataset)%py (h, u) = ((h', u'), Ok tt) ->
  ready u'.
Proof.
  intros (Hviews & Hkw & Hbufs). unfold bind at 1. cbn [fst snd].
  unfold bind at 1. unfold UDF_.init_result_buffers at 1. cbn [fst snd].
  change (UDF_.get_result_buffers (UDF_.set_meta u meta0)) with (UDF_.get_result_buffers u).
  destruct (UDF_.get_result_buffers u) as [buffers|e] eqn:Hb; [|discriminate].
  specialize (Hbufs buffers eq_refl).
  unfold bind at 1. unfold UDF_.allocate_for_full, bind, UDF_.in_params, UDF_.in_results, zoom.
  cbn [fst snd results params UDF_.with_results UDF_.set_meta UDF_.with_params].
  pose proof (data_allocate_for_full_keeps dataset roi (h, params u)) as [Hk1 Hv1].
  destruct (UDFData_.allocate_for_full dataset roi (h, params u)) as [[h1 p1] [[]|e]];
    [|discriminate].
  cbn [fst snd results UDF_.with_params UDF_.with_results UDF_.set_meta] in *.
  pose proof (data_allocate_for_full_keeps dataset roi
                (h1, UDFData_.__init__ (map (fun kb => (kb.1, PyBuffer kb.2)) buffers)))
    as [Hk2 Hv2].
  destruct (UDFData_.allocate_for_full dataset roi
              (h1, UDFData_.__init__ (map (fun kb => (kb.1, PyBuffer kb.2)) buffers)))
    as [[h2 r2] [[]|e]]; [|discriminate].
  cbn [fst snd _data _views UDFData_.__init__] in *.
  assert (Hp1 : aligned p1).
  { eapply aligned_no_views; [exact Hk1 | rewrite Hv1; exact Hviews | exact Hkw]. }
  assert (Hr2 : aligned r2).
  { split; [|left; exact Hv2]. rewrite Hk2. unfold dict_keys. rewrite map_map. exact Hbufs. }
  unfold UDFRunner_.preprocess_for_dataset. cbn [fst snd __class__ UDF_.with_results
    UDF_.with_params UDF_.set_meta].
  destruct (cls_preprocess (__class__ u)) as [user_preprocess|].
  - unfold bind, UDF_.set_views_for_dataset, UDF_.in_params, UDF_.in_results, zoom,
      UDFData_.set_view_for_dataset.
    cbn [fst snd params results UDF_.with_results UDF_.with_params].
    destruct (UDFData_.set_view_with _ (h2, p1)) as [[h3 p3] [[]|e]] eqn:Hset; [|discriminate].
    apply set_view_with_keeps_aligned in Hset; [|exact Hp1].
    cbn [fst snd results UDF_.with_params UDF_.with_results]. unfold on_fst. cbn [fst snd].
    destruct (user_preprocess r2 h3) as [h4 x].
    intros Heq. injection Heq as _ <- _.
    split; [exact Hset|]. exists r2. split; [reflexivity | exact Hr2].
  - intros Heq. injection Heq as _ <-.
    split; [exact Hp1|]. exists r2. split; [reflexivity | exact Hr2].
Qed.

Lemma prepare_ready (dataset : DataSet) (roi : option Roi) (corrections : option CorrectionSet)
    (backends : option (list string)) (st st1 : heap * UDFRunner) (tasks : list UDFTask) :
  Forall fresh_udf (_udfs st.2) ->
  UDFRunner_._prepare_run_for_dataset dataset roi corrections backends st = (st1, Ok tasks) ->
  Forall ready (_udfs st1.2).
Proof.
  intros Hfresh. unfold UDFRunner_._prepare_run_for_dataset. unfold bind at 1, lift.
  destruct (UDFRunner_._check_preconditions dataset roi) as [[]|e]; [|discriminate].
  unfold bind at 1. cbn [fst snd]. unfold bind at 1. unfold UDFRunner_.for_udfs.
  destruct (UDFRunner_.for_each_udf _ (_udfs st.2) st.1) as [[h1 udfs1] [[]|e]] eqn:Hf;
    [|discriminate].
  intros Heq. injection Heq as <- _. cbn [fst snd _udfs UDFRunner_.with_udfs].
  apply for_each_udf_pairs in Hf.
  eapply Forall2_Forall_r; [exact Hf|].
  eapply Forall_impl; [exact Hfresh|]. intros u Hu u' (h2 & h3 & Hbody).
  eapply prepare_round_ready; [exact Hu | exact Hbody].
Qed.

Section Sync.
Variable uuid4 : string.
Variable pickles_tasks : list UDFTask -> result unit.

(** X24: the synchronous run gives what the asynchronous run yields
    last.  For UDFs as they come to a run (distinct parameter names,
    distinct names of the declared buffers, no views), when
    [run_for_dataset] returns, [run_for_dataset_async] on the same
    store with the same executor and cancel id comes to its end, leaves
    the same store behind, and its last snapshot holds the dicts that
    [run_for_dataset] returned and the arrays of that store; that the
    synchronous loop does not clear the views between two deliveries
    makes no difference. *)
Theorem run_for_dataset_is_last_snapshot (dataset : DataSet) (executor : UDFRunner_.Executor)
    (roi : option Roi) (progress : bool) (corrections : option CorrectionSet)
    (backends : option (list string)) (st st' : heap * UDFRunner) (log : list bar_event)
    (res : list (dict pyobj)) :
  Forall fresh_udf (_udfs st.2) ->
  UDFRunner_.run_for_dataset uuid4 pickles_tasks dataset executor roi progress corrections
    backends st = (st', log, Ok res) ->
  exists pre,
    UDFRunner_.run_for_dataset_async dataset executor uuid4 roi corrections backends st
    = (st', pre ++ [Yielded {| groups := res; arrays := st'.1 |}], Ok tt).
Proof.
  intros Hfresh Hrun. unfold UDFRunner_.run_for_dataset in Hrun.
  unfold lbind at 1, quiet at 1 in Hrun.
  unfold UDFRunner_.run_for_dataset_async, UDFRunner_.gbind, UDFRunner_.glift.
  destruct (UDFRunner_._prepare_run_for_dataset dataset roi corrections backends st)
    as [st1 [tasks|e]] eqn:Hprep; [|discriminate].
  apply prepare_ready in Hprep; [|exact Hfresh].
  unfold lbind at 1, quiet at 1 in Hrun.
  destruct (UDFRunner_._debug_task_pickling pickles_tasks st1.2 tasks) as [[]|e];
    [|discriminate].
  unfold lbind at 1 in Hrun.
  destruct ((if progress then UDFRunner_.bar (BarOpened (length tasks)) else lret tt) st1)
    as [[st0 lg0] r0] eqn:Hbar.
  assert (st0 = st1 /\ r0 = Ok tt) as [-> ->].
  { destruct progress; injection Hbar as <- _ <-; auto. }
  unfold lbind at 1 in Hrun.
  destruct (UDFRunner_.for_deliveries progress (executor tasks uuid4) st1)
    as [[st2 lg2] [[]|e]] eqn:Hloop; [|discriminate].
  unfold lbind at 1 in Hrun.
  destruct ((if progress then UDFRunner_.bar BarClosed else lret tt) st2)
    as [[st2' lg3] r3] eqn:Hbar2.
  assert (st2' = st2 /\ r3 = Ok tt) as [-> ->].
  { destruct progress; injection Hbar2 as <- _ <-; auto. }
  unfold lbind at 1, quiet at 1 in Hrun.
  destruct (UDFRunner_.for_udfs UDF_.clear_views st2) as [st3 [[]|e]] eqn:Hclear;
    [|discriminate].
  unfold quiet in Hrun. 
  destruct (UDFRunner_.results_as_dicts (_udfs st3.2)) as [g|e] eqn:Hres; [|discriminate].
  injection Hrun as <- _ <-.
  destruct st1 as [h1 self1]. cbn [fst snd] in *.
  destruct (for_deliveries_in_step progress (executor tasks uuid4) h1 self1 self1 st2 st3
              lg2 g eq_refl) as (pre & Hasync); try assumption.
  { apply Forall_Forall2_diag. eapply Forall_impl; [exact Hprep|].
    intros u Hu. split; [exact Hu|]. split; [exact Hu | reflexivity]. }
  rewrite Hasync. exists pre. reflexivity.
Qed.

Lemma for_deliveries_bar (progress : bool) (stream : list (M heap (list UDFData * UDFTask)))
    (st st' : heap * UDFRunner) (log : list bar_event) (r : result unit) :
  UDFRunner_.for_deliveries progress stream st = (st', log, r) ->
  exists j, log = replicate (if progress then j else 0) (BarUpdated 1)
            /\ j <= length stream
            /\ (is_ok r = true -> j = length stream).
Proof.
  revert st st' log r. induction stream as [|receive rest IH]; intros st st' log r Hrun.
  - cbn in Hrun. injection Hrun as _ <- <-.
    exists 0. split; [destruct progress; reflexivity | auto].
  - cbn [UDFRunner_.for_deliveries] in Hrun. unfold lbind at 1, quiet at 1, on_fst in Hrun.
    destruct (receive st.1) as [h1 [delivery|e]].
    2:{ injection Hrun as _ <- <-. exists 0.
        split; [destruct progress; reflexivity|]. split; [cbn; lia | discriminate]. }
    unfold lbind at 1 in Hrun.
    destruct ((if progress then UDFRunner_.bar (BarUpdated 1) else lret tt) (h1, st.2))
      as [[st0 lg0] r0] eqn:Hbar.
    assert (st0 = (h1, st.2) /\ r0 = Ok tt
            /\ lg0 = if progress then [BarUpdated 1] else []) as (-> & -> & ->).
    { destruct progress; injection Hbar as <- <- <-; auto. }
    unfold lbind at 1, quiet at 1 in Hrun.
    destruct (UDFRunner_.merge_task_sync delivery.1 delivery.2 (h1, st.2)) as [st2 [[]|e]].
    2:{ injection Hrun as _ <- <-. exists 1. rewrite !app_nil_r.
        split; [destruct progress; reflexivity|]. split; [cbn; lia | discriminate]. }
    destruct (UDFRunner_.for_deliveries progress rest st2) as [[st3 lg3] r3] eqn:Hrest.
    destruct (IH st2 st3 lg3 r3 Hrest) as (j & Hlog & Hle & Hok).
    assert (log = (if progress then [BarUpdated 1] else []) ++ lg3 /\ r = r3) as [-> ->].
    { injection Hrun as _ <- <-. auto. }
    exists (S j). rewrite Hlog.
    split; [destruct progress; reflexivity|].
    split; [cbn; lia | intros Hr; rewrite (Hok Hr); reflexivity].
Qed.

Lemma merge_partial_sync_ok (results0 : UDFData) (task : UDFTask) (h h' : heap) (u u' : UDF) :
  UDFRunner_.merge_partial_sync results0 task (h, u) = ((h', u'), Ok tt) ->
  is_Some (results u').
Proof.
  unfold UDFRunner_.merge_partial_sync, bind, lift.
  destruct (UDF_.set_views_for_partition (partition task) (h, u)) as [[h1 u1] [[]|e]];
    [|discriminate].
  cbn [fst snd]. destruct (results u1) as [r|] eqn:Hr; [|discriminate].
  destruct (UDFData_.get_proxy r) as [dest|e]; [|discriminate].
  destruct (UDFData_.get_proxy results0) as [src|e]; [|discriminate].
  intros Hm. pose proof (merge_keeps_containers dest src (h1, u1)) as [_ Hk].
  rewrite Hm in Hk. cbn [fst snd] in Hk. rewrite Hk, Hr. eauto.
Qed.

Lemma merge_zip_sync_ok (prs : list UDFData) (udfs udfs' : list UDF) (task : UDFTask)
    (h h' : heap) :
  all_have_results udfs ->
  UDFRunner_.merge_zip_sync prs udfs task h = (h', udfs', Ok tt) ->
  all_have_results udfs'.
Proof.
  revert udfs udfs' h h'. induction prs as [|pr prs IH]; intros udfs udfs' h h' Hall Hz.
  - simpl in Hz. destruct udfs; injection Hz as <- <-; exact Hall.
  - destruct udfs as [|u udfs]; simpl in Hz; [injection Hz as <- <-; exact Hall|].
    destruct (UDFRunner_.merge_partial_sync pr task (h, u)) as [[h1 u1] [[]|e]] eqn:Hm;
      [|discriminate].
    destruct (UDFRunner_.merge_zip_sync prs udfs task h1) as [[h2 rest] r] eqn:Hrest.
    injection Hz as <- <- ->.
    inversion Hall as [|? ? Hu Hrest']; subst.
    constructor; [eapply merge_partial_sync_ok; exact Hm | eapply IH; eauto].
Qed.

Lemma for_deliveries_ok (progress : bool) (stream : list (M heap (list UDFData * UDFTask)))
    (st st' : heap * UDFRunner) (log : list bar_event) :
  all_have_results (_udfs st.2) ->
  UDFRunner_.for_deliveries progress stream st = (st', log, Ok tt) ->
  all_have_results (_udfs st'.2).
Proof.
  revert st log. induction stream as [|receive rest IH]; intros st log Hall Hrun.
  - cbn in Hrun. injection Hrun as <- _. exact Hall.
  - cbn [UDFRunner_.for_deliveries] in Hrun. unfold lbind at 1, quiet at 1, on_fst in Hrun.
    destruct (receive st.1) as [h1 [delivery|e]]; [|discriminate].
    unfold lbind at 1 in Hrun.
    destruct ((if progress then UDFRunner_.bar (BarUpdated 1) else lret tt) (h1, st.2))
      as [[st0 lg0] r0] eqn:Hbar.
    assert (st0 = (h1, st.2) /\ r0 = Ok tt) as [-> ->].
    { destruct progress; injection Hbar as <- _ <-; auto. }
    unfold lbind at 1, quiet at 1, UDFRunner_.merge_task_sync in Hrun. cbn [fst snd] in Hrun.
    destruct (UDFRunner_.merge_zip_sync delivery.1 (_udfs st.2) delivery.2 h1)
      as [[h2 udfs2] [[]|e]] eqn:Hz; [|discriminate].
    apply merge_zip_sync_ok in Hz; [|exact Hall].
    destruct (UDFRunner_.for_deliveries progress rest (h2, UDFRunner_.with_udfs st.2 udfs2))
      as [[st3 lg3] r3] eqn:Hrest.
    assert (st3 = st' /\ r3 = Ok tt) as [-> ->].
    { destruct r3; injection Hrun as <- _ <-; auto. }
    eapply IH; [|exact Hrest]. exact Hz.
Qed.

(** X25: the progress bar of [run_for_dataset(progress=True)].  A run
    that returns has opened the bar for the number of tasks, moved it by
    one for every delivery of the executor, and closed it; a run that
    raises has not closed the bar. *)
Theorem progress_bar_of_run (dataset : DataSet) (executor : UDFRunner_.Executor)
    (roi : option Roi) (corrections : option CorrectionSet)
    (backends : option (list string)) (st st' : heap * UDFRunner) (log : list bar_event)
    (r : result (list (dict pyobj))) :
  UDFRunner_.run_for_dataset uuid4 pickles_tasks dataset executor roi true corrections
    backends st = (st', log, r) ->
  (forall st1 tasks,
     UDFRunner_._prepare_run_for_dataset dataset roi corrections backends st
     = (st1, Ok tasks) ->
     is_ok r = true ->
     log = BarOpened (length tasks)
           :: replicate (length (executor tasks uuid4)) (BarUpdated 1) ++ [BarClosed])
  /\ (is_ok r = false -> BarClosed ∉ log).
Proof.
  unfold UDFRunner_.run_for_dataset. unfold lbind at 1, quiet at 1.
  destruct (UDFRunner_._prepare_run_for_dataset dataset roi corrections backends st)
    as [st1 [tasks|e]] eqn:Hprep.
  2:{ intros Heq. injection Heq as _ <- <-. split; [discriminate|].
      intros _ Hin. inversion Hin. }
  pose proof (prepare_ok _ _ _ _ _ _ _ Hprep) as Hall.
  unfold lbind at 1, quiet at 1.
  destruct (UDFRunner_._debug_task_pickling pickles_tasks st1.2 tasks) as [[]|e].
  2:{ intros Heq. injection Heq as _ <- <-. split; [intros ? ? _; discriminate|].
      intros _ Hin. inversion Hin. }
  unfold lbind at 1, UDFRunner_.bar at 1. unfold lbind at 1.
  destruct (UDFRunner_.for_deliveries true (executor tasks uuid4) st1)
    as [[st2 lg2] [[]|e]] eqn:Hloop.
  2:{ intros Heq. injection Heq as _ <- <-.
      destruct (for_deliveries_bar _ _ _ _ _ _ Hloop) as (j & -> & _ & _).
      split; [intros ? ? _; discriminate|].
      intros _ Hin. cbn [app] in Hin.
      apply elem_of_cons in Hin as [Hin|Hin]; [discriminate|].
      apply elem_of_replicate in Hin as [Hin _]. discriminate. }
  destruct (for_deliveries_bar _ _ _ _ _ _ Hloop) as (j & -> & _ & Hj).
  rewrite (Hj eq_refl).
  apply for_deliveries_ok in Hloop; [|exact Hall].
  unfold lbind at 1, UDFRunner_.bar at 1. unfold lbind at 1, quiet at 1.
  unfold UDFRunner_.for_udfs.
  destruct (clear_all_views_total (_udfs st2.2) st2.1 Hloop) as (udfs' & Hclear & Hall' & _).
  rewrite Hclear. unfold quiet. cbn [fst snd _udfs UDFRunner_.with_udfs].
  destruct (results_as_dicts_total udfs' Hall') as [g Hg]. rewrite Hg.
  intros Heq. injection Heq as _ <- <-. split; [|discriminate].
  intros st1' tasks' Heq _. injection Heq as _ <-.
  cbn [app]. rewrite ?app_nil_r. reflexivity.
Qed.

(** X22: a ROI whose size is not the number of navigation positions of
    the dataset stops both runs before anything happens: [ValueError],
    the store is as before (no buffer allocated, no metadata set, no
    [preprocess] called), nothing is shown and nothing is yielded,
    whatever the executor would deliver. *)
Theorem roi_mismatch_stops_the_run (dataset : DataSet) (executor : UDFRunner_.Executor)
    (cancel_id : string) (roi : Roi) (progress : bool) (corrections : option CorrectionSet)
    (backends : option (list string)) (st : heap * UDFRunner) :
  length roi <> foldr Nat.mul 1 (nav (ds_shape dataset)) ->
  UDFRunner_.run_for_dataset uuid4 pickles_tasks dataset executor (Some roi) progress
    corrections backends st = (st, [], Raise ValueError)
  /\ UDFRunner_.run_for_dataset_async dataset executor cancel_id (Some roi) corrections
       backends st = (st, [], Raise ValueError).
Proof.
  intros Hne.
  assert (Hprep : UDFRunner_._prepare_run_for_dataset dataset (Some roi) corrections backends st
                  = (st, Raise ValueError)).
  { unfold UDFRunner_._prepare_run_for_dataset, bind, lift, UDFRunner_._check_preconditions.
    apply Nat.eqb_neq in Hne. rewrite Hne. reflexivity. }
  split.
  - unfold UDFRunner_.run_for_dataset, lbind, quiet. rewrite Hprep. reflexivity.
  - unfold UDFRunner_.run_for_dataset_async, UDFRunner_.gbind, UDFRunner_.glift.
    rewrite Hprep. reflexivity.
Qed.

End Sync.

End SyncFacts.


(** ** [UDFData]: what is read after a view setter *)

Section ViewFacts.
Context `{Buffers}.

Lemma get_buffers_in (its : dict pyobj) (k : string) (b : BufferWrapper) :
  (k, b) ∈ UDFData_._get_buffers_of its false -> (k, PyBuffer b) ∈ its.
Proof.
  induction its as [|[k0 v] its IH]; simpl; intros Hin.
  - apply elem_of_nil in Hin. destruct Hin.
  - destruct v as [| | | | |b0]; simpl in Hin; try (apply list_elem_of_further, IH, Hin).
    rewrite andb_false_r in Hin. apply elem_of_cons in Hin as [Heq|Hin].
    + injection Heq as -> ->. apply list_elem_of_here.
    + apply list_elem_of_further, IH, Hin.
Qed.

Lemma views_of_lookup getter bufs (h h' : heap) (vs : dict aref) (k : string)
    (b : BufferWrapper) :
  NoDup (map fst bufs) ->
  views_of getter bufs h = (h', Ok vs) ->
  (k, b) ∈ bufs ->
  exists a, dict_get k vs = Some a /\ exists h0 h1, getter b h0 = (h1, Ok a).
Proof.
  revert h vs. induction bufs as [|[k0 b0] bufs IH]; intros h vs Hnd Hv Hin.
  - apply elem_of_nil in Hin. destruct Hin.
  - cbn [views_of] in Hv. cbn [map fst] in Hnd. apply NoDup_cons in Hnd as [Hk0 Hnd].
    destruct (getter b0 h) as [h1 [a0|e]] eqn:Hg; [|discriminate].
    destruct (views_of getter bufs h1) as [h2 [vs'|e]] eqn:Hrest; [|discriminate].
    injection Hv as <- <-. cbn [dict_get].
    apply elem_of_cons in Hin as [Heq|Hin].
    + injection Heq as -> ->. rewrite String.eqb_refl. exists a0. split; [reflexivity|].
      exists h, h1. exact Hg.
    + destruct (String.eqb k k0) eqn:E.
      * apply String.eqb_eq in E. subst k0. exfalso. apply Hk0.
        apply list_elem_of_fmap. exists (k, b). split; [reflexivity | exact Hin].
      * exact (IH h1 vs' Hnd Hrest Hin).
Qed.

(** X2: what [__getattr__] gives for a buffer after a view setter.  For
    a container with distinct names whose views are all set or all
    cleared, after any of the [set_view_for_*] methods has returned the
    views are the arrays that the getter of the method gave for the
    buffers, one after the other, and [__getattr__(k)] for a buffer [k]
    (a name without leading underscore) returns the array that the
    getter gave for that buffer; once the views are cleared it returns
    [raw_data] of the buffer again; and item access returns the buffer
    object itself all the time. *)
Theorem buffers_read_as_views_after_set getter (h h' : heap) (d d' : UDFData)
    (k : string) (b : BufferWrapper) :
  aligned d ->
  UDFData_.set_view_with getter (h, d) = ((h', d'), Ok tt) ->
  (k, b) ∈ UDFData_._get_buffers d false ->
  String.prefix "_" k = false ->
  exists vs a,
    views_of getter (UDFData_._get_buffers d false) h = (h', Ok vs)
    /\ dict_get k vs = Some a
    /\ (exists h0 h1, getter b h0 = (h1, Ok a))
    /\ UDFData_.__getattr__ d' k = Ok (PyArray a)
    /\ UDFData_.__getattr__ (UDFData_.clear_views d') k = Ok (raw_data_obj b)
    /\ UDFData_.__getitem__ d' k = Ok (PyBuffer b).
Proof.
  intros Hal Hset Hin Hpub.
  pose proof (set_view_with_aligned getter h d Hal) as Hc.
  destruct (views_of getter (UDFData_._get_buffers d false) h) as [h1 [vs|e]] eqn:Hv.
  2:{ destruct Hc as [Hc _]. rewrite Hset in Hc. discriminate. }
  rewrite Hc in Hset. injection Hset as <- <-.
  destruct Hal as [Hnd _].
  assert (Hndb : NoDup (map fst (UDFData_._get_buffers d false))).
  { eapply sublist_NoDup; [exact Hnd | apply get_buffers_sublist]. }
  destruct (views_of_lookup getter _ h h1 vs k b Hndb Hv Hin) as (a & Ha & Hget).
  assert (Hdata : dict_get k (_data d) = Some (PyBuffer b)).
  { apply dict_get_of_item; [exact Hnd|]. apply get_buffers_in. exact Hin. }
  exists vs, a. split; [reflexivity|]. split; [exact Ha|]. split; [exact Hget|].
  split; [|split].
  - unfold UDFData_.__getattr__, UDFData_._get_view_or_data, dict_contains, dict_getitem.
    rewrite Hpub. cbn [_views UDFData_.with_views]. rewrite Ha. reflexivity.
  - unfold UDFData_.__getattr__, UDFData_._get_view_or_data, dict_contains, dict_getitem.
    rewrite Hpub. cbn [_views _data UDFData_.clear_views UDFData_.with_views dict_get].
    rewrite Hdata. reflexivity.
  - unfold UDFData_.__getitem__, dict_getitem. cbn [_data UDFData_.with_views].
    rewrite Hdata. reflexivity.
Qed.

End ViewFacts.


(** * The properties at concrete inputs *)

(** The small NumPy is coherent: a cast is safe exactly when promotion
    gives the target, and promotion does not depend on the order. *)
Lemma small_numpy_safe_promote (a b : SmallNumpy.dt) :
  SmallNumpy.safe a b = true <-> SmallNumpy.promote a b = b.
Proof. destruct a, b; simpl; split; first [reflexivity | discriminate]. Qed.

Lemma small_numpy_promote_comm (a b : SmallNumpy.dt) :
  SmallNumpy.promote a b = SmallNumpy.promote b a.
Proof. destruct a, b; reflexivity. Qed.

#[local] Existing Instance small_numpy.
#[local] Existing Instance Examples.small_buffers.

(** C10 at a [UDFData] with one buffer and its view: [get] with a
    default, for a key that is not there. *)
Lemma get_absent_raises_AttributeError_witness :
  UDFData_.get
    {| _data := [("pixelsum", PyBuffer (Examples.buffer "nav" SmallNumpy.float32 None))];
       _views := [("pixelsum", 0)] |}
    "missing" (PyInt 0)
  = Raise AttributeError.
Proof.
  apply get_absent_raises_AttributeError.
  - intros k. unfold dict_contains. simpl.
    destruct (String.eqb k "pixelsum"); [reflexivity | discriminate].
  - reflexivity.
Defined.

(** C8 does not hold as stated: a UDF with both [process_tile] and
    [process_frame] is not refused, [get_method] answers ['tile']. *)
Lemma get_method_two_declared_counterexample :
  declared_methods (Examples.new_udf Examples.TileAndFrameUDF []) = 2
  /\ UDF_.get_method (Examples.new_udf Examples.TileAndFrameUDF []) = Ok "tile".
Proof. split; reflexivity. Qed.

(** C9 at a runner with a UDF for ['cuda'] and ['cupy'] and one for
    ['cupy'] and ['numpy']. *)
Lemma cuda_and_cupy_runs_host_mode_witness :
  let u := Examples.new_udf Examples.DeviceUDF [("backends", PyStrTuple ["cuda"; "cupy"])] in
  let v := Examples.new_udf Examples.DeviceUDF [] in
  u ∈ [u] /\ u ∉ [v].
Proof.
  intros u v.
  apply (cuda_and_cupy_runs_host_mode {| _udfs := [u; v]; _debug := false |} u [u] [v]).
  - reflexivity.
  - simpl. apply list_elem_of_here.
  - apply (bool_decide_unpack _). vm_compute. exact I.
  - apply (bool_decide_unpack _). vm_compute. exact I.
Defined.

(** C4 at the task of the specification's scenario, limited to [{cpu}]. *)
Lemma get_resources_by_common_backends_witness :
  UDFTask_.get_resources (Examples.scenario_task (Some ["numpy"]))
  = Ok (<[ "CPU" := 1 ]> {[ "compute" := 1 ]}).
Proof.
  assert (Hne : task_udfs (Examples.scenario_task (Some ["numpy"])) <> []) by discriminate.
  apply (proj1 (proj2 (get_resources_by_common_backends (Examples.scenario_task (Some ["numpy"])) Hne))).
  - split; [|apply list_elem_of_here].
    repeat constructor; apply (bool_decide_unpack _); vm_compute; exact I.
  - intros [_ Hlimit]. simpl in Hlimit. apply list_elem_of_singleton in Hlimit. discriminate.
  - intros [_ Hlimit]. simpl in Hlimit. apply list_elem_of_singleton in Hlimit. discriminate.
Defined.

(** The same UDFs limited to [{cupy}]: no common backend. *)
Example get_resources_scenario_cupy :
  UDFTask_.get_resources (Examples.scenario_task (Some ["cupy"])) = Raise ValueError.
Proof. vm_compute. reflexivity. Qed.

(** The default merge at [PixelsumUDF]: one ['nav'] buffer, the
    destination holds 0 and the partial result 7. *)
Lemma default_merge_spec_witness :
  let self := Examples.new_udf Examples.PixelsumUDF [] in
  let dest := [("pixelsum", PyArray 0)] in
  let src := [("pixelsum", PyArray 1)] in
  let h := [(SmallNumpy.float32, [0%Z]); (SmallNumpy.float32, [7%Z])] in
  let out := UDF_.default_merge dest src (h, self) in
  out.2 = Ok tt
  /\ out.1.1 = [(SmallNumpy.float32, [7%Z]); (SmallNumpy.float32, [7%Z])]
  /\ copied src dest h out.1.1.
Proof.
  intros self dest src h out.
  destruct (default_merge_spec self
              [("pixelsum", Examples.buffer "nav" SmallNumpy.float32 None)] dest src h)
    as (_ & _ & Hnav).
  - reflexivity.
  - intros b buffers Hc. simpl in Hc. discriminate.
  - apply NoDup_singleton.
  - split; [reflexivity|]. split; [reflexivity|].
    apply Hnav; [|reflexivity].
    repeat constructor.
Defined.

(** The default merge on a UDF with [sig] and [single] buffers. *)
Example default_merge_requires_custom :
  let self := Examples.new_udf Examples.DeviceUDF [] in
  let h := [(SmallNumpy.float32, [0%Z]); (SmallNumpy.float32, [7%Z])] in
  UDF_.default_merge [("on_device", PyArray 0)] [("on_device", PyArray 1)] (h, self)
  = ((h, UDF_.with_cache self (Some true)), Raise NotImplementedError).
Proof. reflexivity. Qed.

(** The check of the default merge asks whether the dtype of the
    destination casts safely to the dtype of the source. *)
Example check_cast_direction :
  let h := [(SmallNumpy.float32, [0%Z]); (SmallNumpy.float64, [7%Z])] in
  (UDF_.check_cast (PyArray 0) (PyArray 1) h).2 = Ok tt
  /\ (UDF_.check_cast (PyArray 1) (PyArray 0) h).2 = Raise TypeError.
Proof. split; reflexivity. Qed.

(** C1: the default merge of [PixelsumUDF] (one ['nav'] buffer) at the
    two inputs where the check and the copy part ways.  The copy
    [dest[k][:] = src[k]] casts the source to the dtype of the
    destination, and [check_cast(dest[k], src[k])] tests the cast from
    the destination to the source.  With a [float32] destination and a
    [float64] partial result the cast of the copy is not safe, and the
    merge returns normally with the value narrowed into the destination;
    with a [float64] destination and a [float32] partial result the cast
    of the copy is safe, and the merge raises [TypeError] and copies
    nothing. *)
Theorem default_merge_checks_the_reverse_cast :
  let self := Examples.new_udf Examples.PixelsumUDF [] in
  let dest := [("pixelsum", PyArray 0)] in
  let src := [("pixelsum", PyArray 1)] in
  let narrowing := [(SmallNumpy.float32, [0%Z]); (SmallNumpy.float64, [7%Z])] in
  let widening := [(SmallNumpy.float64, [0%Z]); (SmallNumpy.float32, [7%Z])] in
  (can_cast_safe SmallNumpy.float64 SmallNumpy.float32 = false
   /\ UDF_.merge dest src (narrowing, self)
      = (([(SmallNumpy.float32, [7%Z]); (SmallNumpy.float64, [7%Z])],
          UDF_.with_cache self (Some false)), Ok tt))
  /\ (can_cast_safe SmallNumpy.float32 SmallNumpy.float64 = true
      /\ UDF_.merge dest src (widening, self)
         = ((widening, UDF_.with_cache self (Some false)), Raise TypeError)).
Proof. repeat split. Qed.

(** C5 does not hold as stated: in a run without device-mode UDFs the
    runner saves and restores nothing, so a device that the code of a
    UDF selects stays selected, when the run returns and when it
    raises. *)
Lemma run_for_partition_host_mode_counterexample :
  UDFRunner_._udf_lists Examples.cuda_host_runner "cuda"
  = Ok (_udfs Examples.cuda_host_runner, [])
  /\ device_id Examples.cuda_worker = 0
  /\ is_ok (Examples.host_mode_run (Ok tt)).2 = true
  /\ device_id (Examples.host_mode_run (Ok tt)).1 = 1
  /\ (Examples.host_mode_run (Raise RuntimeError)).2 = Raise RuntimeError
  /\ device_id (Examples.host_mode_run (Raise RuntimeError)).1 = 1.
Proof. repeat split. Qed.

(** C5, as amended, at a CUDA worker on device 0 that is told to use
    device 1, with a device-mode UDF and a processing phase that
    raises. *)
Lemma run_for_partition_restores_device_witness :
  let out := UDFRunner_.run_for_partition unit 2 true "cuda" (Some 1)
               Examples.init_fine Examples.corrections_fine Examples.run_failing
               Examples.wrapup_fine Examples.no_results
               Examples.device_runner (Examples.part 0 6) None None Examples.cuda_worker in
  out.2 = Raise RuntimeError /\ device_id out.1 = device_id Examples.cuda_worker.
Proof.
  intros out. split; [reflexivity|].
  apply (run_for_partition_restores_device unit 2 true "cuda" (Some 1)
           Examples.init_fine Examples.corrections_fine Examples.run_failing
           Examples.wrapup_fine Examples.no_results
           Examples.device_runner (Examples.part 0 6) None None Examples.cuda_worker).
  simpl. lia.
Defined.

(** The device is 1 while the phases run. *)
Example run_try_switches_device :
  (UDFRunner_.run_try unit 2 true "cuda" (Some 1)
     Examples.init_fine Examples.corrections_fine Examples.run_failing Examples.wrapup_fine
     Examples.device_runner (Examples.part 0 6) None None (None, Examples.cuda_worker)).1
  = (Some 0, {| device_id := 1; num_threads := 4; objects := tt |}).
Proof. reflexivity. Qed.

(** C6 on the dtypes of the specification's third scenario. *)
Example input_dtype_scenarios :
  UDFRunner_._get_dtype
    {| _udfs := [Examples.new_udf Examples.PixelsumUDF []]; _debug := false |}
    SmallNumpy.int16 = SmallNumpy.float32
  /\ UDFRunner_._get_dtype
    {| _udfs := [Examples.new_udf Examples.NativeDtypeUDF []]; _debug := false |}
    SmallNumpy.complex64 = SmallNumpy.complex64
  /\ UDFRunner_._get_dtype
    {| _udfs := [Examples.new_udf Examples.PixelsumUDF [];
                 Examples.new_udf Examples.NativeDtypeUDF []]; _debug := false |}
    SmallNumpy.int32 = SmallNumpy.float64.
Proof. repeat split. Qed.

(** C7 on three partitions and a ROI that misses the second one. *)
Example make_udf_tasks_skips_empty :
  map idx (UDFRunner_._make_udf_tasks Examples.pixelsum_runner Examples.dataset3
             (Some (replicate 6 true ++ replicate 6 false ++ replicate 4 true)) None None)
  = [0; 2]
  /\ map idx (UDFRunner_._make_udf_tasks Examples.pixelsum_runner Examples.dataset3
                None None None)
  = [0; 1; 2].
Proof. split; reflexivity. Qed.

(** C3 on three partitions: four snapshots, and the store at the end
    holds the last partial result in the global buffer. *)
Example async_three_partitions :
  let out := UDFRunner_.run_for_dataset_async Examples.dataset3 Examples.inline_executor
               "cancel" None None None ([], Examples.pixelsum_runner) in
  out.2 = Ok tt
  /\ count_merged out.1.2 = 3
  /\ count_yielded out.1.2 = 4
  /\ out.1.1.1 !! 0 = Some (SmallNumpy.float32, [3%Z]).
Proof. vm_compute. repeat split. Qed.

(** What the four snapshots show of the global buffer: the partial
    result merged last, and the final snapshot repeats the third. *)
Example async_three_partitions_snapshots :
  let out := UDFRunner_.run_for_dataset_async Examples.dataset3 Examples.inline_executor
               "cancel" None None None ([], Examples.pixelsum_runner) in
  map (fun s => (groups s, arrays s !! 0)) (snapshots out.1.2)
  = map (fun v => ([[("pixelsum",
                      PyBuffer (Examples.with_storage
                                  (Examples.buffer "nav" SmallNumpy.float32 None) 0))]],
                   Some (SmallNumpy.float32, [v])))
        [1%Z; 2%Z; 3%Z; 3%Z].
Proof. vm_compute. reflexivity. Qed.

(** C3 with an executor that delivers nothing: one snapshot. *)
Example async_empty_stream :
  let out := UDFRunner_.run_for_dataset_async Examples.dataset3 (fun _ _ => [])
               "cancel" None None None ([], Examples.pixelsum_runner) in
  out.2 = Ok tt /\ count_yielded out.1.2 = 1.
Proof. vm_compute. repeat split. Qed.

(** ** More properties at concrete inputs *)

(** X2 at a container with one allocated buffer (array 0) and a getter
    that makes a new array object for the view (array 1). *)
Lemma buffers_read_as_views_after_set_witness :
  let b := Examples.with_storage (Examples.buffer "nav" SmallNumpy.float32 None) 0 in
  let d := UDFData_.__init__ [("pixelsum", PyBuffer b)] in
  let h := [(SmallNumpy.float32, [0%Z])] in
  let h' := [(SmallNumpy.float32, [0%Z]); (SmallNumpy.float32, [0%Z])] in
  let d' := UDFData_.with_views d [("pixelsum", 1)] in
  exists vs a,
    views_of Examples.fresh_view (UDFData_._get_buffers d false) h = (h', Ok vs)
    /\ dict_get "pixelsum" vs = Some a
    /\ (exists h0 h1, Examples.fresh_view b h0 = (h1, Ok a))
    /\ UDFData_.__getattr__ d' "pixelsum" = Ok (PyArray a)
    /\ UDFData_.__getattr__ (UDFData_.clear_views d') "pixelsum" = Ok (raw_data_obj b)
    /\ UDFData_.__getitem__ d' "pixelsum" = Ok (PyBuffer b).
Proof.
  intros b d h h' d'.
  apply (buffers_read_as_views_after_set Examples.fresh_view h h' d d' "pixelsum" b).
  - split; [apply NoDup_singleton | left; reflexivity].
  - reflexivity.
  - apply list_elem_of_here.
  - reflexivity.
Defined.

(** The same container read before the setter, after it, and after
    [clear_views]: the storage, the view, the storage. *)
Example read_before_and_after_set :
  let b := Examples.with_storage (Examples.buffer "nav" SmallNumpy.float32 None) 0 in
  let d := UDFData_.__init__ [("pixelsum", PyBuffer b)] in
  let d' := (UDFData_.set_view_with Examples.fresh_view ([(SmallNumpy.float32, [0%Z])], d)).1.2 in
  UDFData_.__getattr__ d "pixelsum" = Ok (PyArray 0)
  /\ UDFData_.__getattr__ d' "pixelsum" = Ok (PyArray 1)
  /\ UDFData_.__getattr__ (UDFData_.clear_views d') "pixelsum" = Ok (PyArray 0).
Proof. repeat split. Qed.

(** X5 at a destination with two arrays and a source that lacks the
    second key: the first array is copied, then [KeyError]. *)
Lemma default_merge_stops_at_first_failure_witness :
  let self := Examples.new_udf Examples.PixelsumUDF [] in
  let src := [("a", PyArray 2)] in
  let h := [(SmallNumpy.float32, [0%Z]); (SmallNumpy.float32, [1%Z]);
            (SmallNumpy.float32, [7%Z])] in
  let h1 := [(SmallNumpy.float32, [7%Z]); (SmallNumpy.float32, [1%Z]);
             (SmallNumpy.float32, [7%Z])] in
  let done := [("a", PyArray 0)] in
  let v := PyArray 1 in
  let out := UDF_.default_merge (done ++ ("b", v) :: []) src (h, self) in
  out.2 = Raise KeyError /\ out.1.1 = h1.
Proof.
  intros self src h h1 done v.
  apply (default_merge_stops_at_first_failure self done [] src "b" v KeyError h h1).
  - reflexivity.
  - apply (bool_decide_unpack _). vm_compute. exact I.
  - eapply copied_cons; [reflexivity | reflexivity | reflexivity | constructor].
  - reflexivity.
Defined.

(** X6 at two sources that differ in a key the destination does not
    have. *)
Lemma default_merge_ignores_other_keys_witness :
  let self := Examples.new_udf Examples.PixelsumUDF [] in
  let h := [(SmallNumpy.float32, [0%Z]); (SmallNumpy.float32, [7%Z])] in
  let dest := [("pixelsum", PyArray 0)] in
  let src := [("pixelsum", PyArray 1)] in
  let src' := [("pixelsum", PyArray 1); ("other", PyInt 3)] in
  UDF_.default_merge dest src (h, self) = UDF_.default_merge dest src' (h, self).
Proof.
  intros self h dest src src'.
  apply (default_merge_ignores_other_keys self dest src src' h).
  intros k Hin. simpl in Hin. apply list_elem_of_singleton in Hin. subst k. reflexivity.
Defined.

(** X7 at the task of the specification's scenario, limited to [{cpu}]. *)
Lemma get_resources_compute_always_witness :
  let r : gmap string nat := <[ "CPU" := 1 ]> {[ "compute" := 1 ]} in
  r !! "compute" = Some 1 /\ ~ (is_Some (r !! "CPU") /\ is_Some (r !! "CUDA")).
Proof.
  intros r.
  apply (get_resources_compute_always (Examples.scenario_task (Some ["numpy"])) r).
  vm_compute. reflexivity.
Defined.

(** X8 at the same task without a limit. *)
Lemma get_resources_fails_without_known_backend_witness :
  let task := Examples.scenario_task None in
  (UDFTask_.get_resources task = Raise ValueError
   <-> ~ supported task "numpy" /\ ~ supported task "cuda" /\ ~ supported task "cupy")
  /\ (forall e, UDFTask_.get_resources task = Raise e -> e = ValueError).
Proof.
  intros task. apply (get_resources_fails_without_known_backend task). discriminate.
Defined.

(** X9 at the task of the scenario and the task with its UDFs swapped. *)
Lemma get_resources_order_independent_witness :
  let task := Examples.scenario_task None in
  let task' :=
    {| partition := Examples.part 0 6; idx := 0; task_roi := None;
       task_udfs := [Examples.new_udf Examples.PixelsumUDF [];
                     Examples.new_udf Examples.DeviceUDF []];
       task_backends := None; task_corrections := None |} in
  UDFTask_.get_resources task = UDFTask_.get_resources task'.
Proof.
  intros task task'. apply (get_resources_order_independent task task').
  - apply perm_swap.
  - reflexivity.
Defined.

(** X10 at the runner for a CUDA worker. *)
Lemma udf_lists_lose_nothing_witness :
  let u := Examples.new_udf Examples.DeviceUDF [("backends", PyStrTuple ["cuda"; "cupy"])] in
  let v := Examples.new_udf Examples.DeviceUDF [] in
  [u] ++ [v] ≡ₚ _udfs Examples.cuda_runner
  /\ [u] `sublist_of` _udfs Examples.cuda_runner
  /\ [v] `sublist_of` _udfs Examples.cuda_runner.
Proof.
  intros u v. apply (udf_lists_lose_nothing Examples.cuda_runner "cuda" [u] [v]).
  reflexivity.
Defined.

(** X12 at two partitions of four positions and a ROI with three
    entries. *)
Lemma roi_counts_add_up_witness :
  let roi := [true; false; true; true] in
  let ps := [Examples.part 0 2; Examples.part 2 4] in
  sum_list (map (fun p => UDFRunner_.count_nonzero (UDFRunner_._roi_for_partition roi p)) ps)
  = UDFRunner_.count_nonzero (take (4 - 0) (drop 0 roi)).
Proof.
  intros roi ps. apply (roi_counts_add_up roi ps 0 4).
  simpl. repeat split; lia.
Defined.

(** X13 at a UDF that prefers the native dtype, on complex data. *)
Lemma native_dtype_is_kept_witness :
  UDFRunner_._get_dtype
    {| _udfs := [Examples.new_udf Examples.NativeDtypeUDF []]; _debug := false |}
    SmallNumpy.complex64
  = SmallNumpy.complex64.
Proof.
  apply (native_dtype_is_kept
           {| _udfs := [Examples.new_udf Examples.NativeDtypeUDF []]; _debug := false |}
           SmallNumpy.complex64).
  constructor; [|constructor]. intros d'. destruct d'; reflexivity.
Defined.

(** X14 at the runner for a CUDA worker. *)
Lemma udf_lists_fit_backend_assignment_witness :
  let u := Examples.new_udf Examples.DeviceUDF [("backends", PyStrTuple ["cuda"; "cupy"])] in
  let v := Examples.new_udf Examples.DeviceUDF [] in
  UDFRunner_.assign_backends "cuda" ([], ([u], [v]))
  = (([], ([UDF_.with_backend u "cuda"], [UDF_.with_backend v "cupy"])), Ok tt).
Proof.
  intros u v.
  apply (udf_lists_fit_backend_assignment Examples.cuda_runner "cuda" [u] [v] []).
  reflexivity.
Defined.

(** X15 at the run of two UDFs on a CPU worker. *)
Lemma init_udfs_postcondition_witness :
  let st := Examples.before_init in
  let st' := Examples.after_init in
  SmallNumpy.float32 = UDFRunner_._get_dtype Examples.two_udfs_runner SmallNumpy.float32
  /\ UDFMeta_.input_dtype Examples.run_meta = SmallNumpy.float32
  /\ _tiling_scheme Examples.run_meta = Some [2; 16; 16]
  /\ UDFMeta_.device_class Examples.run_meta = "cpu"
  /\ Forall2 same_udf (st.2.1 ++ st.2.2) (st'.2.1 ++ st'.2.2)
  /\ Forall (fun u => meta u = Some Examples.run_meta /\ is_Some (results u)
                      /\ is_Some (task_data u)) (st'.2.1 ++ st'.2.2)
  /\ Forall (fun u => UDF_.xp true u = Ok numpy_module) st'.2.1
  /\ Forall (fun u => UDF_.xp true u = Ok cupy_module) st'.2.2.
Proof.
  intros st st'.
  apply (init_udfs_postcondition true Examples.keep_shape Examples.zeros_in
           Examples.one_scheme Examples.no_task_data Examples.two_udfs_runner
           (Examples.part 0 6) None None "cpu" st st' Examples.init_on_cpu.1.2
           Examples.run_meta [2; 16; 16] SmallNumpy.float32).
  vm_compute. reflexivity.
Defined.

(** X16 at the same run: one call of [preprocess], on the second UDF. *)
Lemma init_udfs_preprocess_calls_witness :
  let st := Examples.before_init in
  let log := Examples.init_on_cpu.1.2 in
  map (fun c => (who (callee c), what c)) log
  = flat_map (fun u => match cls_preprocess (__class__ u) with
                       | Some _ => [(who u, Preprocess)]
                       | None => []
                       end) (st.2.1 ++ st.2.2)
  /\ Forall (fun c => no_views (callee c)
                      /\ exists m0, meta (callee c) = Some m0
                                    /\ _tiling_scheme m0 = None /\ _slice m0 = None
                                    /\ UDFMeta_.input_dtype m0 = SmallNumpy.float32) log.
Proof.
  intros st log.
  apply (init_udfs_preprocess_calls true Examples.keep_shape Examples.zeros_in
           Examples.one_scheme Examples.no_task_data Examples.two_udfs_runner
           (Examples.part 0 6) None None "cpu" st Examples.after_init log
           Examples.run_meta [2; 16; 16] SmallNumpy.float32).
  vm_compute. reflexivity.
Defined.

(** The log of that run of [_init_udfs]. *)
Example init_log_on_cpu :
  map (fun c => (cls_name (__class__ (callee c)), what c)) Examples.init_on_cpu.1.2
  = [("PrePostUDF", Preprocess)].
Proof. vm_compute. reflexivity. Qed.

(** X18 at a run with a UDF without [process_*] methods behind a frame
    UDF. *)
Lemma udf_without_method_is_rejected_witness :
  let st := Examples.no_method_after_init in
  let tiles := Examples.read_one_tile (Examples.part 0 6) [2; 16; 16] None SmallNumpy.float32 in
  let out :=
    UDFRunner_._run_udfs true Examples.whole_partition Examples.read_one_tile Examples.as_it_is
      Examples.idle Examples.idle Examples.idle (Examples.part 0 6) [2; 16; 16] None
      SmallNumpy.float32 st in
  (tiles <> [] -> is_ok out.2 = false)
  /\ (tiles = [] -> st.2.2 = [] -> out = (st, [], Ok tt)).
Proof.
  intros st tiles out.
  apply (udf_without_method_is_rejected true Examples.whole_partition Examples.read_one_tile
           Examples.as_it_is Examples.idle Examples.idle Examples.idle
           (Examples.part 0 6) [2; 16; 16] None SmallNumpy.float32 st Examples.no_method_udf).
  - apply elem_of_app. left. apply (list_elem_of_lookup_2 _ 1). vm_compute. reflexivity.
  - vm_compute. reflexivity.
Defined.

(** The frame UDF in front of it gets its two frames before the run
    fails with [TypeError]. *)
Example run_with_udf_without_method :
  let out :=
    UDFRunner_._run_udfs true Examples.whole_partition Examples.read_one_tile Examples.as_it_is
      Examples.idle Examples.idle Examples.idle (Examples.part 0 6) [2; 16; 16] None
      SmallNumpy.float32 Examples.no_method_after_init in
  out.2 = Raise TypeError
  /\ map (fun c => (cls_name (__class__ (callee c)), what c)) out.1.2
     = [("PixelsumUDF", ProcessFrame 7); ("PixelsumUDF", ProcessFrame 8)].
Proof. vm_compute. split; reflexivity. Qed.


(** X17 at the run on a CPU worker: a frame UDF and a tile UDF, and one
    tile of two frames. *)
Lemma process_calls_see_their_slice_witness :
  let st := Examples.after_init in
  let log := Examples.run_on_cpu.1.2 in
  let r := Examples.run_on_cpu.2 in
  tiles_log Examples.whole_partition Examples.as_it_is (device_lib true st.2.2)
    (Examples.part 0 6) st.2.1 st.2.2 (is_ok r)
    (Examples.read_one_tile (Examples.part 0 6) [2; 16; 16] None SmallNumpy.float32)
    (map seen log).
Proof.
  intros st log r.
  apply (process_calls_see_their_slice true Examples.whole_partition Examples.read_one_tile
           Examples.as_it_is Examples.idle Examples.idle Examples.idle
           (Examples.part 0 6) [2; 16; 16] None SmallNumpy.float32 st
           Examples.run_on_cpu.1.1 log r).
  vm_compute. reflexivity.
Defined.

(** What the calls of that run show, written out: frame 7 with the slice
    of frame 0, frame 8 with the slice of frame 1, and the tile with the
    slice of the tile. *)
Example seen_in_run :
  let frame_udf := Examples.new_udf Examples.PixelsumUDF [] in
  let tile_udf := Examples.new_udf Examples.PrePostUDF [] in
  let frame_shape := {| nav := [1]; sig := [16; 16] |} in
  Examples.run_on_cpu.2 = Ok tt
  /\ map seen Examples.run_on_cpu.1.2
     = [(who frame_udf, ProcessFrame 7,
         Some {| origin := [0; 0; 0]; slice_shape := frame_shape |});
        (who frame_udf, ProcessFrame 8,
         Some {| origin := [1; 0; 0]; slice_shape := frame_shape |});
        (who tile_udf, ProcessTile Examples.two_frames,
         Some (tile_slice Examples.two_frames))].
Proof. vm_compute. split; reflexivity. Qed.

(** The frame UDF has run first, the tile UDF last: both read the slice
    of the tile. *)
Example slice_after_run :
  map meta_slice Examples.after_run.2.1
  = [Some (tile_slice Examples.two_frames); Some (tile_slice Examples.two_frames)].
Proof. vm_compute. reflexivity. Qed.

(** The calls of that run: two frames for the frame UDF, with the slices
    of the frames, and the tile for the tile UDF. *)
Example calls_of_run :
  map (fun c => (cls_name (__class__ (callee c)), what c,
                 option_map origin (meta_slice (callee c))))
      Examples.run_on_cpu.1.2
  = [("PixelsumUDF", ProcessFrame 7, Some [0; 0; 0]);
     ("PixelsumUDF", ProcessFrame 8, Some [1; 0; 0]);
     ("PrePostUDF", ProcessTile Examples.two_frames, Some [0; 0; 0])].
Proof. vm_compute. reflexivity. Qed.

(** X20 at the same run. *)
Lemma wrapup_leaves_no_views_witness :
  let st := Examples.after_run in
  let st' := Examples.wrapup_on_cpu.1.1 in
  Forall2 same_udf (st.2.1 ++ st.2.2) (st'.2.1 ++ st'.2.2)
  /\ Forall no_views (st'.2.1 ++ st'.2.2).
Proof.
  intros st st'.
  apply (wrapup_leaves_no_views Examples.flush_nothing Examples.export_as_it_is
           Examples.postprocess_of Examples.idle_cleanup Examples.pickles Examples.pickles
           Examples.two_udfs_runner (Examples.part 0 6) st st' Examples.wrapup_on_cpu.1.2).
  vm_compute. reflexivity.
Defined.

(** X21 at the same run: [cleanup] for the frame UDF, [postprocess] and
    [cleanup] for the other one. *)
Lemma wrapup_calls_in_order_witness :
  let st := Examples.after_run in
  let log := Examples.wrapup_on_cpu.1.2 in
  map (fun c => (who (callee c), what c)) log
  = flat_map (fun u => match Examples.postprocess_of (__class__ u) with
                       | Some _ => [(who u, Postprocess)]
                       | None => []
                       end ++ [(who u, Cleanup)]) (st.2.1 ++ st.2.2)
  /\ Forall (fun c => what c = Postprocess -> no_views (callee c)) log.
Proof.
  intros st log.
  apply (wrapup_calls_in_order Examples.flush_nothing Examples.export_as_it_is
           Examples.postprocess_of Examples.idle_cleanup Examples.pickles Examples.pickles
           Examples.two_udfs_runner (Examples.part 0 6) st Examples.wrapup_on_cpu.1.1 log).
  vm_compute. reflexivity.
Defined.

Example wrapup_log_on_cpu :
  map (fun c => (cls_name (__class__ (callee c)), what c)) Examples.wrapup_on_cpu.1.2
  = [("PixelsumUDF", Cleanup); ("PrePostUDF", Postprocess); ("PrePostUDF", Cleanup)].
Proof. vm_compute. reflexivity. Qed.


(** X22 at the dataset with 16 positions and a ROI with one entry. *)
Lemma roi_mismatch_stops_the_run_witness :
  let st := ([], Examples.pixelsum_runner) in
  UDFRunner_.run_for_dataset "c0ffee" Examples.pickles Examples.dataset3
    Examples.inline_executor (Some [true]) true None None st = (st, [], Raise ValueError)
  /\ UDFRunner_.run_for_dataset_async Examples.dataset3 Examples.inline_executor "cancel"
       (Some [true]) None None st = (st, [], Raise ValueError).
Proof.
  intros st.
  apply (roi_mismatch_stops_the_run "c0ffee" Examples.pickles Examples.dataset3
           Examples.inline_executor "cancel" [true] true None None st).
  simpl. lia.
Defined.

(** X24 at [PixelsumUDF] on three partitions. *)
Lemma run_for_dataset_is_last_snapshot_witness :
  let st := ([], Examples.pixelsum_runner) in
  let st' := Examples.sync_run.1.1 in
  exists pre,
    UDFRunner_.run_for_dataset_async Examples.dataset3 Examples.inline_executor "c0ffee"
      None None None st
    = (st', pre ++ [Yielded {| groups := Examples.sync_result; arrays := st'.1 |}], Ok tt).
Proof.
  intros st st'.
  apply (run_for_dataset_is_last_snapshot "c0ffee" Examples.pickles Examples.dataset3
           Examples.inline_executor None true None None st st' Examples.sync_run.1.2
           Examples.sync_result).
  - constructor; [|constructor]. split; [reflexivity|]. split; [constructor|].
    intros buffers Hb. injection Hb as <-. apply NoDup_singleton.
  - vm_compute. reflexivity.
Defined.

(** What the synchronous run returns: the global buffer, which holds the
    partial result that was merged last. *)
Example sync_run_result :
  Examples.sync_run.2
  = Ok [[("pixelsum",
          PyBuffer (Examples.with_storage (Examples.buffer "nav" SmallNumpy.float32 None) 0))]]
  /\ Examples.sync_run.1.1.1 !! 0 = Some (SmallNumpy.float32, [3%Z]).
Proof. vm_compute. split; reflexivity. Qed.

(** X25 at the same run: three tasks, three deliveries. *)
Lemma progress_bar_of_run_witness :
  let st := ([], Examples.pixelsum_runner) in
  let log := Examples.sync_run.1.2 in
  let r := Examples.sync_run.2 in
  (forall st1 tasks,
     UDFRunner_._prepare_run_for_dataset Examples.dataset3 None None None st
     = (st1, Ok tasks) ->
     is_ok r = true ->
     log = BarOpened (length tasks)
           :: replicate (length (Examples.inline_executor tasks "c0ffee")) (BarUpdated 1)
              ++ [BarClosed])
  /\ (is_ok r = false -> BarClosed ∉ log).
Proof.
  intros st log r.
  apply (progress_bar_of_run "c0ffee" Examples.pickles Examples.dataset3
           Examples.inline_executor None None None st Examples.sync_run.1.1 log r).
  vm_compute. reflexivity.
Defined.

Example sync_run_bar :
  Examples.sync_run.1.2
  = [BarOpened 3; BarUpdated 1; BarUpdated 1; BarUpdated 1; BarClosed].
Proof. vm_compute. reflexivity. Qed.
